(** * safari-cli: the WebDriver protocol client and the session lifecycle

    A shallow embedding of [src/webdriver.ts], [src/session.ts] and the
    session commands of [src/cli.ts], with the properties of the
    specification stated and proved (or refuted) over it.

    The program is TypeScript running on Node.  What the platform supplies
    (IEEE numbers and their printing, [JSON.parse], [JSON.stringify], the
    network, the operating system) is kept abstract: numbers and JSON are
    parameters of the development, the network and the operating system are
    an oracle [Env] that answers each interaction.  Every theorem therefore
    holds for whatever the platform does. *)

From Stdlib Require Import String Ascii List ZArith Bool Lia DecimalString.
Import ListNotations.
Local Open Scope string_scope.
Local Open Scope Z_scope.

Set Implicit Arguments.
Set Warnings "-register-all,-notation-for-abbreviation".

(** ** JavaScript values *)

(** What the program needs of the JavaScript number type. *)
Class JSNumber (number : Type) := {
  (** [String(n)], as used by template literals. *)
  Number_toString : number -> string;
  (** [Boolean(n)]: false exactly for [0], [-0] and [NaN]. *)
  Number_toBoolean : number -> bool;
  (** [Number(s)] for a string [s]; [None] when it is [NaN]. *)
  Number_ofString : string -> option number
}.

Module JS.
Section Values.
Context {number : Type} `{JSNumber number}.

(** The values [JSON.parse] can produce, and [undefined].  An object is the
    list of its own enumerable properties in enumeration order (the order
    of [Object.keys]). *)
Inductive jsval : Type :=
| JUndefined
| JNull
| JBool (b : bool)
| JNumber (n : number)
| JString (s : string)
| JArray (items : list jsval)
| JObject (fields : list (string * jsval)).

(** Truthiness, as tested by [if], [!], [&&] and [||]. *)
Definition ToBoolean (v : jsval) : bool :=
  match v with
  | JUndefined | JNull => false
  | JBool b => b
  | JNumber n => Number_toBoolean n
  | JString s => negb (String.eqb s "")
  | JArray _ | JObject _ => true
  end.

(** [String(v)], the conversion a template literal applies.  An array
    joins its elements with commas, printing [null] and [undefined]
    as nothing. *)
Fixpoint ToString (v : jsval) : string :=
  match v with
  | JUndefined => "undefined"
  | JNull => "null"
  | JBool b => if b then "true" else "false"
  | JNumber n => Number_toString n
  | JString s => s
  | JArray items =>
      (fix join (l : list jsval) : string :=
         match l with
         | [] => ""
         | x :: r =>
             let here := match x with
                         | JUndefined | JNull => ""
                         | _ => ToString x
                         end in
             match r with
             | [] => here
             | _ :: _ => here ++ "," ++ join r
             end
         end) items
  | JObject _ => "[object Object]"
  end.

(** [a || b] and [a && b] on values. *)
Definition js_or (a b : jsval) : jsval := if ToBoolean a then a else b.
Definition js_and (a b : jsval) : jsval := if ToBoolean a then b else a.

(** [v === s] for a string literal [s]. *)
Definition strict_eq_string (v : jsval) (s : string) : bool :=
  match v with
  | JString t => String.eqb t s
  | _ => false
  end.

Fixpoint lookup (k : string) (fields : list (string * jsval)) : option jsval :=
  match fields with
  | [] => None
  | (k', v) :: rest => if String.eqb k' k then Some v else lookup k rest
  end.

(** Decimal name of an array index. *)
Definition index_key (i : nat) : string :=
  NilZero.string_of_uint (Nat.to_uint i).

Fixpoint index_keys (from count : nat) : list string :=
  match count with
  | O => []
  | S c => index_key from :: index_keys (S from) c
  end.

Fixpoint lookup_index {A} (k : string) (from : nat) (l : list A) : option A :=
  match l with
  | [] => None
  | x :: r => if String.eqb (index_key from) k then Some x
              else lookup_index k (S from) r
  end.

Fixpoint chars (s : string) : list jsval :=
  match s with
  | EmptyString => []
  | String c r => JString (String c EmptyString) :: chars r
  end.

(** [Object.keys(v)]: [None] stands for the [TypeError] raised on
    [null] and [undefined]. *)
Definition Object_keys (v : jsval) : option (list string) :=
  match v with
  | JUndefined | JNull => None
  | JBool _ | JNumber _ => Some []
  | JString s => Some (index_keys 0 (String.length s))
  | JArray items => Some (index_keys 0 (List.length items))
  | JObject fields => Some (map fst fields)
  end.

(** [v[k]] for a property name [k] that is an own enumerable property of
    [v] or is defined nowhere on its prototype chain: the program reads
    only [value], [error], [message], [sessionId], [pid], [port],
    [startedAt] and names returned by [Object.keys].  [None] stands for
    the [TypeError] raised on [null] and [undefined]; a missing property
    reads as [undefined]. *)
Definition Get (v : jsval) (k : string) : option jsval :=
  match v with
  | JUndefined | JNull => None
  | JBool _ | JNumber _ => Some JUndefined
  | JString s =>
      Some (match lookup_index k 0 (chars s) with Some c => c | None => JUndefined end)
  | JArray items =>
      Some (match lookup_index k 0 items with Some x => x | None => JUndefined end)
  | JObject fields =>
      Some (match lookup k fields with Some x => x | None => JUndefined end)
  end.

(** [keys[0]] used as a property name: a missing first key is [undefined],
    which names the property ["undefined"]. *)
Definition first_key (keys : list string) : string :=
  match keys with
  | [] => "undefined"
  | k :: _ => k
  end.

(** The object has an own property [error]. *)
Definition has_error_field (v : jsval) : bool :=
  match v with
  | JObject fields => match lookup "error" fields with Some _ => true | None => false end
  | _ => false
  end.
End Values.
Arguments jsval number : clear implicits.
End JS.
Import JS.

(** Decimal text of an integer, as a template literal prints it. *)
Definition decimal (z : Z) : string := NilZero.string_of_int (Z.to_int z).

(** ** Errors and outcomes *)

Section Program.
Context {number : Type} `{JSNumber number}.
Local Notation value := (jsval number).

(** [class WebDriverError extends Error]: the message, and the two optional
    public fields.  [statusCode] is [None] when the constructor was called
    without it; [webdriverError] is [JUndefined] then. *)
Record WebDriverError := mkWebDriverError {
  message : string;
  statusCode : option Z;
  webdriverError : value
}.

(** What can be thrown: a [WebDriverError], or some other [Error] (a
    [TypeError], a system error of the file system or of [process.kill], the
    timeout of [waitForDriver]) with its name and its message. *)
Inductive exn :=
| WDError (e : WebDriverError)
| OtherError (name msg : string).

Definition exn_message (e : exn) : string :=
  match e with
  | WDError e => message e
  | OtherError _ msg => msg
  end.

(** [String(err)] for a thrown error. *)
Definition exn_toString (e : exn) : string :=
  match e with
  | WDError e => "WebDriverError: " ++ message e
  | OtherError name msg =>
      if String.eqb msg "" then name else name ++ ": " ++ msg
  end.

(** How a computation ends: it returns, it throws, or the process exits. *)
Inductive outcome (A : Type) :=
| Ret (a : A)
| Throw (e : exn)
| Exit (code : Z).
Arguments Ret {A} a.
Arguments Throw {A} e.
Arguments Exit {A} code.

(** ** The world outside the program *)

Inductive signal := Sig0 | SIGTERM.

(** What [response.text()] gives: the body, or a failure while reading it. *)
Inductive body_answer :=
| BodyText (text : string)
| BodyFailed (cause : string).

(** A response as [fetch] delivers it. *)
Record Response := mkResponse {
  status : Z;
  body : body_answer
}.

(** [response.ok]: the status is in the range 200-299. *)
Definition ok (r : Response) : bool :=
  (200 <=? status r) && (status r <=? 299).

(** [fetch] either rejects, with an error whose message is given, or
    resolves with a response. *)
Inductive fetch_answer :=
| Rejected (cause : string)
| Responded (r : Response).

(** A file-system node of the state file. *)
Inductive fnode :=
| NoFile
| File (content : string) (readable writable : bool).

(** Calls of [node:fs] that change the file system. *)
Inductive fs_call :=
| FsMkdir (path : string)
| FsWriteFile (path : string) (data : string)
| FsUnlink (path : string)
| FsRename (from to : string).

(** What the program does to the outside, in order. *)
Inductive event :=
| EvFetch (method url : string) (payload : option string)
| EvSpawn (command : string) (args : list string)
| EvKill (pid : number) (sig : signal)
| EvFs (c : fs_call)
| EvStdout (line : string)
| EvStderr (line : string).

(** The environment answers the interaction made at a given tick. *)
Record Env := mkEnv {
  homedir : string;
  (** the answer to a [fetch] *)
  net : nat -> fetch_answer;
  (** [child.pid] of a [spawn]: [None] when no process was started *)
  os_spawn : nat -> option number;
  (** whether [process.kill(pid, sig)] succeeds for the number [pid];
      [false] when it throws, be it Node that refuses a number that is not
      a 32-bit integer or the system that reports an error.  A signal never
      ends the program itself: a [pid] that denotes the program or its
      process group is outside the model. *)
  os_kill : nat -> number -> signal -> bool;
  (** milliseconds that pass during an interaction, beyond a timer's delay *)
  elapsed : nat -> N;
  (** [new Date(t).toISOString()] *)
  toISOString : Z -> string
}.

(** The state of the world: the state directory ([None] when it does not
    exist, otherwise whether entries can be created and removed in it),
    the state file, the clock, the number of interactions so far, and
    everything done so far. *)
Record World := mkWorld {
  home_writable : bool;
  state_dir : option bool;
  state_file : fnode;
  clock : Z;
  tick : nat;
  log : list event
}.

(** ** Computations *)

Definition M (A : Type) : Type := World -> outcome A * World.

Definition ret {A} (a : A) : M A := fun w => (Ret a, w).
Definition throw {A} (e : exn) : M A := fun w => (Throw e, w).
Definition exit {A} (code : Z) : M A := fun w => (Exit code, w).

Definition bind {A B} (m : M A) (k : A -> M B) : M B :=
  fun w =>
    match m w with
    | (Ret a, w') => k a w'
    | (Throw e, w') => (Throw e, w')
    | (Exit c, w') => (Exit c, w')
    end.

(** [try { m } catch (e) { h e }]: an exit is not caught. *)
Definition try_catch {A} (m : M A) (h : exn -> M A) : M A :=
  fun w =>
    match m w with
    | (Throw e, w') => h e w'
    | r => r
    end.
End Program.

Arguments Ret {number A} a.
Arguments Throw {number A} e.
Arguments Exit {number A} code.
Arguments WebDriverError number : clear implicits.
Arguments exn number : clear implicits.
Arguments outcome number A : clear implicits.
Arguments event number : clear implicits.
Arguments Env number : clear implicits.
Arguments World number : clear implicits.
Arguments M number A : clear implicits.

Declare Scope js_scope.
Delimit Scope js_scope with js.
Notation "x <- m ;; k" := (bind m (fun x => k))
  (at level 61, m at next level, right associativity) : js_scope.
Notation "m ;; k" := (bind m (fun _ => k))
  (at level 61, right associativity) : js_scope.

Local Open Scope js_scope.

(** ** The program *)

Section Source.
Context {number : Type} `{JSNumber number}.
Local Notation value := (jsval number).
Local Notation M := (M number).

(** [JSON.parse]: [None] when it throws a [SyntaxError]. *)
Variable JSON_parse : string -> option value.
(** [JSON.stringify(v, null, indent)]. *)
Variable JSON_stringify : value -> nat -> string.
Variable env : Env number.

(** *** Platform calls *)

Definition emit (e : event number) (w : World number) : World number :=
  mkWorld (home_writable w) (state_dir w) (state_file w) (clock w) (tick w)
          (log w ++ [e]).

(** An interaction with the environment: it is counted, and time passes. *)
Definition pass (ms : Z) (w : World number) : World number :=
  mkWorld (home_writable w) (state_dir w) (state_file w)
          (clock w + ms + Z.of_N (elapsed env (tick w))) (S (tick w)) (log w).

Definition set_state_dir (d : option bool) (w : World number) : World number :=
  mkWorld (home_writable w) d (state_file w) (clock w) (tick w) (log w).

Definition set_state_file (f : fnode) (w : World number) : World number :=
  mkWorld (home_writable w) (state_dir w) f (clock w) (tick w) (log w).

Definition console_log (line : string) : M unit :=
  fun w => (Ret tt, emit (EvStdout line) w).

Definition console_error (line : string) : M unit :=
  fun w => (Ret tt, emit (EvStderr line) w).

(** A property read that throws a [TypeError] on [null] and [undefined]. *)
Definition prop (v : value) (k : string) : M value :=
  match Get v k with
  | Some x => ret x
  | None =>
      throw (OtherError "TypeError"
               ("Cannot read properties of " ++ ToString v
                  ++ " (reading '" ++ k ++ "')"))
  end.

Definition fetch (method url : string) (payload : option string) : M Response :=
  fun w =>
    let w' := pass 0 (emit (EvFetch method url payload) w) in
    match net env (tick w) with
    | Rejected cause => (Throw (OtherError "TypeError" cause), w')
    | Responded r => (Ret r, w')
    end.

Definition Response_text (r : Response) : M string :=
  match body r with
  | BodyText text => ret text
  | BodyFailed cause => throw (OtherError "TypeError" cause)
  end.

Definition Date_now : M Z := fun w => (Ret (clock w), w).

(** [await new Promise((r) => setTimeout(r, ms))]. *)
Definition sleep (ms : Z) : M unit := fun w => (Ret tt, pass ms w).

(** [spawn(command, args, ...)]; the result is [child.pid]. *)
Definition spawn (command : string) (args : list string) : M (option number) :=
  fun w => (Ret (os_spawn env (tick w)), pass 0 (emit (EvSpawn command args) w)).

(** The number [process.kill] takes [pid] for.  Node starts with the test
    [pid != (pid | 0)] and throws a [TypeError] when it holds, which it
    always does for [null], [undefined], an object, and a string or an
    array whose number is [NaN].  Any other [pid] is converted to a number:
    [1] or [0] for a boolean (the number of the text [1] or [0]),
    [Number(s)] for a string, and for an array the number of its text.
    Whether that number passes the test is part of the answer of
    [os_kill]. *)
Definition kill_target (pid : value) : option number :=
  match pid with
  | JNumber n => Some n
  | JBool b => Number_ofString (if b then "1" else "0")
  | JString s => Number_ofString s
  | JArray _ => Number_ofString (ToString pid)
  | JUndefined | JNull | JObject _ => None
  end.

(** [process.kill(pid, sig)]: a [TypeError] when [pid] is taken for no
    number, otherwise the call for that number, which throws when it
    fails.  Every caller catches what is thrown and reads nothing of it. *)
Definition process_kill (pid : value) (sig : signal) : M unit :=
  match kill_target pid with
  | Some n =>
      fun w =>
        let w' := pass 0 (emit (EvKill n sig) w) in
        if os_kill env (tick w) n sig then (Ret tt, w')
        else (Throw (OtherError "Error" "kill ESRCH"), w')
  | None => throw (OtherError "TypeError" "The pid argument must be of type number")
  end.

(** *** webdriver.ts *)

Record WebDriver := mkWebDriver { baseUrl : string }.

(** [new WebDriver(port)]. *)
Definition new_WebDriver (port : value) : WebDriver :=
  mkWebDriver ("http://localhost:" ++ ToString port).

(** [request(method, path, body)]; an absent [body] is [JUndefined]. *)
Definition request (this : WebDriver) (method path : string) (payload : value)
  : M value :=
  let url := baseUrl this ++ path in
  let options_body :=
    match payload with
    | JUndefined => None
    | _ => Some (JSON_stringify payload 0)
    end in
  response <- try_catch (fetch method url options_body)
    (fun err => throw (WDError (mkWebDriverError
       ("Cannot connect to SafariDriver at " ++ baseUrl this ++ ": "
          ++ exn_message err)
       None JUndefined)));;
  text <- Response_text response;;
  match JSON_parse text with
  | None =>
      if negb (ok response) then
        throw (WDError (mkWebDriverError
          ("HTTP " ++ decimal (status response) ++ ": " ++ text)
          (Some (status response)) JUndefined))
      else ret (JString text)
  | Some json =>
      json_value <- prop json "value";;
      cond <- (if ToBoolean json_value then prop json_value "error"
               else ret json_value);;
      if ToBoolean cond then
        msg <- prop json_value "message";;
        err <- prop json_value "error";;
        throw (WDError (mkWebDriverError
          (ToString (js_or msg err)) (Some (status response)) err))
      else prop json "value"
  end.

Definition capabilities : value :=
  JObject [("capabilities", JObject [("alwaysMatch", JObject [
    ("browserName", JString "safari");
    ("safari:automaticInspection", JBool true);
    ("safari:automaticProfiling", JBool true)])])].

Definition createSession (this : WebDriver) : M value :=
  result <- request this "POST" "/session" capabilities;;
  prop result "sessionId".

Definition deleteSession (this : WebDriver) (sessionId : value) : M unit :=
  _ <- request this "DELETE" ("/session/" ++ ToString sessionId) JUndefined;;
  ret tt.

Definition getStatus (this : WebDriver) : M value :=
  request this "GET" "/status" JUndefined.

Definition getCurrentUrl (this : WebDriver) (sessionId : value) : M value :=
  request this "GET" ("/session/" ++ ToString sessionId ++ "/url") JUndefined.

Definition getTitle (this : WebDriver) (sessionId : value) : M value :=
  request this "GET" ("/session/" ++ ToString sessionId ++ "/title") JUndefined.

Definition back (this : WebDriver) (sessionId : value) : M unit :=
  _ <- request this "POST" ("/session/" ++ ToString sessionId ++ "/back")
         (JObject []);;
  ret tt.

(** [const keys = Object.keys(r); return r[keys[0]];] *)
Definition element_reference (r : value) : M value :=
  match Object_keys r with
  | None => throw (OtherError "TypeError" "Cannot convert undefined or null to object")
  | Some keys => prop r (first_key keys)
  end.

Definition locator (using_ selector : string) : value :=
  JObject [("using", JString using_); ("value", JString selector)].

Definition findElement (this : WebDriver) (sessionId : value)
  (using_ selector : string) : M value :=
  result <- request this "POST" ("/session/" ++ ToString sessionId ++ "/element")
              (locator using_ selector);;
  element_reference result.

(** [results.map(f)] for the results of [findElements]: only an array has
    a [map] method. *)
Fixpoint map_M {A B} (f : A -> M B) (l : list A) : M (list B) :=
  match l with
  | [] => ret []
  | x :: r => y <- f x;; ys <- map_M f r;; ret (y :: ys)
  end.

Definition findElements (this : WebDriver) (sessionId : value)
  (using_ selector : string) : M (list value) :=
  results <- request this "POST" ("/session/" ++ ToString sessionId ++ "/elements")
               (locator using_ selector);;
  match results with
  | JArray items => map_M element_reference items
  | _ => throw (OtherError "TypeError" "results.map is not a function")
  end.
(** *** session.ts *)

Definition STATE_DIR : string := homedir env ++ "/.safari-cli".
Definition STATE_FILE : string := STATE_DIR ++ "/session.json".

(** [existsSync(STATE_DIR)] and [existsSync(STATE_FILE)]. *)
Definition existsSync_dir : M bool :=
  fun w => (Ret (match state_dir w with Some _ => true | None => false end), w).

Definition existsSync_file : M bool :=
  fun w => (Ret (match state_file w with File _ _ _ => true | NoFile => false end), w).

(** [readFileSync(STATE_FILE, 'utf-8')]. *)
Definition readFileSync_file : M string :=
  fun w =>
    match state_file w with
    | File content true _ => (Ret content, w)
    | File _ false _ => (Throw (OtherError "Error" "EACCES: permission denied"), w)
    | NoFile => (Throw (OtherError "Error" "ENOENT: no such file or directory"), w)
    end.

(** [mkdirSync(STATE_DIR, { recursive: true })]: nothing to do when the
    directory exists. *)
Definition mkdirSync_dir : M unit :=
  fun w =>
    let w' := emit (EvFs (FsMkdir STATE_DIR)) w in
    match state_dir w with
    | Some _ => (Ret tt, w')
    | None =>
        if home_writable w then (Ret tt, set_state_dir (Some true) w')
        else (Throw (OtherError "Error" "EACCES: permission denied"), w')
    end.

(** [writeFileSync(STATE_FILE, data)]: replaces a writable file, or creates
    the file in a directory that allows it. *)
Definition writeFileSync_file (data : string) : M unit :=
  fun w =>
    let w' := emit (EvFs (FsWriteFile STATE_FILE data)) w in
    match state_file w with
    | File _ r true => (Ret tt, set_state_file (File data r true) w')
    | File _ _ false => (Throw (OtherError "Error" "EACCES: permission denied"), w')
    | NoFile =>
        match state_dir w with
        | Some true => (Ret tt, set_state_file (File data true true) w')
        | Some false => (Throw (OtherError "Error" "EACCES: permission denied"), w')
        | None => (Throw (OtherError "Error" "ENOENT: no such file or directory"), w')
        end
    end.

(** [unlinkSync(STATE_FILE)]: removing an entry needs a directory that
    allows it. *)
Definition unlinkSync_file : M unit :=
  fun w =>
    let w' := emit (EvFs (FsUnlink STATE_FILE)) w in
    match state_file w with
    | NoFile => (Throw (OtherError "Error" "ENOENT: no such file or directory"), w')
    | File _ _ _ =>
        match state_dir w with
        | Some true => (Ret tt, set_state_file NoFile w')
        | _ => (Throw (OtherError "Error" "EACCES: permission denied"), w')
        end
    end.

(** A throwing [JSON.parse]. *)
Definition JSON_parse_M (text : string) : M value :=
  match JSON_parse text with
  | Some v => ret v
  | None => throw (OtherError "SyntaxError" "Unexpected token in JSON")
  end.

Definition loadSession : M value :=
  try_catch
    (present <- existsSync_file;;
     if negb present then ret JNull
     else raw <- readFileSync_file;; JSON_parse_M raw)
    (fun _ => ret JNull).

Definition saveSession (state : value) : M unit :=
  present <- existsSync_dir;;
  (if negb present then mkdirSync_dir else ret tt);;
  writeFileSync_file (JSON_stringify state 2 ++ String "010" "").

Definition clearSession : M unit :=
  try_catch
    (present <- existsSync_file;;
     if present then unlinkSync_file else ret tt)
    (fun _ => ret tt).

Definition requireSession : M value :=
  session <- loadSession;;
  if negb (ToBoolean session) then
    console_error "No active Safari session. Run `safari-cli start` first.";;
    exit 1
  else ret session.

(** *** cli.ts *)

Definition getDriver (session : value) : M WebDriver :=
  port <- prop session "port";;
  ret (new_WebDriver port).

Definition isProcessAlive (pid : value) : M bool :=
  try_catch (process_kill pid Sig0;; ret true) (fun _ => ret false).

(** The loop of [waitForDriver].  Every failed probe is followed by a
    timer of 200 ms, so [fuel] counts milliseconds left and is never
    exhausted before the deadline (see [waitForDriver_loop_fuel]); at
    [fuel = 0] the loop is left the way the deadline leaves it. *)
Fixpoint waitForDriver_loop (fuel : nat) (driver : WebDriver) (deadline : Z)
  (timeoutMs : Z) : M unit :=
  now <- Date_now;;
  match fuel with
  | S fuel' =>
      if now <? deadline then
        ready <- try_catch (_ <- getStatus driver;; ret true)
                   (fun _ => sleep 200;; ret false);;
        if (ready : bool) then ret tt
        else waitForDriver_loop fuel' driver deadline timeoutMs
      else
        throw (OtherError "Error"
          ("SafariDriver did not start within " ++ decimal timeoutMs ++ "ms"))
  | O =>
      throw (OtherError "Error"
        ("SafariDriver did not start within " ++ decimal timeoutMs ++ "ms"))
  end.

Definition waitForDriver (port : number) (timeoutMs : Z) : M unit :=
  let driver := new_WebDriver (JNumber port) in
  now <- Date_now;;
  let deadline := now + timeoutMs in
  waitForDriver_loop (Z.to_nat timeoutMs) driver deadline timeoutMs.

(** The record [start] persists. *)
Definition session_record (port : number) (sessionId : value) (pid : number)
  (startedAt : string) : value :=
  JObject [("port", JNumber port); ("sessionId", sessionId);
           ("pid", JNumber pid); ("startedAt", JString startedAt)].

(** The action of [start]; [port] is [parseInt(opts.port, 10)]. *)
Definition start (port : number) : M unit :=
  existing <- loadSession;;
  alive <- (if ToBoolean existing then
              pid <- prop existing "pid";; isProcessAlive pid
            else ret false);;
  if (alive : bool) then
    pid <- prop existing "pid";;
    eport <- prop existing "port";;
    sid <- prop existing "sessionId";;
    console_log ("Session already active (pid=" ++ ToString pid ++ ", port="
                   ++ ToString eport ++ ", session=" ++ ToString sid ++ ")")
  else
    console_error ("Starting safaridriver on port " ++ Number_toString port ++ "...");;
    child_pid <- spawn "safaridriver" ["-p"; Number_toString port];;
    match child_pid with
    | None => console_error "Failed to start safaridriver";; exit 1
    | Some pid =>
        if negb (Number_toBoolean pid) then
          console_error "Failed to start safaridriver";; exit 1
        else
          try_catch (waitForDriver port 10000)
            (fun e =>
               console_error (exn_message e);;
               try_catch (process_kill (JNumber pid) SIGTERM) (fun _ => ret tt);;
               exit 1);;
          let driver := new_WebDriver (JNumber port) in
          sessionId <- try_catch (createSession driver)
            (fun e =>
               console_error ("Failed to create session: " ++ exn_message e);;
               try_catch (process_kill (JNumber pid) SIGTERM) (fun _ => ret tt);;
               exit 1);;
          now <- Date_now;;
          saveSession (session_record port sessionId pid (toISOString env now));;
          console_log "Safari session started";;
          console_log ("  Port:      " ++ Number_toString port);;
          console_log ("  Session:   " ++ ToString sessionId);;
          console_log ("  PID:       " ++ Number_toString pid)
    end.

(** The action of [stop]. *)
Definition stop : M unit :=
  session <- loadSession;;
  if negb (ToBoolean session) then console_log "No active session."
  else
    driver <- getDriver session;;
    try_catch (sid <- prop session "sessionId";; deleteSession driver sid)
      (fun _ => ret tt);;
    pid <- prop session "pid";;
    alive <- isProcessAlive pid;;
    (if (alive : bool) then
       try_catch
         (process_kill pid SIGTERM;;
          console_log ("Stopped safaridriver (pid=" ++ ToString pid ++ ")"))
         (fun _ => ret tt)
     else ret tt);;
    clearSession;;
    console_log "Session closed.".

(** The action of [status]. *)
Definition status_command : M unit :=
  session <- loadSession;;
  if negb (ToBoolean session) then console_log "No active session."
  else
    pid <- prop session "pid";;
    alive <- isProcessAlive pid;;
    sid <- prop session "sessionId";;
    console_log ("Session:     " ++ ToString sid);;
    port <- prop session "port";;
    console_log ("Port:        " ++ ToString port);;
    console_log ("PID:         " ++ ToString pid ++ " ("
                   ++ (if (alive : bool) then "running" else "DEAD") ++ ")");;
    startedAt <- prop session "startedAt";;
    console_log ("Started:     " ++ ToString startedAt);;
    if (alive : bool) then
      driver <- getDriver session;;
      try_catch
        (url <- getCurrentUrl driver sid;;
         title <- getTitle driver sid;;
         console_log ("Current URL: " ++ ToString url);;
         console_log ("Page Title:  " ++ ToString title))
        (fun _ => ret tt)
    else ret tt.

(** The action of [back]. *)
Definition back_command : M unit :=
  session <- requireSession;;
  driver <- getDriver session;;
  sid <- prop session "sessionId";;
  back driver sid;;
  console_log "Navigated back.".

(** [main], for the action [program.parseAsync] dispatches to. *)
Definition main (action : M unit) : M unit :=
  try_catch action
    (fun err =>
       match err with
       | WDError e =>
           console_error ("Error: " ++ message e);;
           (if strict_eq_string (webdriverError e) "invalid session id" then
              console_error "Session is stale. Run `safari-cli stop` then `safari-cli start`.";;
              clearSession
            else ret tt);;
           exit 1
       | OtherError _ msg =>
           console_error ("Error: " ++ (if String.eqb msg "" then exn_toString err
                                        else msg));;
           exit 1
       end).
(** *** webdriver.ts: the other methods *)

Definition session_path (sessionId : value) (rest : string) : string :=
  "/session/" ++ ToString sessionId ++ rest.

Definition element_path (sessionId elementId : value) (rest : string) : string :=
  "/session/" ++ ToString sessionId ++ "/element/" ++ ToString elementId ++ rest.

Definition navigateTo (this : WebDriver) (sessionId : value) (url : string) : M unit :=
  _ <- request this "POST" (session_path sessionId "/url")
         (JObject [("url", JString url)]);;
  ret tt.

Definition forward (this : WebDriver) (sessionId : value) : M unit :=
  _ <- request this "POST" (session_path sessionId "/forward") (JObject []);;
  ret tt.

Definition refresh (this : WebDriver) (sessionId : value) : M unit :=
  _ <- request this "POST" (session_path sessionId "/refresh") (JObject []);;
  ret tt.

Definition getPageSource (this : WebDriver) (sessionId : value) : M value :=
  request this "GET" (session_path sessionId "/source") JUndefined.

Definition executeScript (this : WebDriver) (sessionId : value) (script : string)
  (args : list value) : M value :=
  request this "POST" (session_path sessionId "/execute/sync")
    (JObject [("script", JString script); ("args", JArray args)]).

Definition executeAsyncScript (this : WebDriver) (sessionId : value)
  (script : string) (args : list value) : M value :=
  request this "POST" (session_path sessionId "/execute/async")
    (JObject [("script", JString script); ("args", JArray args)]).

Definition takeScreenshot (this : WebDriver) (sessionId : value) : M value :=
  request this "GET" (session_path sessionId "/screenshot") JUndefined.

Definition takeElementScreenshot (this : WebDriver) (sessionId elementId : value)
  : M value :=
  request this "GET" (element_path sessionId elementId "/screenshot") JUndefined.

Definition clickElement (this : WebDriver) (sessionId elementId : value) : M unit :=
  _ <- request this "POST" (element_path sessionId elementId "/click") (JObject []);;
  ret tt.

Definition sendKeys (this : WebDriver) (sessionId elementId : value) (text : string)
  : M unit :=
  _ <- request this "POST" (element_path sessionId elementId "/value")
         (JObject [("text", JString text)]);;
  ret tt.

Definition clearElement (this : WebDriver) (sessionId elementId : value) : M unit :=
  _ <- request this "POST" (element_path sessionId elementId "/clear") (JObject []);;
  ret tt.

Definition getElementText (this : WebDriver) (sessionId elementId : value) : M value :=
  request this "GET" (element_path sessionId elementId "/text") JUndefined.

Definition getElementTagName (this : WebDriver) (sessionId elementId : value)
  : M value :=
  request this "GET" (element_path sessionId elementId "/name") JUndefined.

Definition getElementAttribute (this : WebDriver) (sessionId elementId : value)
  (name : string) : M value :=
  request this "GET" (element_path sessionId elementId ("/attribute/" ++ name))
    JUndefined.

Definition getElementProperty (this : WebDriver) (sessionId elementId : value)
  (name : string) : M value :=
  request this "GET" (element_path sessionId elementId ("/property/" ++ name))
    JUndefined.

Definition getElementRect (this : WebDriver) (sessionId elementId : value) : M value :=
  request this "GET" (element_path sessionId elementId "/rect") JUndefined.

Definition isElementDisplayed (this : WebDriver) (sessionId elementId : value)
  : M value :=
  request this "GET" (element_path sessionId elementId "/displayed") JUndefined.

Definition isElementEnabled (this : WebDriver) (sessionId elementId : value)
  : M value :=
  request this "GET" (element_path sessionId elementId "/enabled") JUndefined.

Definition getCookies (this : WebDriver) (sessionId : value) : M value :=
  request this "GET" (session_path sessionId "/cookie") JUndefined.

Definition getCookie (this : WebDriver) (sessionId : value) (name : string) : M value :=
  request this "GET" (session_path sessionId ("/cookie/" ++ name)) JUndefined.

Definition addCookie (this : WebDriver) (sessionId cookie : value) : M unit :=
  _ <- request this "POST" (session_path sessionId "/cookie")
         (JObject [("cookie", cookie)]);;
  ret tt.

Definition deleteCookie (this : WebDriver) (sessionId : value) (name : string)
  : M unit :=
  _ <- request this "DELETE" (session_path sessionId ("/cookie/" ++ name)) JUndefined;;
  ret tt.

Definition deleteAllCookies (this : WebDriver) (sessionId : value) : M unit :=
  _ <- request this "DELETE" (session_path sessionId "/cookie") JUndefined;;
  ret tt.

Definition getWindowHandle (this : WebDriver) (sessionId : value) : M value :=
  request this "GET" (session_path sessionId "/window") JUndefined.

Definition getWindowHandles (this : WebDriver) (sessionId : value) : M value :=
  request this "GET" (session_path sessionId "/window/handles") JUndefined.

Definition switchToWindow (this : WebDriver) (sessionId handle : value) : M unit :=
  _ <- request this "POST" (session_path sessionId "/window")
         (JObject [("handle", handle)]);;
  ret tt.

Definition closeWindow (this : WebDriver) (sessionId : value) : M value :=
  request this "DELETE" (session_path sessionId "/window") JUndefined.

Definition getWindowRect (this : WebDriver) (sessionId : value) : M value :=
  request this "GET" (session_path sessionId "/window/rect") JUndefined.

Definition setWindowRect (this : WebDriver) (sessionId rect : value) : M unit :=
  _ <- request this "POST" (session_path sessionId "/window/rect") rect;;
  ret tt.

Definition maximizeWindow (this : WebDriver) (sessionId : value) : M unit :=
  _ <- request this "POST" (session_path sessionId "/window/maximize") (JObject []);;
  ret tt.

Definition minimizeWindow (this : WebDriver) (sessionId : value) : M unit :=
  _ <- request this "POST" (session_path sessionId "/window/minimize") (JObject []);;
  ret tt.

Definition fullscreenWindow (this : WebDriver) (sessionId : value) : M unit :=
  _ <- request this "POST" (session_path sessionId "/window/fullscreen") (JObject []);;
  ret tt.

Definition switchToFrame (this : WebDriver) (sessionId id : value) : M unit :=
  _ <- request this "POST" (session_path sessionId "/frame") (JObject [("id", id)]);;
  ret tt.

Definition switchToParentFrame (this : WebDriver) (sessionId : value) : M unit :=
  _ <- request this "POST" (session_path sessionId "/frame/parent") (JObject []);;
  ret tt.

Definition getAlertText (this : WebDriver) (sessionId : value) : M value :=
  request this "GET" (session_path sessionId "/alert/text") JUndefined.

Definition acceptAlert (this : WebDriver) (sessionId : value) : M unit :=
  _ <- request this "POST" (session_path sessionId "/alert/accept") (JObject []);;
  ret tt.

Definition dismissAlert (this : WebDriver) (sessionId : value) : M unit :=
  _ <- request this "POST" (session_path sessionId "/alert/dismiss") (JObject []);;
  ret tt.

Definition sendAlertText (this : WebDriver) (sessionId : value) (text : string)
  : M unit :=
  _ <- request this "POST" (session_path sessionId "/alert/text")
         (JObject [("text", JString text)]);;
  ret tt.

Definition setTimeouts (this : WebDriver) (sessionId timeouts : value) : M unit :=
  _ <- request this "POST" (session_path sessionId "/timeouts") timeouts;;
  ret tt.

Definition getTimeouts (this : WebDriver) (sessionId : value) : M value :=
  request this "GET" (session_path sessionId "/timeouts") JUndefined.

(** The methods of [WebDriver], as data: a call of a method with its
    arguments, to state what holds of all of them. *)
Inductive method_call :=
| Call_createSession
| Call_deleteSession (sessionId : value)
| Call_getStatus
| Call_navigateTo (sessionId : value) (url : string)
| Call_getCurrentUrl (sessionId : value)
| Call_getTitle (sessionId : value)
| Call_back (sessionId : value)
| Call_forward (sessionId : value)
| Call_refresh (sessionId : value)
| Call_getPageSource (sessionId : value)
| Call_executeScript (sessionId : value) (script : string) (args : list value)
| Call_executeAsyncScript (sessionId : value) (script : string) (args : list value)
| Call_takeScreenshot (sessionId : value)
| Call_takeElementScreenshot (sessionId elementId : value)
| Call_findElement (sessionId : value) (using_ selector : string)
| Call_findElements (sessionId : value) (using_ selector : string)
| Call_clickElement (sessionId elementId : value)
| Call_sendKeys (sessionId elementId : value) (text : string)
| Call_clearElement (sessionId elementId : value)
| Call_getElementText (sessionId elementId : value)
| Call_getElementTagName (sessionId elementId : value)
| Call_getElementAttribute (sessionId elementId : value) (name : string)
| Call_getElementProperty (sessionId elementId : value) (name : string)
| Call_getElementRect (sessionId elementId : value)
| Call_isElementDisplayed (sessionId elementId : value)
| Call_isElementEnabled (sessionId elementId : value)
| Call_getCookies (sessionId : value)
| Call_getCookie (sessionId : value) (name : string)
| Call_addCookie (sessionId cookie : value)
| Call_deleteCookie (sessionId : value) (name : string)
| Call_deleteAllCookies (sessionId : value)
| Call_getWindowHandle (sessionId : value)
| Call_getWindowHandles (sessionId : value)
| Call_switchToWindow (sessionId handle : value)
| Call_closeWindow (sessionId : value)
| Call_getWindowRect (sessionId : value)
| Call_setWindowRect (sessionId rect : value)
| Call_maximizeWindow (sessionId : value)
| Call_minimizeWindow (sessionId : value)
| Call_fullscreenWindow (sessionId : value)
| Call_switchToFrame (sessionId id : value)
| Call_switchToParentFrame (sessionId : value)
| Call_getAlertText (sessionId : value)
| Call_acceptAlert (sessionId : value)
| Call_dismissAlert (sessionId : value)
| Call_sendAlertText (sessionId : value) (text : string)
| Call_setTimeouts (sessionId timeouts : value)
| Call_getTimeouts (sessionId : value).

(** Forgetting what a method returns. *)
Definition done {A} (m : M A) : M unit := _ <- m;; ret tt.

(** The method a call names, applied to its arguments. *)
Definition invoke (this : WebDriver) (c : method_call) : M unit :=
  match c with
  | Call_createSession => done (createSession this)
  | Call_deleteSession s => deleteSession this s
  | Call_getStatus => done (getStatus this)
  | Call_navigateTo s url => navigateTo this s url
  | Call_getCurrentUrl s => done (getCurrentUrl this s)
  | Call_getTitle s => done (getTitle this s)
  | Call_back s => back this s
  | Call_forward s => forward this s
  | Call_refresh s => refresh this s
  | Call_getPageSource s => done (getPageSource this s)
  | Call_executeScript s script args => done (executeScript this s script args)
  | Call_executeAsyncScript s script args =>
      done (executeAsyncScript this s script args)
  | Call_takeScreenshot s => done (takeScreenshot this s)
  | Call_takeElementScreenshot s e => done (takeElementScreenshot this s e)
  | Call_findElement s u v => done (findElement this s u v)
  | Call_findElements s u v => done (findElements this s u v)
  | Call_clickElement s e => clickElement this s e
  | Call_sendKeys s e text => sendKeys this s e text
  | Call_clearElement s e => clearElement this s e
  | Call_getElementText s e => done (getElementText this s e)
  | Call_getElementTagName s e => done (getElementTagName this s e)
  | Call_getElementAttribute s e name => done (getElementAttribute this s e name)
  | Call_getElementProperty s e name => done (getElementProperty this s e name)
  | Call_getElementRect s e => done (getElementRect this s e)
  | Call_isElementDisplayed s e => done (isElementDisplayed this s e)
  | Call_isElementEnabled s e => done (isElementEnabled this s e)
  | Call_getCookies s => done (getCookies this s)
  | Call_getCookie s name => done (getCookie this s name)
  | Call_addCookie s cookie => addCookie this s cookie
  | Call_deleteCookie s name => deleteCookie this s name
  | Call_deleteAllCookies s => deleteAllCookies this s
  | Call_getWindowHandle s => done (getWindowHandle this s)
  | Call_getWindowHandles s => done (getWindowHandles this s)
  | Call_switchToWindow s handle => switchToWindow this s handle
  | Call_closeWindow s => done (closeWindow this s)
  | Call_getWindowRect s => done (getWindowRect this s)
  | Call_setWindowRect s rect => setWindowRect this s rect
  | Call_maximizeWindow s => maximizeWindow this s
  | Call_minimizeWindow s => minimizeWindow this s
  | Call_fullscreenWindow s => fullscreenWindow this s
  | Call_switchToFrame s id => switchToFrame this s id
  | Call_switchToParentFrame s => switchToParentFrame this s
  | Call_getAlertText s => done (getAlertText this s)
  | Call_acceptAlert s => acceptAlert this s
  | Call_dismissAlert s => dismissAlert this s
  | Call_sendAlertText s text => sendAlertText this s text
  | Call_setTimeouts s timeouts => setTimeouts this s timeouts
  | Call_getTimeouts s => done (getTimeouts this s)
  end.

(** The session a call is about, if any. *)
Definition session_of (c : method_call) : option value :=
  match c with
  | Call_createSession | Call_getStatus => None
  | Call_deleteSession s | Call_navigateTo s _ | Call_getCurrentUrl s
  | Call_getTitle s | Call_back s | Call_forward s | Call_refresh s
  | Call_getPageSource s | Call_executeScript s _ _
  | Call_executeAsyncScript s _ _ | Call_takeScreenshot s
  | Call_takeElementScreenshot s _ | Call_findElement s _ _
  | Call_findElements s _ _ | Call_clickElement s _ | Call_sendKeys s _ _
  | Call_clearElement s _ | Call_getElementText s _ | Call_getElementTagName s _
  | Call_getElementAttribute s _ _ | Call_getElementProperty s _ _
  | Call_getElementRect s _ | Call_isElementDisplayed s _
  | Call_isElementEnabled s _ | Call_getCookies s | Call_getCookie s _
  | Call_addCookie s _ | Call_deleteCookie s _ | Call_deleteAllCookies s
  | Call_getWindowHandle s | Call_getWindowHandles s | Call_switchToWindow s _
  | Call_closeWindow s | Call_getWindowRect s | Call_setWindowRect s _
  | Call_maximizeWindow s | Call_minimizeWindow s | Call_fullscreenWindow s
  | Call_switchToFrame s _ | Call_switchToParentFrame s | Call_getAlertText s
  | Call_acceptAlert s | Call_dismissAlert s | Call_sendAlertText s _
  | Call_setTimeouts s _ | Call_getTimeouts s => Some s
  end.

(** The argument a method sends as the whole body, when it has one. *)
Definition body_argument (c : method_call) : option value :=
  match c with
  | Call_setWindowRect _ rect => Some rect
  | Call_setTimeouts _ timeouts => Some timeouts
  | _ => None
  end.

(** *** cli.ts: the commands on a session

    Strings are sequences of code units below 256; on these the character
    classes of the regular expressions below are as written here. *)

(** [selectorStrategy]. *)
Definition selectorStrategy (selector : string) : string * string :=
  if String.prefix "//" selector || String.prefix "(//" selector
  then ("xpath", selector)
  else ("css selector", selector).

(** ASCII lower case, for the [i] flag. *)
Definition lower (c : ascii) : ascii :=
  let n := nat_of_ascii c in
  if ((65 <=? n) && (n <=? 90))%nat then ascii_of_nat (n + 32) else c.

(** [p], in lower case, starts [s] when case is ignored. *)
Fixpoint prefix_ci (p s : string) : bool :=
  match p, s with
  | EmptyString, _ => true
  | String a p', String b s' => (a =? lower b)%char && prefix_ci p' s'
  | String _ _, EmptyString => false
  end.

(** The test [/^https?:\/\//i] of [navigate]. *)
Definition has_http_scheme (url : string) : bool :=
  prefix_ci "http://" url || prefix_ci "https://" url.

(** [if (!/^https?:\/\//i.test(url)) url = 'https://' + url]. *)
Definition with_scheme (url : string) : string :=
  if negb (has_http_scheme url) then "https://" ++ url else url.

(** The action of [navigate]. *)
Definition navigate_command (url : string) : M unit :=
  session <- requireSession;;
  driver <- getDriver session;;
  let url := with_scheme url in
  sid <- prop session "sessionId";;
  navigateTo driver sid url;;
  console_log ("Navigated to " ++ url).

(** The actions of [forward] and [refresh]. *)
Definition forward_command : M unit :=
  session <- requireSession;;
  driver <- getDriver session;;
  sid <- prop session "sessionId";;
  forward driver sid;;
  console_log "Navigated forward.".

Definition refresh_command : M unit :=
  session <- requireSession;;
  driver <- getDriver session;;
  sid <- prop session "sessionId";;
  refresh driver sid;;
  console_log "Page refreshed.".

(** The action of [click]. *)
Definition click_command (selector : string) : M unit :=
  session <- requireSession;;
  driver <- getDriver session;;
  let (using_, value_) := selectorStrategy selector in
  sid <- prop session "sessionId";;
  elementId <- findElement driver sid using_ value_;;
  clickElement driver sid elementId;;
  console_log ("Clicked: " ++ selector).

(** The action of [type]; [clear] is the option [--clear]. *)
Definition type_command (selector text : string) (clear : bool) : M unit :=
  session <- requireSession;;
  driver <- getDriver session;;
  let (using_, value_) := selectorStrategy selector in
  sid <- prop session "sessionId";;
  elementId <- findElement driver sid using_ value_;;
  (if clear then clearElement driver sid elementId else ret tt);;
  sendKeys driver sid elementId text;;
  console_log ("Typed into: " ++ selector).

(** The action of [tab]. *)
Definition tab_command (handle : string) : M unit :=
  session <- requireSession;;
  driver <- getDriver session;;
  sid <- prop session "sessionId";;
  switchToWindow driver sid (JString handle);;
  driver <- getDriver session;;
  title <- getTitle driver sid;;
  console_log ("Switched to: " ++ ToString title).

(** The end of [wait] when the element did not appear; [timeout] is
    [parseInt(opts.timeout, 10)], [None] when that is [NaN]. *)
Definition wait_timeout (selector : string) (timeout : option Z) : M unit :=
  console_error
    ("Timeout: element not found after "
       ++ match timeout with Some t => decimal t | None => "NaN" end
       ++ "ms: " ++ selector);;
  exit 1.

(** The loop of [wait].  Every failed attempt is followed by a timer of
    300 ms, so [fuel], which counts milliseconds left, is not exhausted
    before the deadline; at [fuel = 0] the loop is left the way the deadline
    leaves it. *)
Fixpoint wait_loop (fuel : nat) (driver : WebDriver) (sid : value)
  (using_ value_ selector : string) (deadline : Z) (timeout : option Z)
  : M unit :=
  now <- Date_now;;
  match fuel with
  | S fuel' =>
      if now <? deadline then
        found <- try_catch
                   (_ <- findElement driver sid using_ value_;;
                    console_log ("Element found: " ++ selector);;
                    ret true)
                   (fun _ => sleep 300;; ret false);;
        if (found : bool) then ret tt
        else wait_loop fuel' driver sid using_ value_ selector deadline timeout
      else wait_timeout selector timeout
  | O => wait_timeout selector timeout
  end.

(** The action of [wait]: with a timeout that is [NaN] the deadline is
    [NaN] and the loop is not entered. *)
Definition wait_command (selector : string) (timeout : option Z) : M unit :=
  session <- requireSession;;
  driver <- getDriver session;;
  let (using_, value_) := selectorStrategy selector in
  sid <- prop session "sessionId";;
  now <- Date_now;;
  match timeout with
  | Some t =>
      wait_loop (Z.to_nat t) driver sid using_ value_ selector (now + t) timeout
  | None => wait_timeout selector timeout
  end.

(** The action of [alert]; [text] is the option [--text], absent or a
    string. *)
Definition alert_command (text : option string) (accept dismiss : bool) : M unit :=
  session <- requireSession;;
  driver <- getDriver session;;
  sid <- prop session "sessionId";;
  (match text with
   | Some t => if negb (String.eqb t "") then sendAlertText driver sid t else ret tt
   | None => ret tt
   end);;
  if accept then
    acceptAlert driver sid;;
    console_log "Alert accepted."
  else if dismiss then
    dismissAlert driver sid;;
    console_log "Alert dismissed."
  else
    alert_text <- getAlertText driver sid;;
    console_log ("Alert: " ++ ToString alert_text).

(** White space of [\s] and of [trim], and the line terminators of [^]
    under the [m] flag. *)
Definition js_space (c : ascii) : bool :=
  let n := nat_of_ascii c in
  ((9 <=? n) && (n <=? 13) || (n =? 32) || (n =? 160))%nat.

Definition js_line_terminator (c : ascii) : bool :=
  let n := nat_of_ascii c in
  ((n =? 10) || (n =? 13))%nat.

Fixpoint trim_start (s : string) : string :=
  match s with
  | String c r => if js_space c then trim_start r else s
  | EmptyString => s
  end.

Fixpoint trim_end (s : string) : string :=
  match s with
  | EmptyString => EmptyString
  | String c r =>
      match trim_end r with
      | EmptyString => if js_space c then EmptyString else String c EmptyString
      | r' => String c r'
      end
  end.

(** [s.trim()]. *)
Definition trim (s : string) : string := trim_end (trim_start s).

(** [p] starts [s]: the rest of [s]. *)
Fixpoint strip_prefix (p s : string) : option string :=
  match p, s with
  | EmptyString, _ => Some s
  | String a p', String b s' => if (a =? b)%char then strip_prefix p' s' else None
  | String _ _, EmptyString => None
  end.

(** [\s*return\s] matches at the start of [s]. *)
Definition starts_with_return (s : string) : bool :=
  match strip_prefix "return" (trim_start s) with
  | Some (String c _) => js_space c
  | _ => false
  end.

(** [/^\s*return\s/m.test(s)]: the pattern matches at the start of [s]
    ([at_start]) or after a line terminator in it. *)
Fixpoint has_return_line (at_start : bool) (s : string) : bool :=
  (at_start && starts_with_return s)
  || match s with
     | EmptyString => false
     | String c r => has_return_line (js_line_terminator c) r
     end.

(** [/;/.test(s)]. *)
Fixpoint has_semicolon (s : string) : bool :=
  match s with
  | EmptyString => false
  | String c r => (c =? ";")%char || has_semicolon r
  end.

(** [s.split(';')]. *)
Fixpoint split_semicolon (s : string) : list string :=
  match s with
  | EmptyString => [EmptyString]
  | String c r =>
      if (c =? ";")%char then EmptyString :: split_semicolon r
      else match split_semicolon r with
           | piece :: pieces => String c piece :: pieces
           | [] => [String c EmptyString]
           end
  end.

(** [l.join(sep)]. *)
Fixpoint join (sep : string) (l : list string) : string :=
  match l with
  | [] => ""
  | [x] => x
  | x :: r => x ++ sep ++ join sep r
  end.

(** [script.split(';').map((s) => s.trim()).filter(Boolean)]. *)
Definition statements (script : string) : list string :=
  filter (fun s => negb (String.eqb s "")) (map trim (split_semicolon script)).

(** The script [execute] sends first.  [last] is [stmts.pop() || ''], after
    which [stmts] is without its last element. *)
Definition toRun (script : string) : string :=
  if has_return_line true script then script
  else if has_semicolon script then
    let stmts := statements script in
    let last := List.last stmts "" in
    let stmts := removelast stmts in
    let prefix := match stmts with
                  | [] => ""
                  | _ :: _ => join "; " stmts ++ "; "
                  end in
    prefix ++ "return " ++ last
  else "return " ++ script.

(** The action of [execute]; [async] is the option [--async]. *)
Definition execute_command (script : string) (async : bool) : M unit :=
  session <- requireSession;;
  driver <- getDriver session;;
  sid <- prop session "sessionId";;
  result <- (if async then executeAsyncScript driver sid script []
             else
               try_catch (executeScript driver sid (toRun script) [])
                 (fun _ => executeScript driver sid script []));;
  match result with
  | JUndefined | JNull => ret tt
  | JArray _ | JObject _ => console_log (JSON_stringify result 2)
  | _ => console_log (ToString result)
  end.

(** The loop of [find] over the elements found, from index [i]; [text] is
    the option [--text]. *)
Fixpoint find_lines (driver : WebDriver) (sid : value) (text : bool) (i : nat)
  (elements : list value) : M unit :=
  match elements with
  | [] => ret tt
  | element :: rest =>
      tag <- getElementTagName driver sid element;;
      let line := "  [" ++ index_key i ++ "] <" ++ ToString tag ++ ">" in
      line <- (if text then
                 t <- getElementText driver sid element;;
                 if ToBoolean t then
                   match t with
                   | JString s => ret (line ++ " " ++ String "034" (substring 0 80 s)
                                        ++ String "034" "")
                   | _ => throw (OtherError "TypeError" "text.substring is not a function")
                   end
                 else ret line
               else ret line);;
      console_log line;;
      find_lines driver sid text (S i) rest
  end.

(** The action of [find]. *)
Definition find_command (selector : string) (text : bool) : M unit :=
  session <- requireSession;;
  driver <- getDriver session;;
  let (using_, value_) := selectorStrategy selector in
  sid <- prop session "sessionId";;
  elements <- findElements driver sid using_ value_;;
  console_log ("Found " ++ index_key (List.length elements) ++ " element(s)");;
  find_lines driver sid text 0 elements.

End Source.

(** ** The replace discipline of the specification

    Written from the words of the specification, to compare [saveSession]
    with: the data is written to a temporary path other than [target], which
    is then renamed onto [target]; [target] itself is never written. *)
Definition spec_atomic_replace (target : string) (calls : list fs_call) : Prop :=
  exists tmp data,
    tmp <> target
    /\ In (FsWriteFile tmp data) calls
    /\ In (FsRename tmp target) calls
    /\ forall d, ~ In (FsWriteFile target d) calls.

(** The file-system calls among the events. *)
Fixpoint fs_calls {number : Type} (l : list (event number)) : list fs_call :=
  match l with
  | [] => []
  | EvFs c :: r => c :: fs_calls r
  | _ :: r => fs_calls r
  end.

(** ** A concrete platform

    An instance of the parameters to run the program on: integers for
    numbers, and a reader and a printer for the part of JSON without string
    escapes, fractions and exponents.  The theorems do not depend on it; it
    serves to evaluate the program on concrete inputs. *)

Module Sample.

Definition quote : string := String "034" "".
Definition newline : string := String "010" "".

Definition digit (c : ascii) : option Z :=
  let n := nat_of_ascii c in
  if ((48 <=? n) && (n <=? 57))%nat then Some (Z.of_nat (n - 48)) else None.

(** The number written by decimal digits only, at least one. *)
Fixpoint read_decimal (acc : Z) (s : string) : option Z :=
  match s with
  | String c r =>
      match digit c with
      | Some d =>
          match r with
          | EmptyString => Some (10 * acc + d)
          | _ => read_decimal (10 * acc + d) r
          end
      | None => None
      end
  | EmptyString => None
  end.

(** [Number(s)] on the sample platform, whose numbers are the integers:
    the empty text is 0, and a decimal integer, with a sign or without,
    is itself; white space around it is ignored.  Any other text is not
    a number here. *)
Definition number_of_string (s : string) : option Z :=
  match trim s with
  | EmptyString => Some 0
  | String c r as t =>
      if (c =? "-")%char then option_map Z.opp (read_decimal 0 r)
      else if (c =? "+")%char then read_decimal 0 r
      else read_decimal 0 t
  end.

#[export] Instance number_Z : JSNumber Z := {
  Number_toString := decimal;
  Number_toBoolean := fun z => negb (z =? 0);
  Number_ofString := number_of_string
}.

Definition is_space (c : ascii) : bool :=
  (c =? " ")%char || (c =? "010")%char || (c =? "013")%char || (c =? "009")%char.

Fixpoint skip_space (s : string) : string :=
  match s with
  | String c r => if is_space c then skip_space r else s
  | EmptyString => s
  end.

(** The characters up to the closing quote. *)
Fixpoint read_string (s : string) : option (string * string) :=
  match s with
  | EmptyString => None
  | String c r =>
      if (c =? "034")%char then Some ("", r)
      else if (c =? "\")%char then None
      else if (nat_of_ascii c <? 32)%nat then None
      else match read_string r with
           | Some (t, rest) => Some (String c t, rest)
           | None => None
           end
  end.

Fixpoint read_digits (acc : Z) (s : string) : Z * string :=
  match s with
  | String c r =>
      match digit c with
      | Some d => read_digits (10 * acc + d) r
      | None => (acc, s)
      end
  | EmptyString => (acc, s)
  end.

(** Digits that do not start with a superfluous zero. *)
Definition read_natural (s : string) : option (Z * string) :=
  match s with
  | String c r =>
      match digit c with
      | Some _ =>
          match r with
          | String c' _ =>
              if (c =? "0")%char && (match digit c' with Some _ => true | None => false end)
              then None
              else Some (read_digits 0 s)
          | EmptyString => Some (read_digits 0 s)
          end
      | None => None
      end
  | EmptyString => None
  end.

Definition read_number (s : string) : option (Z * string) :=
  match s with
  | String c r =>
      if (c =? "-")%char then
        match read_natural r with
        | Some (n, rest) => Some (- n, rest)
        | None => None
        end
      else read_natural s
  | EmptyString => None
  end.

(** The array index a property name denotes, if any. *)
Definition index_of (k : string) : option Z :=
  match read_natural k with
  | Some (n, EmptyString) => if n <=? 4294967294 then Some n else None
  | _ => None
  end.

(** A property is set: the value of a name that is there is replaced. *)
Fixpoint put (k : string) (v : jsval Z) (l : list (string * jsval Z))
  : list (string * jsval Z) :=
  match l with
  | [] => [(k, v)]
  | (k', v') :: r => if String.eqb k' k then (k', v) :: r else (k', v') :: put k v r
  end.

Fixpoint place (i : Z) (kv : string * jsval Z) (l : list (Z * (string * jsval Z)))
  : list (Z * (string * jsval Z)) :=
  match l with
  | [] => [(i, kv)]
  | (j, x) :: r => if i <? j then (i, kv) :: l else (j, x) :: place i kv r
  end.

(** The properties of an object in the order of their enumeration: the
    array indices in ascending order, then the other names in the order in
    which they were first set. *)
Definition object_of (members : list (string * jsval Z)) : list (string * jsval Z) :=
  let set := fold_left (fun acc kv => put (fst kv) (snd kv) acc) members [] in
  let indexed :=
    fold_left (fun acc kv =>
                 match index_of (fst kv) with
                 | Some i => place i kv acc
                 | None => acc
                 end) set [] in
  map snd indexed
    ++ filter (fun kv => match index_of (fst kv) with Some _ => false | None => true end)
         set.

Fixpoint strip (p s : string) : option string :=
  match p, s with
  | EmptyString, _ => Some s
  | String a p', String b s' => if (a =? b)%char then strip p' s' else None
  | String _ _, EmptyString => None
  end.

Fixpoint read_value (fuel : nat) (s : string) {struct fuel}
  : option (jsval Z * string) :=
  match fuel with
  | O => None
  | S f =>
      match skip_space s with
      | EmptyString => None
      | String c r as s' =>
          if (c =? "[")%char then
            match skip_space r with
            | String "]" r' => Some (JArray [], r')
            | _ => match read_items f r with
                   | Some (l, rest) => Some (JArray l, rest)
                   | None => None
                   end
            end
          else if (c =? "{")%char then
            match skip_space r with
            | String "}" r' => Some (JObject [], r')
            | _ => match read_members f r with
                   | Some (l, rest) => Some (JObject (object_of l), rest)
                   | None => None
                   end
            end
          else if (c =? "034")%char then
            match read_string r with
            | Some (t, rest) => Some (JString t, rest)
            | None => None
            end
          else
            match strip "null" s', strip "true" s', strip "false" s' with
            | Some rest, _, _ => Some (JNull, rest)
            | _, Some rest, _ => Some (JBool true, rest)
            | _, _, Some rest => Some (JBool false, rest)
            | _, _, _ =>
                match read_number s' with
                | Some (n, rest) =>
                    match rest with
                    | String "." _ | String "e" _ | String "E" _ => None
                    | _ => Some (JNumber n, rest)
                    end
                | None => None
                end
            end
      end
  end
with read_items (fuel : nat) (s : string) {struct fuel}
  : option (list (jsval Z) * string) :=
  match fuel with
  | O => None
  | S f =>
      match read_value f s with
      | Some (v, rest) =>
          match skip_space rest with
          | String "," r =>
              match read_items f r with
              | Some (l, rest') => Some (v :: l, rest')
              | None => None
              end
          | String "]" r => Some ([v], r)
          | _ => None
          end
      | None => None
      end
  end
with read_members (fuel : nat) (s : string) {struct fuel}
  : option (list (string * jsval Z) * string) :=
  match fuel with
  | O => None
  | S f =>
      match skip_space s with
      | String c r =>
          if (c =? "034")%char then
            match read_string r with
            | Some (k, rest) =>
                match skip_space rest with
                | String ":" r1 =>
                    match read_value f r1 with
                    | Some (v, rest1) =>
                        match skip_space rest1 with
                        | String "," r2 =>
                            match read_members f r2 with
                            | Some (l, rest2) => Some ((k, v) :: l, rest2)
                            | None => None
                            end
                        | String "}" r2 => Some ([(k, v)], r2)
                        | _ => None
                        end
                    | None => None
                    end
                | _ => None
                end
            | None => None
            end
          else None
      | EmptyString => None
      end
  end.

(** The whole text is one value. *)
Definition JSON_parse (text : string) : option (jsval Z) :=
  match read_value (S (String.length text)) text with
  | Some (v, rest) =>
      match skip_space rest with
      | EmptyString => Some v
      | String _ _ => None
      end
  | None => None
  end.

Fixpoint spaces (n : nat) : string :=
  match n with
  | O => ""
  | S k => String " " (spaces k)
  end.

Definition break (indent depth : nat) : string :=
  if (indent =? 0)%nat then "" else newline ++ spaces (indent * depth).

Fixpoint join (sep : string) (l : list string) : string :=
  match l with
  | [] => ""
  | [x] => x
  | x :: r => x ++ sep ++ join sep r
  end.

Fixpoint stringify_at (indent depth : nat) (v : jsval Z) : string :=
  match v with
  | JUndefined | JNull => "null"
  | JBool b => if b then "true" else "false"
  | JNumber n => decimal n
  | JString s => quote ++ s ++ quote
  | JArray items =>
      match items with
      | [] => "[]"
      | _ :: _ =>
          "[" ++ break indent (S depth)
            ++ join ("," ++ break indent (S depth))
                 ((fix each (l : list (jsval Z)) : list string :=
                     match l with
                     | [] => []
                     | x :: r => stringify_at indent (S depth) x :: each r
                     end) items)
            ++ break indent depth ++ "]"
      end
  | JObject fields =>
      match (fix each (l : list (string * jsval Z)) : list string :=
               match l with
               | [] => []
               | (k, x) :: r =>
                   match x with
                   | JUndefined => each r
                   | _ =>
                       (quote ++ k ++ quote ++ ":"
                          ++ (if (indent =? 0)%nat then "" else " ")
                          ++ stringify_at indent (S depth) x) :: each r
                   end
               end) fields with
      | [] => "{}"
      | members =>
          "{" ++ break indent (S depth)
            ++ join ("," ++ break indent (S depth)) members
            ++ break indent depth ++ "}"
      end
  end.

Definition JSON_stringify (v : jsval Z) (indent : nat) : string :=
  stringify_at indent 0 v.

End Sample.

(** ** Scenarios

    Concrete environments and worlds on the sample platform. *)

Module Scenario.
Import Sample.

Definition home : string := "/Users/me".
Definition stamp (_ : Z) : string := "2024-01-01T00:00:00.000Z".

(** An endpoint that refuses every connection. *)
Definition refusing : Env Z :=
  mkEnv home (fun _ => Rejected "fetch failed") (fun _ => Some 4242)
        (fun _ _ _ => true) (fun _ => 5%N) stamp.

(** An endpoint that answers every request with [r]. *)
Definition answering (r : Response) : Env Z :=
  mkEnv home (fun _ => Responded r) (fun _ => Some 4242)
        (fun _ _ _ => true) (fun _ => 5%N) stamp.

(** The text of the envelope around [v]. *)
Definition envelope (v : jsval Z) : string :=
  JSON_stringify (JObject [("value", v)]) 0.

Definition driver : WebDriver := new_WebDriver (JNumber 9515).

(** No state directory, no state file, nothing done yet. *)
Definition fresh : World Z := mkWorld true None NoFile 0 0 [].

Definition session_payload : jsval Z :=
  JObject [("sessionId", JString "abc123"); ("capabilities", JObject [])].

Definition error_payload (code msg : string) : jsval Z :=
  JObject [("error", JString code); ("message", JString msg)].

Definition w3c_key : string := "element-6066-11e4-a52e-4f735466cecf".
Definition legacy_key : string := "ELEMENT".

(** The record of an active session, and its text in the state file. *)
Definition active_record : jsval Z :=
  session_record 9515 (JString "abc123") 4242 (stamp 0).

Definition active_text : string := JSON_stringify active_record 2 ++ newline.

(** A world with an active session persisted. *)
Definition active : World Z :=
  mkWorld true (Some true) (File active_text true true) 0 0 [].

(** The same, in a state directory whose entries cannot be removed. *)
Definition active_readonly : World Z :=
  mkWorld true (Some false) (File active_text true true) 0 0 [].

(** A state file that does not hold JSON. *)
Definition corrupted : World Z :=
  mkWorld true (Some true) (File "{ port: 95" true true) 0 0 [].

(** A state file that cannot be read. *)
Definition unreadable : World Z :=
  mkWorld true (Some true) (File active_text false true) 0 0 [].

(** A driver that no longer knows the session. *)
Definition stale_response : Response :=
  mkResponse 404
    (BodyText (envelope (error_payload "invalid session id" "Session does not exist"))).

(** A driver that refuses three probes and then answers with a new
    session; the spawned process has pid 4242 and stays alive. *)
Definition starting : Env Z :=
  mkEnv home
    (fun n => if (n <? 7)%nat then Rejected "connect ECONNREFUSED"
              else Responded (mkResponse 200 (BodyText (envelope session_payload))))
    (fun _ => Some 4242) (fun _ _ _ => true) (fun _ => 5%N) stamp.

(** The driver process is gone: no connection, and the process id is
    reported as not existing. *)
Definition dead : Env Z :=
  mkEnv home (fun _ => Rejected "fetch failed") (fun _ => None)
        (fun _ _ _ => false) (fun _ => 5%N) stamp.

(** A driver that answers every request with the stale-session error. *)
Definition stale : Env Z := answering stale_response.

(** A home directory in which nothing can be created. *)
Definition locked : World Z := mkWorld false None NoFile 0 0 [].

(** A state file that holds [text]. *)
Definition holding (text : string) : World Z :=
  mkWorld true (Some true) (File text true true) 0 0 [].

(** A driver that answers every request with the value [v]. *)
Definition returning (v : jsval Z) : Env Z :=
  answering (mkResponse 200 (BodyText (envelope v))).

(** A driver that rejects the first script it is given and evaluates the
    next one to 42. *)
Definition picky : Env Z :=
  mkEnv home
    (fun n => if (n =? 0)%nat
              then Responded (mkResponse 500
                     (BodyText (envelope (error_payload "javascript error"
                                            "Unexpected token"))))
              else Responded (mkResponse 200 (BodyText (envelope (JNumber 42)))))
    (fun _ => Some 4242) (fun _ _ _ => true) (fun _ => 5%N) stamp.

(** A page with two list items: the first answer is the list of their
    references, every later one the text [li]. *)
Definition listing : Env Z :=
  mkEnv home
    (fun n => if (n =? 0)%nat
              then Responded (mkResponse 200
                     (BodyText (envelope (JArray [JObject [(w3c_key, JString "node-1")];
                                                  JObject [(w3c_key, JString "node-2")]]))))
              else Responded (mkResponse 200 (BodyText (envelope (JString "li")))))
    (fun _ => Some 4242) (fun _ _ _ => true) (fun _ => 5%N) stamp.

(** A state file that can be written and not read. *)
Definition write_only : World Z :=
  mkWorld true (Some true) (File "" false true) 0 0 [].

(** The record of an active session in which the process id is a text. *)
Definition quoted_record : jsval Z :=
  JObject [("port", JNumber 9515); ("sessionId", JString "abc123");
           ("pid", JString "4242"); ("startedAt", JString (stamp 0))].

Definition quoted_pid : World Z :=
  holding (JSON_stringify quoted_record 2 ++ newline).

(** A response whose body cannot be read. *)
Definition cut_off : Response := mkResponse 200 (BodyFailed "terminated").

End Scenario.

(** ** Properties *)

Section Properties.
Context {number : Type} `{JSNumber number}.
Local Notation value := (jsval number).
Variable JSON_parse : string -> option value.
Variable JSON_stringify : value -> nat -> string.
Variable env : Env number.
Local Notation request := (request JSON_parse JSON_stringify env).
Local Notation loadSession := (loadSession JSON_parse).
Local Notation requireSession := (requireSession JSON_parse).
Local Notation saveSession := (saveSession JSON_stringify env).
Local Notation clearSession := (clearSession env).
Local Notation start := (start JSON_parse JSON_stringify env).
Local Notation stop := (stop JSON_parse JSON_stringify env).
Local Notation main := (main env).

(** What [loadSession] returns, as a function of the state file (see
    [loadSession_loaded]). *)
Definition loaded (w : World number) : value :=
  match state_file w with
  | File content true _ =>
      match JSON_parse content with
      | Some v => v
      | None => JNull
      end
  | _ => JNull
  end.

(** [v.k] for a value that has properties. *)
Definition field (v : value) (k : string) : value :=
  match Get v k with
  | Some x => x
  | None => JUndefined
  end.

(** A persisted session exists whose recorded process is alive: the value
    of the guard [existing && isProcessAlive(existing.pid)] of [start] (see
    [guard_eval]). *)
Definition session_alive (w : World number) : bool :=
  ToBoolean (loaded w) &&
  match kill_target (field (loaded w) "pid") with
  | Some n => os_kill env (tick w) n Sig0
  | None => false
  end.

(** The world after the guard of [start]: with a session loaded, the
    liveness probe of the process id it records has been made, when that is
    taken for a number. *)
Definition probed (w : World number) : World number :=
  if ToBoolean (loaded w) then
    match kill_target (field (loaded w) "pid") with
    | Some n => pass env 0 (emit (EvKill n Sig0) w)
    | None => w
    end
  else w.

(** The world after an attempt [m] that failed and the timer of [ms]
    milliseconds that follows it, and after [n] such in a row. *)
Definition after_failure {A} (m : M number A) (ms : Z) (w : World number)
  : World number :=
  pass env ms (snd (m w)).

Fixpoint after_failures {A} (m : M number A) (ms : Z) (n : nat) (w : World number)
  : World number :=
  match n with
  | O => w
  | S n' => after_failures m ms n' (after_failure m ms w)
  end.

(** From [w] the attempt [m] was made [n] times in a row, every time
    before the deadline, and every time it threw. *)
Definition failed_until {A} (m : M number A) (ms deadline : Z) (n : nat)
  (w : World number) : Prop :=
  forall i, (i < n)%nat ->
    clock (after_failures m ms i w) < deadline
    /\ exists e, fst (m (after_failures m ms i w)) = Throw e.

(** The world in which [start] has just spawned the driver: after the
    guard, the notice and the spawn.  The process id is the answer to the
    spawn, made at the tick of [probed w]. *)
Definition spawned (port : number) (w : World number) : World number :=
  pass env 0
    (emit (EvSpawn "safaridriver" ["-p"; Number_toString port])
       (emit (EvStderr ("Starting safaridriver on port "
                          ++ Number_toString port ++ "..."))
          (probed w))).

(** The world after a failure handler of [start]: the message and the
    termination signal to the spawned process. *)
Definition abandoned (line : string) (pid : number) (w : World number)
  : World number :=
  pass env 0 (emit (EvKill pid SIGTERM) (emit (EvStderr line) w)).

(** The state file is absent, unreadable or malformed. *)
Definition no_usable_file (w : World number) : Prop :=
  state_file w = NoFile
  \/ (exists content wr, state_file w = File content false wr)
  \/ (exists content wr, state_file w = File content true wr
                         /\ JSON_parse content = None).

(** The world after [clearSession] (see [clearSession_after]): the file is
    removed when there is one and the directory allows it; a failed removal
    leaves it. *)
Definition after_clear (w : World number) : World number :=
  match state_file w with
  | NoFile => w
  | File _ _ _ =>
      match state_dir w with
      | Some true =>
          set_state_file NoFile (emit (EvFs (FsUnlink (STATE_FILE env))) w)
      | _ => emit (EvFs (FsUnlink (STATE_FILE env))) w
      end
  end.

(** The number of driver processes spawned so far. *)
Fixpoint spawns (l : list (event number)) : nat :=
  match l with
  | [] => O
  | EvSpawn _ _ :: r => S (spawns r)
  | _ :: r => spawns r
  end.

(** The file-system part of the world. *)
Definition fs_of (w : World number) : bool * option bool * fnode :=
  (home_writable w, state_dir w, state_file w).

(** [w'] is [w] after interactions that leave the file system alone and
    spawn nothing. *)
Definition frame (w w' : World number) : Prop :=
  fs_of w' = fs_of w /\ spawns (log w') = spawns (log w) /\ clock w <= clock w'.

(** The number of requests made so far. *)
Fixpoint fetches (l : list (event number)) : nat :=
  match l with
  | [] => O
  | EvFetch _ _ _ :: r => S (fetches r)
  | _ :: r => fetches r
  end.

(** The number of termination signals sent so far. *)
Fixpoint terminations (l : list (event number)) : nat :=
  match l with
  | [] => O
  | EvKill _ SIGTERM :: r => S (terminations r)
  | _ :: r => terminations r
  end.

(** Events that change nothing outside the program: requests, liveness
    probes and output. *)
Definition harmless (e : event number) : bool :=
  match e with
  | EvFetch _ _ _ | EvKill _ Sig0 | EvStdout _ | EvStderr _ => true
  | EvSpawn _ _ | EvKill _ SIGTERM | EvFs _ => false
  end.

(** [w'] is [w] with the same file system, a clock that did not go back,
    and more events, all of them satisfying [p]. *)
Definition extends (p : event number -> bool) (w w' : World number) : Prop :=
  fs_of w' = fs_of w
  /\ clock w <= clock w'
  /\ exists added, log w' = (log w ++ added)%list /\ forallb p added = true.

(** A continuation that only computes: it leaves the world alone and does
    not end the process. *)
Definition computes {A B} (k : A -> M number B) : Prop :=
  forall a w, exists o, k a w = (o, w) /\ forall c, o <> Exit c.

(** What [execute] prints for a result. *)
Definition printed (result : value) : list (event number) :=
  match result with
  | JUndefined | JNull => []
  | JArray _ | JObject _ => [EvStdout (JSON_stringify result 2)]
  | _ => [EvStdout (ToString result)]
  end.

(** The number of lines written to the standard output so far. *)
Fixpoint outputs (l : list (event number)) : nat :=
  match l with
  | [] => O
  | EvStdout _ :: r => S (outputs r)
  | _ :: r => outputs r
  end.

(** The body [request] sends for a payload. *)
Definition body_of (payload : value) : option string :=
  match payload with
  | JUndefined => None
  | _ => Some (JSON_stringify payload 0)
  end.

(** Every character of [s] is white space. *)
Fixpoint blank (s : string) : bool :=
  match s with
  | EmptyString => true
  | String c r => js_space c && blank r
  end.

(** Some line of [s] starts, after white space or none, with [return]
    followed by a white space character: what [/^\s*return\s/m] matches.
    A line starts at the start of [s] and after every line terminator. *)
Definition return_line (s : string) : Prop :=
  exists before spaces c rest,
    s = before ++ spaces ++ "return" ++ String c rest
    /\ (before = ""
        \/ exists p t, before = p ++ String t "" /\ js_line_terminator t = true)
    /\ blank spaces = true
    /\ js_space c = true.

(** [s] holds no semicolon. *)
Definition no_semicolon (s : string) : Prop :=
  forall a b, s <> a ++ ";" ++ b.

(** [t] neither starts nor ends with white space. *)
Definition tight (t : string) : Prop :=
  (forall c r, t = String c r -> js_space c = false)
  /\ (forall p c, t = p ++ String c "" -> js_space c = false).

(** [t] is [s] without the white space at its two ends. *)
Definition trimmed (s t : string) : Prop :=
  exists l r, s = l ++ t ++ r /\ blank l = true /\ blank r = true /\ tight t.

Lemma index_key_not_error (i : nat) : String.eqb (index_key i) "error" = false.
Proof.
  unfold index_key, NilZero.string_of_uint.
  destruct (Nat.to_uint i); reflexivity.
Qed.

Lemma lookup_index_error {A} (l : list A) (from : nat) :
  lookup_index "error" from l = None.
Proof.
  revert from; induction l as [|x r IH]; intro from; simpl.
  - reflexivity.
  - rewrite index_key_not_error. apply IH.
Qed.

Lemma Get_error_no_field (v e : value) :
  has_error_field v = false -> Get v "error" = Some e -> ToBoolean e = false.
Proof.
  destruct v; simpl; intros Hf Hg; try discriminate;
    try (rewrite lookup_index_error in Hg); try (injection Hg as <-; reflexivity).
  destruct (lookup "error" fields); [discriminate|].
  injection Hg as <-; reflexivity.
Qed.

Lemma Get_truthy (v : value) (k : string) :
  ToBoolean v = true -> exists x, Get v k = Some x.
Proof.
  destruct v; simpl; intro Hv; try discriminate; eexists; reflexivity.
Qed.

Ltac run_request :=
  unfold request, bind, try_catch, fetch, Response_text, prop, ret, throw; simpl.

(** C1.  When the body parses as JSON and the top-level [value] has no
    [error] field, [request] returns exactly [value], whatever kind of
    value it is and whatever the HTTP status; a body that is not JSON and
    comes with a success status is returned as a string.  The envelope is
    never what is returned. *)
Theorem request_returns_value this method path payload w r text :
  net env (tick w) = Responded r ->
  body r = BodyText text ->
  (forall json v,
      JSON_parse text = Some json ->
      Get json "value" = Some v ->
      has_error_field v = false ->
      fst (request this method path payload w) = Ret v)
  /\ (JSON_parse text = None ->
      ok r = true ->
      fst (request this method path payload w) = Ret (JString text)).
Proof.
  intros Hnet Hbody; split.
  - intros json v Hparse Hvalue Hnoerr.
    run_request. rewrite Hnet, Hbody; simpl. rewrite Hparse, Hvalue; simpl.
    destruct (ToBoolean v) eqn:Hv.
    + destruct (Get_truthy v "error" Hv) as [e He]. rewrite He; simpl.
      rewrite (Get_error_no_field v Hnoerr He). reflexivity.
    + simpl. rewrite Hv. reflexivity.
  - intros Hparse Hok.
    run_request. rewrite Hnet, Hbody; simpl. rewrite Hparse, Hok. reflexivity.
Qed.


(** C3.  A body that is not JSON fails with a [WebDriverError] carrying the
    status and the body text when the status is not a success, and is
    returned as plain text when the status is a success. *)
Theorem request_non_json this method path payload w r text :
  net env (tick w) = Responded r ->
  body r = BodyText text ->
  JSON_parse text = None ->
  (ok r = false ->
   fst (request this method path payload w)
   = Throw (WDError (mkWebDriverError
              ("HTTP " ++ decimal (status r) ++ ": " ++ text)
              (Some (status r)) JUndefined)))
  /\ (ok r = true ->
      fst (request this method path payload w) = Ret (JString text)).
Proof.
  intros Hnet Hbody Hparse; split; intro Hok;
    run_request; rewrite Hnet, Hbody; simpl; rewrite Hparse, Hok; reflexivity.
Qed.

Lemma element_reference_single (k : string) (id : value) (w : World number) :
  element_reference (JObject [(k, id)]) w = (Ret id, w).
Proof.
  unfold element_reference, prop; simpl. rewrite String.eqb_refl. reflexivity.
Qed.

Lemma map_M_element_reference (refs : list (string * value)) (w : World number) :
  map_M element_reference (map (fun r => JObject [r]) refs) w
  = (Ret (map snd refs), w).
Proof.
  induction refs as [|[k id] rest IH]; simpl.
  - reflexivity.
  - unfold bind. rewrite element_reference_single, IH. reflexivity.
Qed.

(** C4.  [findElement] returns the identifier stored under whichever single
    key the reference object has; [findElements] does the same for every
    reference of the list; the key name does not matter: two references
    with the same identifier under different keys give the same result. *)
Theorem element_reference_any_key this sessionId using_ selector w :
  (forall k id,
      fst (request this "POST" ("/session/" ++ ToString sessionId ++ "/element")
             (locator using_ selector) w) = Ret (JObject [(k, id)]) ->
      fst (findElement JSON_parse JSON_stringify env this sessionId using_ selector w)
      = Ret id)
  /\ (forall refs,
      fst (request this "POST" ("/session/" ++ ToString sessionId ++ "/elements")
             (locator using_ selector) w)
      = Ret (JArray (map (fun r => JObject [r]) refs)) ->
      fst (findElements JSON_parse JSON_stringify env this sessionId using_ selector w)
      = Ret (map snd refs))
  /\ (forall k1 k2 id w',
      element_reference (JObject [(k1, id)]) w'
      = element_reference (JObject [(k2, id)]) w').
Proof.
  split; [|split].
  - intros k id Hreq. unfold findElement, bind.
    destruct (request _ _ _ _ w) as [res w1]. simpl in Hreq; subst res.
    rewrite element_reference_single. reflexivity.
  - intros refs Hreq. unfold findElements, bind.
    destruct (request _ _ _ _ w) as [res w1]. simpl in Hreq; subst res.
    rewrite map_M_element_reference. reflexivity.
  - intros k1 k2 id w'. now rewrite !element_reference_single.
Qed.

(** C5.  When the connection attempt fails, [request] throws a
    [WebDriverError] whose message names the target address and the cause,
    with no status code.  That is no HTTP-level outcome: every
    [WebDriverError] thrown for a response that did arrive carries the status
    of that response. *)
Theorem request_connection_error this method path payload w :
  (forall cause,
      net env (tick w) = Rejected cause ->
      fst (request this method path payload w)
      = Throw (WDError (mkWebDriverError
                 ("Cannot connect to SafariDriver at " ++ baseUrl this ++ ": " ++ cause)
                 None JUndefined)))
  /\ (forall r e,
      net env (tick w) = Responded r ->
      fst (request this method path payload w) = Throw (WDError e) ->
      statusCode e = Some (status r)).
Proof.
  split.
  - intros cause Hnet. run_request. rewrite Hnet. reflexivity.
  - intros r e Hnet. run_request. rewrite Hnet; simpl.
    destruct (body r); simpl; [|discriminate].
    destruct (JSON_parse text) as [json|]; simpl.
    + destruct (Get json "value") as [v|]; simpl; [|discriminate].
      destruct (ToBoolean v) eqn:Hv; simpl.
      * destruct (Get v "error") as [c|]; simpl; [|discriminate].
        destruct (ToBoolean c); simpl.
        -- destruct (Get v "message"); simpl; [|discriminate].
           intro Heq; injection Heq as <-. reflexivity.
        -- discriminate.
      * rewrite Hv. discriminate.
    + destruct (ok r); simpl; [discriminate|].
      intro Heq; injection Heq as <-. reflexivity.
Qed.

(** *** Frame facts *)

Lemma spawns_app (l1 l2 : list (event number)) :
  spawns (l1 ++ l2) = (spawns l1 + spawns l2)%nat.
Proof.
  induction l1 as [|e r IH]; simpl; [reflexivity|].
  destruct e; simpl; rewrite IH; reflexivity.
Qed.

Lemma frame_refl w : frame w w.
Proof. unfold frame; repeat split; lia. Qed.

Lemma frame_trans w1 w2 w3 : frame w1 w2 -> frame w2 w3 -> frame w1 w3.
Proof.
  unfold frame; intros (F1 & S1 & C1) (F2 & S2 & C2); repeat split; try congruence; lia.
Qed.

Lemma frame_emit_pass e ms w :
  spawns [e] = O -> 0 <= ms -> frame w (pass env ms (emit e w)).
Proof.
  intros He Hms. unfold frame, fs_of, pass, emit; simpl.
  rewrite spawns_app, He. repeat split; lia.
Qed.

Lemma frame_emit e w : spawns [e] = O -> frame w (emit e w).
Proof.
  intros He. unfold frame, fs_of, emit; simpl.
  rewrite spawns_app, He. repeat split; lia.
Qed.

Lemma request_world this method path payload w :
  exists o ev,
    request this method path payload w = (o, pass env 0 (emit ev w))
    /\ spawns [ev] = O /\ forall c, o <> Exit c.
Proof.
  run_request. destruct (net env (tick w)) as [cause|r]; simpl.
  - do 2 eexists; split; [reflexivity|]. split; [reflexivity|discriminate].
  - destruct (body r); simpl.
    2:{ do 2 eexists; split; [reflexivity|]. split; [reflexivity|discriminate]. }
    destruct (JSON_parse text) as [json|]; simpl.
    + destruct (Get json "value") as [v|]; simpl.
      2:{ do 2 eexists; split; [reflexivity|]. split; [reflexivity|discriminate]. }
      destruct (ToBoolean v) eqn:Hv; simpl.
      * destruct (Get v "error") as [c|]; simpl.
        2:{ do 2 eexists; split; [reflexivity|]. split; [reflexivity|discriminate]. }
        destruct (ToBoolean c); simpl.
        -- destruct (Get v "message"); simpl;
             do 2 eexists; (split; [reflexivity|]); (split; [reflexivity|discriminate]).
        -- do 2 eexists; split; [reflexivity|]. split; [reflexivity|discriminate].
      * rewrite Hv. do 2 eexists; split; [reflexivity|]. split; [reflexivity|discriminate].
    + destruct (ok r); simpl;
        do 2 eexists; (split; [reflexivity|]); (split; [reflexivity|discriminate]).
Qed.

Lemma request_frame this method path payload w :
  frame w (snd (request this method path payload w))
  /\ forall c, fst (request this method path payload w) <> Exit c.
Proof.
  destruct (request_world this method path payload w) as (o & ev & -> & Hev & Hno).
  simpl; split; [|exact Hno]. apply frame_emit_pass; [exact Hev|lia].
Qed.

Lemma loadSession_loaded w : loadSession w = (Ret (loaded w), w).
Proof.
  unfold loadSession, loaded, try_catch, bind, existsSync_file, readFileSync_file,
    JSON_parse_M, ret, throw.
  destruct w as [hw sd [|content [|] wr] ck tk lg]; simpl; try reflexivity.
  destruct (JSON_parse content); reflexivity.
Qed.

Lemma loaded_fs w w' : fs_of w' = fs_of w -> loaded w' = loaded w.
Proof. unfold fs_of, loaded; intro E; injection E as _ _ ->; reflexivity. Qed.

(** [isProcessAlive] never throws: it answers what the system answers for
    the number the process id is taken for, and [false] without asking for
    one that is taken for no number. *)
Lemma isProcessAlive_target pid w :
  isProcessAlive env pid w
  = match kill_target pid with
    | Some n =>
        (Ret (os_kill env (tick w) n Sig0), pass env 0 (emit (EvKill n Sig0) w))
    | None => (Ret false, w)
    end.
Proof.
  unfold isProcessAlive, try_catch, bind, process_kill, ret.
  destruct (kill_target pid) as [n|]; [|reflexivity].
  destruct (os_kill env (tick w) n Sig0); reflexivity.
Qed.

Lemma isProcessAlive_number n w :
  isProcessAlive env (JNumber n) w
  = (Ret (os_kill env (tick w) n Sig0), pass env 0 (emit (EvKill n Sig0) w)).
Proof. apply (isProcessAlive_target (JNumber n)). Qed.

Lemma isProcessAlive_frame pid w :
  exists b w', isProcessAlive env pid w = (Ret b, w') /\ frame w w'.
Proof.
  rewrite isProcessAlive_target. destruct (kill_target pid) as [n|].
  - do 2 eexists; split; [reflexivity|].
    apply frame_emit_pass; [reflexivity|lia].
  - exists false, w; split; [reflexivity|apply frame_refl].
Qed.

Lemma process_kill_frame pid sig w :
  frame w (snd (process_kill env pid sig w))
  /\ forall c, fst (process_kill env pid sig w) <> Exit c.
Proof.
  unfold process_kill. destruct (kill_target pid) as [n|]; simpl.
  - destruct (os_kill env (tick w) n sig); simpl;
      (split; [apply frame_emit_pass; [reflexivity|lia]|discriminate]).
  - split; [apply frame_refl|discriminate].
Qed.

(** *** Persistence *)

(** C10.  [loadSession] always returns, without throwing and without
    changing anything; with the state file absent, unreadable or malformed
    it returns [null], so that [requireSession] then ends the same way in
    all three cases: the message on the error stream and exit status 1. *)
Theorem loadSession_total w :
  (exists v, loadSession w = (Ret v, w))
  /\ (no_usable_file w ->
      loadSession w = (Ret JNull, w)
      /\ requireSession w
         = (Exit 1,
            emit (EvStderr "No active Safari session. Run `safari-cli start` first.") w)).
Proof.
  split.
  - exists (loaded w). apply loadSession_loaded.
  - intro Hno.
    assert (Hnull : loaded w = JNull).
    { unfold loaded.
      destruct Hno as [-> | [(c & wr & ->) | (c & wr & -> & ->)]]; reflexivity. }
    unfold requireSession, bind. rewrite loadSession_loaded, Hnull. split; reflexivity.
Qed.

Lemma saveSession_log state w :
  let data := JSON_stringify state 2 ++ String "010" "" in
  let write := EvFs (FsWriteFile (STATE_FILE env) data) in
  let o := saveSession state w in
  match state_dir w with
  | Some _ => log (snd o) = (log w ++ [write])%list
  | None =>
      if home_writable w
      then log (snd o) = (log w ++ [EvFs (FsMkdir (STATE_DIR env)); write])%list
      else log (snd o) = (log w ++ [EvFs (FsMkdir (STATE_DIR env))])%list
  end.
Proof.
  unfold saveSession, bind, existsSync_dir, mkdirSync_dir, writeFileSync_file, ret.
  destruct w as [hw [d|] sf ck tk lg]; simpl.
  - destruct sf as [|c r [|]]; [destruct d| |]; reflexivity.
  - destruct hw; simpl; [|reflexivity].
    destruct sf as [|c r [|]]; simpl; rewrite <- app_assoc; reflexivity.
Qed.

(** C8, as amended.  [saveSession] writes the record straight to the state
    file with one write and renames nothing; when the directory is missing
    it is created first.  From a state with no directory and no file, in a
    home directory that allows it, the result is the directory and the file
    holding the record. *)
Theorem saveSession_direct_write state w :
  let data := JSON_stringify state 2 ++ String "010" "" in
  (state_dir w = None -> home_writable w = true -> state_file w = NoFile ->
   saveSession state w
   = (Ret tt,
      mkWorld true (Some true) (File data true true) (clock w) (tick w)
        (log w ++ [EvFs (FsMkdir (STATE_DIR env));
                   EvFs (FsWriteFile (STATE_FILE env) data)])))
  /\ (forall d, state_dir w = Some d ->
      log (snd (saveSession state w))
      = (log w ++ [EvFs (FsWriteFile (STATE_FILE env) data)])%list)
  /\ (forall c, In c (fs_calls (log (snd (saveSession state w)))) ->
      In c (fs_calls (log w))
      \/ c = FsMkdir (STATE_DIR env)
      \/ c = FsWriteFile (STATE_FILE env) data).
Proof.
  intro data; split; [|split].
  - intros Hd Hh Hf.
    unfold saveSession, bind, existsSync_dir, mkdirSync_dir, writeFileSync_file, ret.
    destruct w as [hw sd sf ck tk lg]; simpl in *; subst; simpl.
    unfold emit, set_state_dir, set_state_file; simpl.
    rewrite <- app_assoc. reflexivity.
  - intros d Hd. pose proof (saveSession_log state w) as L; simpl in L.
    rewrite Hd in L. exact L.
  - intros c Hin. pose proof (saveSession_log state w) as L; simpl in L.
    assert (Happ : forall l1 l2 : list (event number),
               fs_calls (l1 ++ l2) = (fs_calls l1 ++ fs_calls l2)%list).
    { induction l1 as [|e r IH]; intro l2; simpl; [reflexivity|].
      destruct e; simpl; rewrite IH; reflexivity. }
    destruct (state_dir w); [|destruct (home_writable w)];
      rewrite L, Happ in Hin; apply in_app_or in Hin;
      (destruct Hin as [Hin|Hin]; [left; exact Hin|]);
      simpl in Hin; fold data in Hin.
    + destruct Hin as [<-|[]]. right; right; reflexivity.
    + destruct Hin as [<-|[<-|[]]]; [right; left|right; right]; reflexivity.
    + destruct Hin as [<-|[]]. right; left; reflexivity.
Qed.

(** *** Teardown *)

Lemma clearSession_after w : clearSession w = (Ret tt, after_clear w).
Proof.
  unfold clearSession, after_clear, try_catch, bind, existsSync_file,
    unlinkSync_file, ret.
  destruct w as [hw [[|]|] [|c r wr] ck tk lg]; reflexivity.
Qed.

Lemma after_clear_removes w :
  state_dir w = Some true -> state_file (after_clear w) = NoFile.
Proof.
  unfold after_clear. intros ->. destruct (state_file w) eqn:E; [exact E|reflexivity].
Qed.

Lemma prop_truthy (v : value) (k : string) (w : World number) :
  ToBoolean v = true -> prop v k w = (Ret (field v k), w).
Proof.
  intro Hv. unfold prop, field.
  destruct (Get_truthy v k Hv) as [x ->]. reflexivity.
Qed.

Lemma deleteSession_best_effort driver session w :
  exists w1,
    try_catch
      (bind (prop session "sessionId")
         (fun sid => deleteSession JSON_parse JSON_stringify env driver sid))
      (fun _ => ret tt) w = (Ret tt, w1)
    /\ frame w w1.
Proof.
  unfold try_catch, bind, prop.
  destruct (Get session "sessionId") as [sid|]; simpl.
  - unfold deleteSession, bind.
    destruct (request_world driver "DELETE" ("/session/" ++ ToString sid) JUndefined w)
      as (o & ev & -> & Hev & Hno).
    destruct o as [a|e|c]; simpl.
    + eexists; split; [reflexivity|]. apply frame_emit_pass; [exact Hev|lia].
    + eexists; split; [reflexivity|]. apply frame_emit_pass; [exact Hev|lia].
    + exfalso; exact (Hno c eq_refl).
  - exists w; split; [reflexivity|apply frame_refl].
Qed.

Lemma terminate_best_effort pid (alive : bool) w :
  exists w1,
    (if alive then
       try_catch
         (bind (process_kill env pid SIGTERM)
            (fun _ => console_log
               ("Stopped safaridriver (pid=" ++ ToString pid ++ ")")))
         (fun _ => ret tt)
     else ret tt) w = (Ret tt, w1)
    /\ frame w w1.
Proof.
  destruct alive; [|exists w; split; [reflexivity|apply frame_refl]].
  unfold try_catch, bind.
  destruct (process_kill_frame pid SIGTERM w) as [Hf Hno].
  destruct (process_kill env pid SIGTERM w) as [[[]|e|c] w1]; simpl in *.
  - eexists; split; [reflexivity|].
    eapply frame_trans; [exact Hf|]. apply frame_emit; reflexivity.
  - eexists; split; [reflexivity|exact Hf].
  - exfalso; exact (Hno c eq_refl).
Qed.

Lemma stop_absent w :
  ToBoolean (loaded w) = false ->
  stop w = (Ret tt, emit (EvStdout "No active session.") w).
Proof.
  intro Hl. unfold stop, bind. rewrite loadSession_loaded, Hl. reflexivity.
Qed.

Lemma bind_eq {A B} (m : M number A) (k : A -> M number B) w a w' :
  m w = (Ret a, w') -> bind m k w = k a w'.
Proof. intro E. unfold bind. rewrite E. reflexivity. Qed.
Arguments bind_eq {A B m} k {w a w'} _.

Lemma getDriver_truthy session w :
  ToBoolean session = true ->
  getDriver session w = (Ret (new_WebDriver (field session "port")), w).
Proof.
  intro Hs. unfold getDriver. rewrite (bind_eq _ (prop_truthy session "port" w Hs)).
  reflexivity.
Qed.

Lemma stop_present w :
  ToBoolean (loaded w) = true ->
  exists w3,
    frame w w3
    /\ stop w = (Ret tt, emit (EvStdout "Session closed.") (after_clear w3)).
Proof.
  intro Hl. unfold stop.
  rewrite (bind_eq _ (loadSession_loaded w)), Hl; cbn [negb].
  rewrite (bind_eq _ (getDriver_truthy (loaded w) w Hl)).
  destruct (deleteSession_best_effort (new_WebDriver (field (loaded w) "port"))
              (loaded w) w) as (w1 & E1 & F1).
  rewrite (bind_eq _ E1).
  rewrite (bind_eq _ (prop_truthy (loaded w) "pid" w1 Hl)).
  destruct (isProcessAlive_frame (field (loaded w) "pid") w1) as (b & w2 & E2 & F2).
  rewrite (bind_eq _ E2).
  destruct (terminate_best_effort (field (loaded w) "pid") b w2) as (w3 & E3 & F3).
  rewrite (bind_eq _ E3).
  rewrite (bind_eq _ (clearSession_after w3)).
  exists w3; split; [|reflexivity].
  eapply frame_trans; [exact F1|]. eapply frame_trans; [exact F2|exact F3].
Qed.

Lemma frame_loaded w w' : frame w w' -> loaded w' = loaded w.
Proof. intros (F & _). apply loaded_fs, F. Qed.

Lemma after_clear_falsy w :
  state_dir w = Some true -> ToBoolean (loaded (after_clear w)) = false.
Proof.
  intro Hd. unfold loaded. rewrite (after_clear_removes w Hd). reflexivity.
Qed.

Lemma after_clear_keeps w :
  state_dir w <> Some true -> state_file (after_clear w) = state_file w.
Proof.
  unfold after_clear. intro Hd.
  destruct (state_file w) eqn:E; [exact E|].
  destruct (state_dir w) as [[|]|]; [contradiction Hd; reflexivity| |];
    simpl; exact E.
Qed.


(** *** The top-level handler *)


(** *** Starting a session *)

Lemma bind_inv {A B} (m : M number A) (k : A -> M number B) w b w' :
  bind m k w = (Ret b, w') ->
  exists a w1, m w = (Ret a, w1) /\ k a w1 = (Ret b, w').
Proof.
  unfold bind. destruct (m w) as [[a|e|c] w1]; intro E; try discriminate.
  exists a, w1; split; [reflexivity|exact E].
Qed.

Lemma probe_result driver w :
  exists (b : bool) w1,
    try_catch
      (bind (getStatus JSON_parse JSON_stringify env driver) (fun _ => ret true))
      (fun _ => bind (sleep env 200) (fun _ => ret false)) w = (Ret b, w1)
    /\ frame w w1
    /\ (b = false -> clock w + 200 <= clock w1).
Proof.
  unfold try_catch, bind, getStatus.
  destruct (request_world driver "GET" "/status" JUndefined w)
    as (o & ev & -> & Hev & Hno).
  destruct o as [a|e|c]; simpl.
  - exists true; eexists; split; [reflexivity|]. split.
    + apply frame_emit_pass; [exact Hev|lia].
    + discriminate.
  - exists false; eexists; split; [reflexivity|]. split.
    + apply frame_trans with (w2 := pass env 0 (emit ev w)).
      * apply frame_emit_pass; [exact Hev|lia].
      * unfold frame, fs_of, pass; simpl. repeat split; try reflexivity; lia.
    + intros _. unfold pass, emit; simpl. lia.
  - exfalso; exact (Hno c eq_refl).
Qed.

Lemma waitForDriver_loop_frame driver deadline timeoutMs fuel :
  forall w,
  exists o w',
    waitForDriver_loop JSON_parse JSON_stringify env fuel driver
      deadline timeoutMs w = (o, w')
    /\ frame w w' /\ forall c, o <> Exit c.
Proof.
  induction fuel as [|fuel IH]; intro w; simpl.
  - unfold bind, Date_now, throw; simpl.
    do 2 eexists; split; [reflexivity|]. split; [apply frame_refl|discriminate].
  - unfold bind at 1. unfold Date_now at 1.
    destruct (clock w <? deadline).
    + destruct (probe_result driver w) as (b & w1 & E & F & _).
      rewrite (bind_eq _ E). destruct b.
      * do 2 eexists; split; [reflexivity|]. split; [exact F|discriminate].
      * destruct (IH w1) as (o & w' & E1 & F1 & N1).
        exists o, w'; split; [exact E1|]. split; [|exact N1].
        eapply frame_trans; [exact F|exact F1].
    + do 2 eexists; split; [reflexivity|]. split; [apply frame_refl|discriminate].
Qed.

Lemma waitForDriver_loop_S driver deadline timeoutMs fuel w :
  waitForDriver_loop JSON_parse JSON_stringify env (S fuel) driver deadline timeoutMs w
  = if clock w <? deadline then
      bind (try_catch
              (bind (getStatus JSON_parse JSON_stringify env driver)
                 (fun _ => ret true))
              (fun _ => bind (sleep env 200) (fun _ => ret false)))
        (fun ready : bool =>
           if ready then ret tt
           else waitForDriver_loop JSON_parse JSON_stringify env fuel
                  driver deadline timeoutMs) w
    else throw (OtherError "Error"
           ("SafariDriver did not start within " ++ decimal timeoutMs ++ "ms")) w.
Proof.
  simpl. unfold bind at 1. unfold Date_now at 1.
  destruct (clock w <? deadline); reflexivity.
Qed.

(** The fuel of [waitForDriver_loop] is never what ends the loop: with as
    many units as milliseconds remain, one more changes nothing. *)
Lemma waitForDriver_loop_fuel driver deadline timeoutMs fuel :
  forall w,
    deadline - clock w <= Z.of_nat fuel ->
    waitForDriver_loop JSON_parse JSON_stringify env (S fuel) driver deadline timeoutMs w
    = waitForDriver_loop JSON_parse JSON_stringify env fuel driver deadline timeoutMs w.
Proof.
  induction fuel as [|fuel IH]; intros w Hle.
  - rewrite waitForDriver_loop_S.
    replace (clock w <? deadline) with false by (symmetry; apply Z.ltb_ge; lia).
    reflexivity.
  - rewrite (waitForDriver_loop_S driver deadline timeoutMs (S fuel) w).
    rewrite (waitForDriver_loop_S driver deadline timeoutMs fuel w).
    destruct (clock w <? deadline); [|reflexivity].
    destruct (probe_result driver w) as (b & w1 & E & _ & Hclock).
    rewrite !(bind_eq _ E). destruct b; [reflexivity|].
    apply IH. specialize (Hclock eq_refl). lia.
Qed.

(** [waitForDriver] starts its loop with enough fuel: more of it gives the
    same run. *)
Lemma waitForDriver_fuel driver timeoutMs w extra :
  waitForDriver_loop JSON_parse JSON_stringify env (Z.to_nat timeoutMs + extra)
    driver (clock w + timeoutMs) timeoutMs w
  = waitForDriver_loop JSON_parse JSON_stringify env (Z.to_nat timeoutMs)
      driver (clock w + timeoutMs) timeoutMs w.
Proof.
  induction extra as [|extra IH].
  - rewrite Nat.add_0_r. reflexivity.
  - rewrite Nat.add_succ_r, waitForDriver_loop_fuel; [exact IH|]. lia.
Qed.

Lemma waitForDriver_frame port timeoutMs w :
  exists o w',
    waitForDriver JSON_parse JSON_stringify env port timeoutMs w = (o, w')
    /\ frame w w' /\ forall c, o <> Exit c.
Proof.
  unfold waitForDriver, bind, Date_now. apply waitForDriver_loop_frame.
Qed.

Lemma createSession_frame this w :
  exists o w',
    createSession JSON_parse JSON_stringify env this w = (o, w')
    /\ frame w w' /\ forall c, o <> Exit c.
Proof.
  unfold createSession, bind.
  destruct (request_world this "POST" "/session" capabilities w)
    as (o & ev & -> & Hev & Hno).
  assert (F : frame w (pass env 0 (emit ev w)))
    by (apply frame_emit_pass; [exact Hev|lia]).
  destruct o as [a|e|c].
  - unfold prop. destruct (Get a "sessionId");
      do 2 eexists; (split; [reflexivity|]); (split; [exact F|discriminate]).
  - do 2 eexists; split; [reflexivity|]. split; [exact F|discriminate].
  - exfalso; exact (Hno c eq_refl).
Qed.

(** The failure handlers of [start] end the process. *)
Lemma abandon_exits (A : Type) line pid w :
  exists w',
    bind (console_error line)
      (fun _ => bind (try_catch (process_kill env (JNumber pid) SIGTERM)
                        (fun _ => ret tt))
                  (fun _ => exit 1)) w
    = (@Exit number A 1, w').
Proof.
  unfold bind, console_error, try_catch, process_kill, kill_target, ret, exit.
  destruct (os_kill env (tick (emit (EvStderr line) w)) pid SIGTERM);
    eexists; reflexivity.
Qed.

(** A save that succeeds leaves the record in the state file, which can be
    read afterwards when it was new or could be read before. *)
Lemma saveSession_ret state w w' :
  saveSession state w = (Ret tt, w') ->
  state_file w'
  = File (JSON_stringify state 2 ++ String "010" "")
      (match state_file w with NoFile => true | File _ r _ => r end) true
  /\ spawns (log w') = spawns (log w).
Proof.
  unfold saveSession, bind, existsSync_dir, mkdirSync_dir, writeFileSync_file, ret.
  destruct w as [hw [d|] sf ck tk lg]; simpl.
  - destruct sf as [|c r [|]]; [destruct d| |]; intro E; try discriminate;
      injection E as <-; simpl; rewrite spawns_app; simpl;
      (split; [reflexivity|lia]).
  - destruct hw; simpl; [|discriminate].
    destruct sf as [|c r [|]]; simpl; intro E; try discriminate;
      injection E as <-; simpl; rewrite !spawns_app; simpl;
      (split; [reflexivity|lia]).
Qed.

(** The guard of [start] evaluates to [session_alive]. *)
Lemma guard_probed w :
  (if ToBoolean (loaded w)
   then bind (prop (loaded w) "pid") (fun pid => isProcessAlive env pid)
   else ret false) w = (Ret (session_alive w), probed w).
Proof.
  unfold session_alive, probed. destruct (ToBoolean (loaded w)) eqn:Hl; simpl.
  - rewrite (bind_eq _ (prop_truthy (loaded w) "pid" w Hl)).
    rewrite isProcessAlive_target.
    destruct (kill_target (field (loaded w) "pid")); reflexivity.
  - reflexivity.
Qed.

Lemma guard_eval w :
  exists w0,
    (if ToBoolean (loaded w)
     then bind (prop (loaded w) "pid") (fun pid => isProcessAlive env pid)
     else ret false) w = (Ret (session_alive w), w0)
    /\ frame w w0
    /\ (session_alive w = true ->
        exists n, kill_target (field (loaded w) "pid") = Some n
                  /\ w0 = pass env 0 (emit (EvKill n Sig0) w)).
Proof.
  exists (probed w). split; [apply guard_probed|].
  unfold session_alive, probed. destruct (ToBoolean (loaded w)); simpl.
  - destruct (kill_target (field (loaded w) "pid")) as [n|].
    + split; [apply frame_emit_pass; [reflexivity|lia]|].
      intros _. exists n; split; reflexivity.
    + split; [apply frame_refl|discriminate].
  - split; [apply frame_refl|discriminate].
Qed.

Lemma start_reuse port w :
  session_alive w = true ->
  exists n,
    kill_target (field (loaded w) "pid") = Some n
    /\ start port w
       = (Ret tt,
          emit (EvStdout
                  ("Session already active (pid=" ++ ToString (field (loaded w) "pid")
                     ++ ", port=" ++ ToString (field (loaded w) "port")
                     ++ ", session=" ++ ToString (field (loaded w) "sessionId")
                     ++ ")"))
            (pass env 0 (emit (EvKill n Sig0) w))).
Proof.
  intro Ha. destruct (guard_eval w) as (w0 & E & _ & Hw0).
  destruct (Hw0 Ha) as (n & Hn & ->). exists n; split; [exact Hn|].
  assert (Hl : ToBoolean (loaded w) = true).
  { unfold session_alive in Ha. apply andb_prop in Ha. apply Ha. }
  unfold start. rewrite (bind_eq _ (loadSession_loaded w)).
  rewrite (bind_eq _ E), Ha.
  rewrite (bind_eq _ (prop_truthy (loaded w) "pid" _ Hl)).
  rewrite (bind_eq _ (prop_truthy (loaded w) "port" _ Hl)).
  rewrite (bind_eq _ (prop_truthy (loaded w) "sessionId" _ Hl)).
  reflexivity.
Qed.

Lemma try_catch_abandons {A} (m : M number A) (h : exn number -> M number A)
  w a w' :
  (forall e w0, exists wx, h e w0 = (Exit 1, wx)) ->
  try_catch m h w = (Ret a, w') -> m w = (Ret a, w').
Proof.
  intros Hh. unfold try_catch. destruct (m w) as [[x|e|c] w0]; intro E.
  - exact E.
  - destruct (Hh e w0) as (wx & Ex). rewrite Ex in E. discriminate.
  - discriminate.
Qed.

Lemma start_fresh port w w1 :
  session_alive w = false ->
  start port w = (Ret tt, w1) ->
  exists pid sid ts,
    state_file w1
    = File (JSON_stringify (session_record port sid pid ts) 2 ++ String "010" "")
        (match state_file w with NoFile => true | File _ r _ => r end) true
    /\ spawns (log w1) = S (spawns (log w))
    /\ In (EvStdout ("  Session:   " ++ ToString sid)) (log w1).
Proof.
  intros Ha Hs. unfold start in Hs.
  rewrite (bind_eq _ (loadSession_loaded w)) in Hs.
  destruct (guard_eval w) as (w0 & E & F0 & _).
  rewrite (bind_eq _ E), Ha in Hs.
  apply bind_inv in Hs as (u1 & wa & Ea & Hs).
  unfold console_error in Ea; injection Ea as _ Hwa.
  apply bind_inv in Hs as (child & wb & Eb & Hs).
  unfold spawn in Eb; injection Eb as _ Hwb.
  destruct child as [pid|];
    [|unfold bind, console_error, exit in Hs; discriminate].
  destruct (Number_toBoolean pid); cbn [negb] in Hs;
    [|unfold bind, console_error, exit in Hs; discriminate].
  apply bind_inv in Hs as (u2 & wc & Ec & Hs).
  apply try_catch_abandons in Ec;
    [|intros e wx; apply (abandon_exits unit (exn_message e) pid wx)].
  destruct (waitForDriver_frame port 10000 wb) as (o & wc' & Ew & Fw & _).
  rewrite Ew in Ec. injection Ec as -> ->.
  apply bind_inv in Hs as (sid & wd & Ed & Hs).
  apply try_catch_abandons in Ed;
    [|intros e wx;
      apply (abandon_exits value
               ("Failed to create session: " ++ exn_message e) pid wx)].
  destruct (createSession_frame (new_WebDriver (JNumber port)) wc)
    as (o & wd' & Ecs & Fcs & _).
  rewrite Ecs in Ed. injection Ed as -> ->.
  apply bind_inv in Hs as (now & wd2 & En & Hs).
  unfold Date_now in En; injection En as <- <-.
  apply bind_inv in Hs as (u3 & we & Ee & Hs).
  destruct u3. destruct (saveSession_ret _ _ Ee) as (Hfile & Hsp).
  unfold bind, console_log in Hs. injection Hs as <-.
  assert (Hsf : state_file wd = state_file w).
  { assert (Hfs : forall a b : World number,
               fs_of a = fs_of b -> state_file a = state_file b).
    { intros a b Hab. unfold fs_of in Hab. injection Hab as _ _ Hab. exact Hab. }
    destruct Fcs as (Fd & _). destruct Fw as (Fc & _). destruct F0 as (Fg & _).
    rewrite (Hfs _ _ Fd), (Hfs _ _ Fc). subst wb wa.
    change (state_file w0 = state_file w). apply Hfs, Fg. }
  rewrite Hsf in Hfile.
  exists pid, sid, (toISOString env (clock wd)). split; [|split].
  - exact Hfile.
  - unfold emit; simpl. rewrite !spawns_app; simpl. rewrite Hsp.
    destruct Fcs as (_ & -> & _). destruct Fw as (_ & -> & _).
    subst wb wa. unfold pass, emit; simpl. rewrite !spawns_app; simpl.
    destruct F0 as (_ & -> & _). lia.
  - unfold emit; simpl. apply in_or_app; left. apply in_or_app; right.
    left; reflexivity.
Qed.

(** * Further properties *)

(** *** The protocol client *)

Lemma request_effect this method path payload w :
  snd (request this method path payload w)
  = pass env 0 (emit (EvFetch method (baseUrl this ++ path) (body_of payload)) w)
  /\ forall c, fst (request this method path payload w) <> Exit c.
Proof.
  run_request. unfold body_of.
  destruct (net env (tick w)) as [cause|r]; simpl; [split; [reflexivity|discriminate]|].
  destruct (body r); simpl; [|split; [reflexivity|discriminate]].
  destruct (JSON_parse text) as [json|]; simpl.
  - destruct (Get json "value") as [v|]; simpl; [|split; [reflexivity|discriminate]].
    destruct (ToBoolean v) eqn:Hv; simpl.
    + destruct (Get v "error") as [c|]; simpl; [|split; [reflexivity|discriminate]].
      destruct (ToBoolean c); simpl.
      * destruct (Get v "message"); simpl; split; (reflexivity || discriminate).
      * split; [reflexivity|discriminate].
    + rewrite Hv. split; [reflexivity|discriminate].
  - destruct (ok r); simpl; split; (reflexivity || discriminate).
Qed.

(** [request] makes exactly one [fetch], to the base address followed by the
    path, with the payload as JSON text when there is one, whatever the
    outcome; it changes nothing else and never ends the process. *)
Theorem request_one_fetch this method path payload w :
  snd (request this method path payload w)
  = pass env 0 (emit (EvFetch method (baseUrl this ++ path) (body_of payload)) w)
  /\ forall c, fst (request this method path payload w) <> Exit c.
Proof. exact (request_effect this method path payload w). Qed.


(** The identifier [findElement] and [findElements] extract from a value:
    the value of the first key of an object, whatever else the object
    holds; [undefined], not an error, for an object without keys, a number
    or a boolean; the first element of an array and the first character of
    a string (a plain-text response); a [TypeError] for [null] and
    [undefined]. *)
Theorem element_reference_edges (w : World number) :
  (forall k id rest,
      element_reference (JObject ((k, id) :: rest)) w = (Ret id, w))
  /\ element_reference (JObject []) w = (Ret JUndefined, w)
  /\ (forall n, element_reference (JNumber n) w = (Ret JUndefined, w))
  /\ (forall b, element_reference (JBool b) w = (Ret JUndefined, w))
  /\ (forall x rest, element_reference (JArray (x :: rest)) w = (Ret x, w))
  /\ element_reference (JArray []) w = (Ret JUndefined, w)
  /\ (forall c s,
      element_reference (JString (String c s)) w
      = (Ret (JString (String c EmptyString)), w))
  /\ element_reference (JString "") w = (Ret JUndefined, w)
  /\ (forall v, v = JNull \/ v = JUndefined ->
      exists msg, element_reference v w = (Throw (OtherError "TypeError" msg), w)).
Proof.
  unfold element_reference, prop.
  split; [intros k id rest; simpl; rewrite String.eqb_refl; reflexivity|].
  repeat (split; [intros; reflexivity|]).
  intros v [-> | ->]; eexists; reflexivity.
Qed.

Lemma map_M_element_reference_inv (items : list value) :
  forall (ids : list value) (w w' : World number),
    map_M element_reference items w = (Ret ids, w') ->
    w' = w
    /\ Forall2 (fun item id => forall w0, element_reference item w0 = (Ret id, w0))
         items ids.
Proof.
  induction items as [|item rest IH]; intros ids w w' E; simpl in E.
  - unfold ret in E. injection E as <- <-. split; [reflexivity|constructor].
  - apply bind_inv in E as (id & w1 & E1 & E).
    apply bind_inv in E as (ids' & w2 & E2 & E).
    unfold ret in E. injection E as <- <-.
    destruct (@IH ids' w1 w2 E2) as (-> & Hrest).
    assert (Hitem : forall w0, element_reference item w0 = (Ret id, w0)).
    { intro w0. revert E1. unfold element_reference, prop.
      destruct (Object_keys item) as [keys|]; [|discriminate].
      destruct (Get item (first_key keys)); [|discriminate].
      unfold ret. intro E1. injection E1 as -> _. reflexivity. }
    rewrite Hitem in E1. injection E1 as <-.
    split; [reflexivity|]. constructor; assumption.
Qed.

(** [findElements] succeeds only on an array, and then returns one
    identifier per element of the array, in order, each extracted like
    [findElement] does; any other value (a single reference object, [null],
    a string) is a [TypeError]. *)
Theorem findElements_results this sessionId using_ selector w :
  let answer :=
    fst (request this "POST" ("/session/" ++ ToString sessionId ++ "/elements")
           (locator using_ selector) w) in
  let found :=
    fst (findElements JSON_parse JSON_stringify env this sessionId using_ selector w) in
  (forall ids,
      found = Ret ids ->
      exists items,
        answer = Ret (JArray items)
        /\ List.length ids = List.length items
        /\ Forall2 (fun item id => forall w0, element_reference item w0 = (Ret id, w0))
             items ids)
  /\ (forall v,
      answer = Ret v ->
      (forall items, v <> JArray items) ->
      exists msg, found = Throw (OtherError "TypeError" msg)).
Proof.
  intros answer found. subst answer found. unfold findElements, bind.
  destruct (request this "POST" ("/session/" ++ ToString sessionId ++ "/elements")
              (locator using_ selector) w) as [[v|e|c] w1]; simpl.
  - split.
    + intros ids E.
      destruct v; try discriminate.
      destruct (map_M element_reference items w1) as [o w2] eqn:Em.
      simpl in E; subst o.
      destruct (@map_M_element_reference_inv items ids w1 w2 Em) as (_ & HF).
      exists items. split; [reflexivity|]. split; [|exact HF].
      symmetry. eapply Forall2_length. exact HF.
    + intros v0 E Hna. injection E as <-.
      destruct v; try (eexists; reflexivity).
      exfalso. exact (Hna items eq_refl).
  - split; [discriminate|]. discriminate.
  - split; [discriminate|]. discriminate.
Qed.

(** *** Processes *)

Lemma extends_refl p w : extends p w w.
Proof.
  unfold extends. split; [reflexivity|]. split; [lia|].
  exists []. split; [symmetry; apply app_nil_r|reflexivity].
Qed.

Lemma extends_trans p w1 w2 w3 :
  extends p w1 w2 -> extends p w2 w3 -> extends p w1 w3.
Proof.
  intros (F1 & C1 & a1 & L1 & P1) (F2 & C2 & a2 & L2 & P2).
  split; [congruence|]. split; [lia|].
  exists (a1 ++ a2)%list. split.
  - rewrite L2, L1, app_assoc. reflexivity.
  - rewrite forallb_app, P1, P2. reflexivity.
Qed.

Lemma extends_emit (p : event number -> bool) e w :
  p e = true -> extends p w (emit e w).
Proof.
  intro He. split; [reflexivity|]. split; [simpl; lia|].
  exists [e]. split; [reflexivity|]. simpl. rewrite He. reflexivity.
Qed.

Lemma extends_pass p ms w : 0 <= ms -> extends p w (pass env ms w).
Proof.
  intro Hms. split; [reflexivity|]. split; [simpl; lia|].
  exists []. split; [symmetry; apply app_nil_r|reflexivity].
Qed.

Lemma extends_weaken (p q : event number -> bool) w w' :
  (forall e, p e = true -> q e = true) -> extends p w w' -> extends q w w'.
Proof.
  intros Hpq (F & C & a & L & P). split; [exact F|]. split; [exact C|].
  exists a. split; [exact L|].
  rewrite forallb_forall in *. intros e He. apply Hpq, P, He.
Qed.

Lemma fetches_app (l1 l2 : list (event number)) :
  fetches (l1 ++ l2) = (fetches l1 + fetches l2)%nat.
Proof.
  induction l1 as [|e r IH]; simpl; [reflexivity|].
  destruct e; simpl; rewrite IH; reflexivity.
Qed.

Lemma terminations_app (l1 l2 : list (event number)) :
  terminations (l1 ++ l2) = (terminations l1 + terminations l2)%nat.
Proof.
  induction l1 as [|e r IH]; simpl; [reflexivity|].
  destruct e as [| | n [|] | | |]; simpl; rewrite IH; reflexivity.
Qed.

Lemma harmless_quiet (added : list (event number)) :
  forallb harmless added = true ->
  spawns added = O /\ terminations added = O /\ fs_calls added = [].
Proof.
  induction added as [|e r IH]; simpl; [intros _; repeat split|].
  intro Hall. apply andb_prop in Hall as [He Hr].
  destruct (IH Hr) as (S1 & T1 & F1).
  destruct e as [| | n [|] | | |]; simpl in *; try discriminate;
    repeat split; assumption.
Qed.

(** What a request does to the world, whatever its outcome. *)
Lemma request_extends this method path payload w :
  exists o w',
    request this method path payload w = (o, w')
    /\ (forall c, o <> Exit c)
    /\ extends harmless w w'
    /\ fetches (log w') = S (fetches (log w))
    /\ tick w' = S (tick w).
Proof.
  destruct (request_effect this method path payload w) as [Hw Hno].
  destruct (request this method path payload w) as [o w'] eqn:E.
  simpl in Hw, Hno. subst w'. exists o. eexists. split; [reflexivity|].
  split; [exact Hno|]. split; [|split].
  - apply extends_trans
      with (w2 := emit (EvFetch method (baseUrl this ++ path) (body_of payload)) w);
      [apply extends_emit; reflexivity|apply extends_pass; lia].
  - simpl. rewrite fetches_app. simpl. lia.
  - reflexivity.
Qed.

Lemma probe_polls driver w :
  exists (b : bool) w1,
    try_catch
      (bind (getStatus JSON_parse JSON_stringify env driver) (fun _ => ret true))
      (fun _ => bind (sleep env 200) (fun _ => ret false)) w = (Ret b, w1)
    /\ extends harmless w w1
    /\ fetches (log w1) = S (fetches (log w))
    /\ (b = false -> clock w + 200 <= clock w1).
Proof.
  unfold try_catch, bind, getStatus.
  destruct (request_extends driver "GET" "/status" JUndefined w)
    as (o & w' & -> & Hno & Hext & Hf & _).
  destruct o as [a|e|c].
  - exists true, w'. split; [reflexivity|]. split; [exact Hext|].
    split; [exact Hf|discriminate].
  - exists false; eexists. split; [reflexivity|]. split; [|split].
    + eapply extends_trans; [exact Hext|apply extends_pass; lia].
    + simpl. exact Hf.
    + intros _. destruct Hext as (_ & Hc & _). simpl. lia.
  - exfalso; exact (Hno c eq_refl).
Qed.

Lemma waitForDriver_loop_polls driver deadline timeoutMs fuel :
  forall w,
  exists o w' k,
    waitForDriver_loop JSON_parse JSON_stringify env fuel driver
      deadline timeoutMs w = (o, w')
    /\ (o = Ret tt /\ (1 <= k)%nat
        \/ o = Throw (OtherError "Error"
                 ("SafariDriver did not start within " ++ decimal timeoutMs ++ "ms"))
           /\ (deadline - clock w <= Z.of_nat fuel -> deadline <= clock w'))
    /\ extends harmless w w'
    /\ fetches (log w') = (fetches (log w) + k)%nat
    /\ Z.of_nat k * 200 < Z.max 0 (deadline - clock w) + 200.
Proof.
  induction fuel as [|fuel IH]; intro w.
  - simpl. unfold bind, Date_now, throw.
    exists (Throw (OtherError "Error"
              ("SafariDriver did not start within " ++ decimal timeoutMs ++ "ms"))),
      w, O.
    split; [reflexivity|]. split; [right; split; [reflexivity|simpl; lia]|].
    split; [apply extends_refl|]. split; lia.
  - rewrite waitForDriver_loop_S.
    destruct (clock w <? deadline) eqn:Hlt.
    + apply Z.ltb_lt in Hlt.
      destruct (probe_polls driver w) as (b & w1 & E & Hext & Hf & Hclock).
      rewrite (bind_eq _ E). destruct b.
      * exists (Ret tt), w1, 1%nat. split; [reflexivity|].
        split; [left; split; [reflexivity|lia]|].
        split; [exact Hext|]. split; lia.
      * specialize (Hclock eq_refl).
        destruct (IH w1) as (o & w' & k & E1 & Ho & Hext1 & Hf1 & Hk).
        exists o, w', (S k). split; [exact E1|]. split; [|split; [|split]].
        -- destruct Ho as [[-> Hk1]|[-> Hd]]; [left; split; [reflexivity|lia]|].
           right. split; [reflexivity|]. intro Hfuel. apply Hd. lia.
        -- eapply extends_trans; [exact Hext|exact Hext1].
        -- lia.
        -- lia.
    + apply Z.ltb_ge in Hlt. unfold throw.
      exists (Throw (OtherError "Error"
                ("SafariDriver did not start within " ++ decimal timeoutMs ++ "ms"))),
        w, O.
      split; [reflexivity|]. split; [right; split; [reflexivity|intros _; lia]|].
      split; [apply extends_refl|]. split; lia.
Qed.

Lemma waitForDriver_bound port timeoutMs w :
  exists o w' k,
    waitForDriver JSON_parse JSON_stringify env port timeoutMs w = (o, w')
    /\ (o = Ret tt /\ (1 <= k)%nat
        \/ o = Throw (OtherError "Error"
                 ("SafariDriver did not start within " ++ decimal timeoutMs ++ "ms"))
           /\ clock w + timeoutMs <= clock w')
    /\ extends harmless w w'
    /\ fetches (log w') = (fetches (log w) + k)%nat
    /\ Z.of_nat k * 200 < Z.max 0 timeoutMs + 200.
Proof.
  unfold waitForDriver, bind, Date_now.
  destruct (waitForDriver_loop_polls (new_WebDriver (JNumber port))
              (clock w + timeoutMs) timeoutMs (Z.to_nat timeoutMs) w)
    as (o & w' & k & E & Ho & Hext & Hf & Hk).
  exists o, w', k. split; [exact E|]. split; [|split; [exact Hext|split; [exact Hf|]]].
  - destruct Ho as [Ho|[-> Hd]]; [left; exact Ho|].
    right. split; [reflexivity|]. apply Hd. lia.
  - replace (clock w + timeoutMs - clock w) with timeoutMs in Hk by lia. exact Hk.
Qed.

Lemma failed_until_S {A} (m : M number A) ms deadline n w e :
  clock w < deadline ->
  fst (m w) = Throw e ->
  failed_until m ms deadline n (after_failure m ms w) ->
  failed_until m ms deadline (S n) w.
Proof.
  intros Hc He Hrest i Hi. destruct i as [|i].
  - split; [exact Hc|]. exists e. exact He.
  - apply (Hrest i). lia.
Qed.

(** What attempts that are requests add up to. *)
Lemma after_failures_counts {A} (m : M number A) ms n :
  0 <= ms ->
  (forall w, extends harmless w (snd (m w))
             /\ fetches (log (snd (m w))) = S (fetches (log w))) ->
  forall w,
    extends harmless w (after_failures m ms n w)
    /\ fetches (log (after_failures m ms n w)) = (fetches (log w) + n)%nat
    /\ clock w + Z.of_nat n * ms <= clock (after_failures m ms n w).
Proof.
  intros Hms Hm. induction n as [|n IH]; intro w.
  - simpl. split; [apply extends_refl|]. split; lia.
  - cbn [after_failures]. destruct (IH (after_failure m ms w)) as (X & F & C).
    destruct (Hm w) as (Xm & Fm).
    assert (X1 : extends harmless w (after_failure m ms w)).
    { unfold after_failure. eapply extends_trans; [exact Xm|apply extends_pass; exact Hms]. }
    split; [eapply extends_trans; [exact X1|exact X]|]. split.
    + rewrite F. unfold after_failure. cbn [log pass]. rewrite Fm. lia.
    + destruct Xm as (_ & Cm & _).
      assert (clock w + ms <= clock (after_failure m ms w)).
      { unfold after_failure. cbn [clock pass]. lia. }
      lia.
Qed.

Lemma getStatus_counts driver w :
  extends harmless w (snd (getStatus JSON_parse JSON_stringify env driver w))
  /\ fetches (log (snd (getStatus JSON_parse JSON_stringify env driver w)))
     = S (fetches (log w)).
Proof.
  unfold getStatus.
  destruct (request_extends driver "GET" "/status" JUndefined w)
    as (o & w' & -> & _ & X & F & _).
  split; [exact X|exact F].
Qed.

Lemma probe_step driver w :
  try_catch
    (bind (getStatus JSON_parse JSON_stringify env driver) (fun _ => ret true))
    (fun _ => bind (sleep env 200) (fun _ => ret false)) w
  = match getStatus JSON_parse JSON_stringify env driver w with
    | (Ret _, w1) => (Ret true, w1)
    | (Throw _, w1) => (Ret false, pass env 200 w1)
    | (Exit c, w1) => (Exit c, w1)
    end.
Proof.
  unfold try_catch, bind, sleep, ret.
  destruct (getStatus JSON_parse JSON_stringify env driver w) as [[v|e|c] w1];
    reflexivity.
Qed.

Lemma getStatus_no_exit driver w c :
  fst (getStatus JSON_parse JSON_stringify env driver w) <> Exit c.
Proof. unfold getStatus. apply request_effect. Qed.

(** The run of the loop of [waitForDriver], probe by probe. *)
Lemma waitForDriver_loop_trace driver deadline timeoutMs fuel :
  forall w,
    deadline - clock w <= Z.of_nat fuel ->
    exists n,
      failed_until (getStatus JSON_parse JSON_stringify env driver) 200 deadline n w
      /\ if clock (after_failures (getStatus JSON_parse JSON_stringify env driver)
                     200 n w) <? deadline
         then (exists v,
                  fst (getStatus JSON_parse JSON_stringify env driver
                         (after_failures
                            (getStatus JSON_parse JSON_stringify env driver) 200 n w))
                  = Ret v)
              /\ waitForDriver_loop JSON_parse JSON_stringify env fuel driver
                   deadline timeoutMs w
                 = (Ret tt,
                    snd (getStatus JSON_parse JSON_stringify env driver
                           (after_failures
                              (getStatus JSON_parse JSON_stringify env driver)
                              200 n w)))
         else waitForDriver_loop JSON_parse JSON_stringify env fuel driver
                deadline timeoutMs w
              = (Throw (OtherError "Error"
                   ("SafariDriver did not start within " ++ decimal timeoutMs ++ "ms")),
                 after_failures (getStatus JSON_parse JSON_stringify env driver)
                   200 n w).
Proof.
  induction fuel as [|fuel IH]; intros w Hfuel.
  - exists O. split; [intros i Hi; lia|]. cbn [after_failures].
    replace (clock w <? deadline) with false by (symmetry; apply Z.ltb_ge; lia).
    reflexivity.
  - assert (Hloop :
      waitForDriver_loop JSON_parse JSON_stringify env (S fuel) driver
        deadline timeoutMs w
      = if clock w <? deadline then
          match getStatus JSON_parse JSON_stringify env driver w with
          | (Ret _, w1) => (Ret tt, w1)
          | (Throw _, w1) =>
              waitForDriver_loop JSON_parse JSON_stringify env fuel driver
                deadline timeoutMs (pass env 200 w1)
          | (Exit c, w1) => (Exit c, w1)
          end
        else (Throw (OtherError "Error"
                ("SafariDriver did not start within " ++ decimal timeoutMs ++ "ms")),
              w)).
    { rewrite waitForDriver_loop_S. destruct (clock w <? deadline); [|reflexivity].
      unfold bind at 1. rewrite probe_step.
      destruct (getStatus JSON_parse JSON_stringify env driver w) as [[v|e|c] w1];
        reflexivity. }
    rewrite Hloop. clear Hloop.
    destruct (clock w <? deadline) eqn:Hlt.
    2:{ exists O. split; [intros i Hi; lia|]. cbn [after_failures]. rewrite Hlt.
        reflexivity. }
    pose proof (getStatus_no_exit driver w) as Hno.
    destruct (getStatus_counts driver w) as (Hext & _).
    destruct (getStatus JSON_parse JSON_stringify env driver w) as [[v|e|c] w1] eqn:E;
      cbn [fst snd] in *.
    + exists O. split; [intros i Hi; lia|]. cbn [after_failures].
      rewrite Hlt, E. split; [exists v; reflexivity|reflexivity].
    + assert (Hw1 : after_failure (getStatus JSON_parse JSON_stringify env driver)
                      200 w = pass env 200 w1).
      { unfold after_failure. rewrite E. reflexivity. }
      assert (Hclock : clock w + 200 <= clock (pass env 200 w1)).
      { destruct Hext as (_ & Hc & _). cbn [clock pass]. lia. }
      destruct (IH (pass env 200 w1)) as (n & Hfail & Hend); [lia|].
      exists (S n). split.
      * apply failed_until_S with (e := e).
        -- apply Z.ltb_lt, Hlt.
        -- rewrite E. reflexivity.
        -- rewrite Hw1. exact Hfail.
      * cbn [after_failures]. rewrite Hw1. exact Hend.
    + exfalso. exact (Hno c eq_refl).
Qed.

(** [waitForDriver] makes status requests, 200 ms after each one that
    failed, as long as the time allowed has not passed.  It returns after
    the first request that succeeds, whatever the failures before it, and
    throws its timeout error when the time has passed after a request that
    failed, or at once when no time is allowed.  So it makes at most one
    request per 200 ms of the time allowed (50 for the 10 s of [start]), and
    besides requests it does nothing. *)
Theorem waitForDriver_polls port timeoutMs w :
  let probe := getStatus JSON_parse JSON_stringify env (new_WebDriver (JNumber port)) in
  let deadline := clock w + timeoutMs in
  let run := waitForDriver JSON_parse JSON_stringify env port timeoutMs w in
  exists n,
    failed_until probe 200 deadline n w
    /\ (let wn := after_failures probe 200 n w in
        if clock wn <? deadline
        then (exists v, fst (probe wn) = Ret v)
             /\ run = (Ret tt, snd (probe wn))
             /\ fetches (log (snd run)) = (fetches (log w) + n + 1)%nat
             /\ Z.of_nat (n + 1) * 200 < Z.max 0 timeoutMs + 200
        else run = (Throw (OtherError "Error"
                      ("SafariDriver did not start within "
                         ++ decimal timeoutMs ++ "ms")), wn)
             /\ fetches (log (snd run)) = (fetches (log w) + n)%nat
             /\ Z.of_nat n * 200 < Z.max 0 timeoutMs + 200)
    /\ extends harmless w (snd run).
Proof.
  intros probe deadline run.
  assert (Hrun : run = waitForDriver_loop JSON_parse JSON_stringify env
                         (Z.to_nat timeoutMs) (new_WebDriver (JNumber port))
                         deadline timeoutMs w) by reflexivity.
  destruct (waitForDriver_loop_trace (new_WebDriver (JNumber port)) deadline timeoutMs
              (Z.to_nat timeoutMs) w) as (n & Hfail & Hend).
  { unfold deadline. lia. }
  rewrite <- Hrun in Hend. clearbody run.
  change (getStatus JSON_parse JSON_stringify env (new_WebDriver (JNumber port)))
    with probe in Hfail, Hend.
  assert (Hcount : forall i w0,
             extends harmless w0 (after_failures probe 200 i w0)
             /\ fetches (log (after_failures probe 200 i w0))
                = (fetches (log w0) + i)%nat
             /\ clock w0 + Z.of_nat i * 200 <= clock (after_failures probe 200 i w0)).
  { intros i w0. apply after_failures_counts; [lia|].
    intro w1. apply getStatus_counts. }
  destruct (Hcount n w) as (Xn & Fn & Cn).
  assert (Hlast : forall i, (i < n)%nat -> Z.of_nat i * 200 < timeoutMs).
  { intros i Hi. destruct (Hfail i Hi) as (Hc & _).
    destruct (Hcount i w) as (_ & _ & Ci). unfold deadline in Hc. lia. }
  exists n. split; [exact Hfail|].
  cbv zeta.
  destruct (clock (after_failures probe 200 n w) <? deadline) eqn:Hlt.
  - destruct Hend as (Hv & Hr). rewrite Hr. cbn [snd].
    destruct (getStatus_counts (new_WebDriver (JNumber port))
                (after_failures probe 200 n w)) as (Xp & Fp).
    change (getStatus JSON_parse JSON_stringify env (new_WebDriver (JNumber port)))
      with probe in Xp, Fp.
    split; [|eapply extends_trans; [exact Xn|exact Xp]].
    split; [exact Hv|]. split; [reflexivity|]. split; [lia|].
    apply Z.ltb_lt in Hlt. unfold deadline in Hlt. lia.
  - rewrite Hend. cbn [snd]. split; [|exact Xn].
    split; [reflexivity|]. split; [exact Fn|].
    destruct n as [|n]; [lia|].
    specialize (Hlast n (Nat.lt_succ_diag_r n)). lia.
Qed.

(** *** Starting and stopping *)

Lemma log_emit_eq (e : event number) (w : World number) :
  log (emit e w) = (log w ++ [e])%list.
Proof. reflexivity. Qed.

Lemma console_error_eq line (w : World number) :
  console_error line w = (Ret tt, emit (EvStderr line) w).
Proof. reflexivity. Qed.

Lemma console_log_eq line (w : World number) :
  console_log line w = (Ret tt, emit (EvStdout line) w).
Proof. reflexivity. Qed.

Lemma bind_throw {A B} (m : M number A) (k : A -> M number B) w e w' :
  m w = (Throw e, w') -> bind m k w = (Throw e, w').
Proof. intro E. unfold bind. rewrite E. reflexivity. Qed.
Arguments bind_throw {A B m} k {w e w'} _.

Lemma bind_exit {A B} (m : M number A) (k : A -> M number B) w c w' :
  m w = (Exit c, w') -> bind m k w = (Exit c, w').
Proof. intro E. unfold bind. rewrite E. reflexivity. Qed.
Arguments bind_exit {A B m} k {w c w'} _.

Lemma try_catch_ret {A} (m : M number A) (h : exn number -> M number A) w a w' :
  m w = (Ret a, w') -> try_catch m h w = (Ret a, w').
Proof. intro E. unfold try_catch. rewrite E. reflexivity. Qed.
Arguments try_catch_ret {A m} h {w a w'} _.

Lemma try_catch_throw {A} (m : M number A) (h : exn number -> M number A) w e w' :
  m w = (Throw e, w') -> try_catch m h w = h e w'.
Proof. intro E. unfold try_catch. rewrite E. reflexivity. Qed.
Arguments try_catch_throw {A m} h {w e w'} _.

Lemma extends_quiet w w' :
  extends harmless w w' ->
  fs_of w' = fs_of w
  /\ spawns (log w') = spawns (log w)
  /\ terminations (log w') = terminations (log w)
  /\ fs_calls (log w') = fs_calls (log w).
Proof.
  intros (F & _ & added & L & P).
  destruct (harmless_quiet added P) as (S0 & T0 & C0).
  assert (Happ : forall l1 l2 : list (event number),
             fs_calls (l1 ++ l2) = (fs_calls l1 ++ fs_calls l2)%list).
  { induction l1 as [|e r IH]; intro l2; simpl; [reflexivity|].
    destruct e; simpl; rewrite IH; reflexivity. }
  rewrite L, spawns_app, terminations_app, Happ, S0, T0, C0, app_nil_r.
  repeat split; try exact F; lia.
Qed.

(** The failure handlers of [start]: the message, the termination signal
    to the spawned process, the exit. *)
Lemma abandon_trace (A : Type) line pid w :
  bind (console_error line)
    (fun _ => bind (try_catch (process_kill env (JNumber pid) SIGTERM)
                      (fun _ => ret tt))
                (fun _ => exit 1)) w
  = (@Exit number A 1, abandoned line pid w).
Proof.
  unfold bind, console_error, try_catch, process_kill, kill_target, ret, exit.
  destruct (os_kill env (tick (emit (EvStderr line) w)) pid SIGTERM); reflexivity.
Qed.

Lemma probed_extends w : extends harmless w (probed w).
Proof.
  unfold probed. destruct (ToBoolean (loaded w)); [|apply extends_refl].
  destruct (kill_target (field (loaded w) "pid")) as [n|]; [|apply extends_refl].
  apply extends_trans with (w2 := emit (EvKill n Sig0) w);
    [apply extends_emit; reflexivity|apply extends_pass; lia].
Qed.

Lemma createSession_extends this w :
  exists o w',
    createSession JSON_parse JSON_stringify env this w = (o, w')
    /\ (forall c, o <> Exit c) /\ extends harmless w w'.
Proof.
  unfold createSession, bind.
  destruct (request_extends this "POST" "/session" capabilities w)
    as (o & w' & -> & Hno & Hext & _).
  destruct o as [a|e|c].
  - unfold prop. destruct (Get a "sessionId");
      do 2 eexists; (split; [reflexivity|]); (split; [discriminate|exact Hext]).
  - do 2 eexists; split; [reflexivity|]. split; [discriminate|exact Hext].
  - exfalso; exact (Hno c eq_refl).
Qed.

(** [saveSession] returns or throws a file-system error; when it throws,
    the state file is what it was. *)
Lemma saveSession_outcomes state w :
  exists o w',
    saveSession state w = (o, w')
    /\ (o = Ret tt
        \/ exists name msg, o = Throw (OtherError name msg)
                            /\ state_file w' = state_file w)
    /\ spawns (log w') = spawns (log w)
    /\ terminations (log w') = terminations (log w).
Proof.
  unfold saveSession, bind, existsSync_dir, mkdirSync_dir, writeFileSync_file, ret.
  destruct w as [hw [d|] sf ck tk lg]; simpl.
  - destruct sf as [|c r [|]]; [destruct d| |]; simpl;
      do 2 eexists; (split; [reflexivity|]);
      (split; [first [left; reflexivity
                     |right; do 2 eexists; split; reflexivity]|]);
      simpl; rewrite ?spawns_app, ?terminations_app; simpl; lia.
  - destruct hw; simpl.
    + destruct sf as [|c r [|]]; simpl;
        do 2 eexists; (split; [reflexivity|]);
        (split; [first [left; reflexivity
                       |right; do 2 eexists; split; reflexivity]|]);
        simpl; rewrite ?spawns_app, ?terminations_app; simpl; lia.
    + do 2 eexists; split; [reflexivity|].
      split; [right; do 2 eexists; split; reflexivity|].
      simpl; rewrite ?spawns_app, ?terminations_app; simpl; lia.
Qed.

Lemma waitForDriver_extends port timeoutMs w :
  exists o w',
    waitForDriver JSON_parse JSON_stringify env port timeoutMs w = (o, w')
    /\ (forall c, o <> Exit c)
    /\ extends harmless w w'.
Proof.
  destruct (waitForDriver_bound port timeoutMs w) as (o & w' & k & E & Ho & X & _).
  exists o, w'. split; [exact E|]. split; [|exact X].
  destruct Ho as [[-> _]|[-> _]]; discriminate.
Qed.

(** [start] without a live session, step by step. *)
Lemma start_steps port w :
  session_alive w = false ->
  let driver := new_WebDriver (JNumber port) in
  let failed := (Exit 1, emit (EvStderr "Failed to start safaridriver") (spawned port w)) in
  start port w
  = match os_spawn env (tick (probed w)) with
    | None => failed
    | Some pid =>
        if Number_toBoolean pid then
          match waitForDriver JSON_parse JSON_stringify env port 10000 (spawned port w) with
          | (Throw e, wc) => (Exit 1, abandoned (exn_message e) pid wc)
          | (Exit c, wc) => (Exit c, wc)
          | (Ret _, wr) =>
              match createSession JSON_parse JSON_stringify env driver wr with
              | (Throw e, wc) =>
                  (Exit 1,
                   abandoned ("Failed to create session: " ++ exn_message e) pid wc)
              | (Exit c, wc) => (Exit c, wc)
              | (Ret sid, wd) =>
                  match saveSession
                          (session_record port sid pid (toISOString env (clock wd)))
                          wd with
                  | (Ret _, we) =>
                      (Ret tt,
                       emit (EvStdout ("  PID:       " ++ Number_toString pid))
                         (emit (EvStdout ("  Session:   " ++ ToString sid))
                            (emit (EvStdout ("  Port:      " ++ Number_toString port))
                               (emit (EvStdout "Safari session started") we))))
                  | (Throw e, we) => (Throw e, we)
                  | (Exit c, we) => (Exit c, we)
                  end
              end
          end
        else failed
    end.
Proof.
  intros Ha driver failed. unfold start.
  rewrite (bind_eq _ (loadSession_loaded w)).
  rewrite (bind_eq _ (guard_probed w)), Ha.
  rewrite (bind_eq _ (console_error_eq _ (probed w))).
  unfold bind at 1. unfold spawn at 1. fold (spawned port w).
  change (tick (emit (EvStderr ("Starting safaridriver on port "
                                  ++ Number_toString port ++ "...")) (probed w)))
    with (tick (probed w)).
  destruct (os_spawn env (tick (probed w))) as [pid|]; [|reflexivity].
  destruct (Number_toBoolean pid); cbn [negb]; [|reflexivity].
  destruct (waitForDriver JSON_parse JSON_stringify env port 10000 (spawned port w))
    as [[[]|e|c] wr] eqn:Ew.
  - rewrite (bind_eq _ (try_catch_ret _ Ew)). fold driver.
    destruct (createSession JSON_parse JSON_stringify env driver wr)
      as [[sid|e|c] wd] eqn:Ecs.
    + rewrite (bind_eq _ (try_catch_ret _ Ecs)).
      unfold bind at 1. unfold Date_now at 1.
      destruct (saveSession (session_record port sid pid (toISOString env (clock wd))) wd)
        as [[[]|e|c] we] eqn:Es.
      * rewrite (bind_eq _ Es). reflexivity.
      * rewrite (bind_throw _ Es). reflexivity.
      * rewrite (bind_exit _ Es). reflexivity.
    + rewrite (bind_exit _ (eq_trans (try_catch_throw _ Ecs)
                              (abandon_trace value _ pid wd))).
      reflexivity.
    + apply bind_exit. unfold try_catch. rewrite Ecs. reflexivity.
  - rewrite (bind_exit _ (eq_trans (try_catch_throw _ Ew) (abandon_trace unit _ pid wr))).
    reflexivity.
  - apply bind_exit. unfold try_catch. rewrite Ew. reflexivity.
Qed.

Lemma spawned_counts port w :
  fs_of (spawned port w) = fs_of w
  /\ spawns (log (spawned port w)) = S (spawns (log w))
  /\ terminations (log (spawned port w)) = terminations (log w).
Proof.
  destruct (extends_quiet (probed_extends w)) as (F & S0 & T0 & _).
  unfold spawned, pass, emit; simpl. rewrite !spawns_app, !terminations_app; simpl.
  rewrite S0, T0. repeat split; try exact F; lia.
Qed.

Lemma abandoned_counts line pid w :
  fs_of (abandoned line pid w) = fs_of w
  /\ spawns (log (abandoned line pid w)) = spawns (log w)
  /\ terminations (log (abandoned line pid w)) = S (terminations (log w)).
Proof.
  unfold abandoned, pass, emit; simpl. rewrite !spawns_app, !terminations_app; simpl.
  repeat split; lia.
Qed.

(** When [start] ends the process, the exit status is 1, nothing has been
    written or removed, and exactly one driver has been spawned.  What else
    happened depends on the answer to the spawn.  With no process id (none,
    or a falsy one), the message saying so is the last thing done and no
    signal is sent.  With a process id, either [waitForDriver] threw, or it
    returned and [createSession] threw; the error's message is printed (after
    [Failed to create session: ] in the second case) and the last thing done
    is the termination signal to that process id. *)
Theorem start_failure port w c w1 :
  start port w = (Exit c, w1) ->
  let driver := new_WebDriver (JNumber port) in
  let wb := spawned port w in
  let failed :=
    terminations (log w1) = terminations (log w)
    /\ w1 = emit (EvStderr "Failed to start safaridriver") wb in
  c = 1
  /\ fs_of w1 = fs_of w
  /\ spawns (log w1) = S (spawns (log w))
  /\ match os_spawn env (tick (probed w)) with
     | None => failed
     | Some pid =>
         if Number_toBoolean pid then
           terminations (log w1) = S (terminations (log w))
           /\ exists e wc,
               (waitForDriver JSON_parse JSON_stringify env port 10000 wb
                = (Throw e, wc)
                /\ w1 = abandoned (exn_message e) pid wc)
               \/ (exists wr,
                      waitForDriver JSON_parse JSON_stringify env port 10000 wb
                      = (Ret tt, wr)
                      /\ createSession JSON_parse JSON_stringify env driver wr
                         = (Throw e, wc)
                      /\ w1 = abandoned ("Failed to create session: "
                                           ++ exn_message e) pid wc)
         else failed
     end.
Proof.
  intros Hs driver wb failed. subst driver. destruct (session_alive w) eqn:Ha.
  - destruct (start_reuse port w Ha) as (n & _ & E). rewrite E in Hs. discriminate.
  - rewrite (start_steps port w Ha) in Hs.
    destruct (spawned_counts port w) as (Fb & Sb & Tb). fold wb in Fb, Sb, Tb, Hs.
    assert (Hfail : forall c0 w0,
               (@Exit number unit 1,
                emit (EvStderr "Failed to start safaridriver") wb) = (Exit c0, w0) ->
               c0 = 1 /\ fs_of w0 = fs_of w /\ spawns (log w0) = S (spawns (log w))
               /\ terminations (log w0) = terminations (log w)
               /\ w0 = emit (EvStderr "Failed to start safaridriver") wb).
    { intros c0 w0 E. injection E as <- <-.
      split; [reflexivity|]. split; [exact Fb|].
      cbn [log emit]. rewrite spawns_app, terminations_app. cbn [spawns terminations].
      split; [lia|]. split; [lia|reflexivity]. }
    destruct (os_spawn env (tick (probed w))) as [pid|].
    2:{ destruct (Hfail c w1 Hs) as (Hc & F & Sp & T & Hw).
        repeat split; assumption. }
    destruct (Number_toBoolean pid).
    2:{ destruct (Hfail c w1 Hs) as (Hc & F & Sp & T & Hw).
        repeat split; assumption. }
    clear Hfail.
    destruct (waitForDriver_extends port 10000 wb) as (o & wr & Ew & Nw & Xw).
    destruct (extends_quiet Xw) as (Fw & Sw & Tw & _).
    rewrite Ew in Hs. destruct o as [[]|e|c0]; [| |exfalso; exact (Nw c0 eq_refl)].
    + destruct (createSession_extends (new_WebDriver (JNumber port)) wr)
        as (o & wd & Ecs & Ncs & Xd).
      destruct (extends_quiet Xd) as (Fd & Sd & Td & _).
      rewrite Ecs in Hs. destruct o as [sid|e|c0]; [| |exfalso; exact (Ncs c0 eq_refl)].
      * destruct (saveSession_outcomes
                    (session_record port sid pid (toISOString env (clock wd))) wd)
          as (o & we & Es & Ho & _).
        rewrite Es in Hs.
        destruct Ho as [->|(name & msg & -> & _)]; discriminate.
      * injection Hs as <- <-.
        split; [reflexivity|].
        split; [rewrite (proj1 (abandoned_counts _ _ _)), Fd, Fw; exact Fb|].
        split; [rewrite (proj1 (proj2 (abandoned_counts _ _ _))); lia|].
        split; [rewrite (proj2 (proj2 (abandoned_counts _ _ _))); lia|].
        exists e, wd. right. exists wr.
        split; [exact Ew|]. split; [exact Ecs|reflexivity].
    + injection Hs as <- <-.
      split; [reflexivity|].
      split; [rewrite (proj1 (abandoned_counts _ _ _)), Fw; exact Fb|].
      split; [rewrite (proj1 (proj2 (abandoned_counts _ _ _))); lia|].
      split; [rewrite (proj2 (proj2 (abandoned_counts _ _ _))); lia|].
      exists e, wr. left. split; [exact Ew|reflexivity].
Qed.


Lemma start_spawns port w :
  session_alive w = false ->
  spawns (log (snd (start port w))) = S (spawns (log w)).
Proof.
  intro Ha. rewrite (start_steps port w Ha). cbv zeta.
  destruct (spawned_counts port w) as (_ & Sb & _).
  assert (Hfail : spawns (log (emit (EvStderr "Failed to start safaridriver")
                                 (spawned port w))) = S (spawns (log w))).
  { rewrite log_emit_eq, spawns_app. cbn [spawns]. lia. }
  destruct (os_spawn env (tick (probed w))) as [pid|]; [|exact Hfail].
  destruct (Number_toBoolean pid); [|exact Hfail].
  destruct (waitForDriver_extends port 10000 (spawned port w))
    as (o & wr & Ew & Nw & Xw).
  destruct (extends_quiet Xw) as (_ & Sw & _).
  rewrite Ew. destruct o as [[]|e|c]; [| |exfalso; exact (Nw c eq_refl)].
  - destruct (createSession_extends (new_WebDriver (JNumber port)) wr)
      as (o & wd & Ecs & Ncs & Xd).
    destruct (extends_quiet Xd) as (_ & Sd & _).
    rewrite Ecs. destruct o as [sid|e|c]; [| |exfalso; exact (Ncs c eq_refl)].
    + destruct (saveSession_outcomes
                  (session_record port sid pid (toISOString env (clock wd))) wd)
        as (o & we & Es & Ho & Se & _).
      rewrite Es. destruct Ho as [->|(name & msg & -> & _)]; cbn [snd].
      * rewrite !log_emit_eq, !spawns_app. cbn [spawns]. lia.
      * lia.
    + cbn [snd]. rewrite (proj1 (proj2 (abandoned_counts _ _ _))). lia.
  - cbn [snd]. rewrite (proj1 (proj2 (abandoned_counts _ _ _))). lia.
Qed.


Lemma deleteSession_trace driver session w :
  ToBoolean session = true ->
  try_catch
    (bind (prop session "sessionId")
       (fun sid => deleteSession JSON_parse JSON_stringify env driver sid))
    (fun _ => ret tt) w
  = (Ret tt,
     pass env 0
       (emit (EvFetch "DELETE"
                (baseUrl driver ++ "/session/" ++ ToString (field session "sessionId"))
                None) w)).
Proof.
  intro Hs. unfold try_catch.
  rewrite (bind_eq _ (prop_truthy session "sessionId" w Hs)).
  unfold deleteSession, bind.
  destruct (request_effect driver "DELETE"
              ("/session/" ++ ToString (field session "sessionId")) JUndefined w)
    as [Hw Hno].
  destruct (request driver "DELETE"
              ("/session/" ++ ToString (field session "sessionId")) JUndefined w)
    as [[a|e|c] w1]; simpl in Hw, Hno; subst w1.
  - reflexivity.
  - reflexivity.
  - exfalso; exact (Hno c eq_refl).
Qed.

Lemma terminate_trace n (alive : bool) w :
  (if alive then
     try_catch
       (bind (process_kill env (JNumber n) SIGTERM)
          (fun _ => console_log
             ("Stopped safaridriver (pid=" ++ ToString (JNumber n) ++ ")")))
       (fun _ => ret tt)
   else ret tt) w
  = (Ret tt,
     if alive then
       if os_kill env (tick w) n SIGTERM then
         emit (EvStdout ("Stopped safaridriver (pid=" ++ Number_toString n ++ ")"))
           (pass env 0 (emit (EvKill n SIGTERM) w))
       else pass env 0 (emit (EvKill n SIGTERM) w)
     else w).
Proof.
  destruct alive; [|reflexivity].
  unfold try_catch, bind, process_kill, kill_target, console_log, ret.
  destruct (os_kill env (tick w) n SIGTERM); reflexivity.
Qed.



(** *** The top-level handler and the persisted state *)

(** [main] lets nothing escape: an action that returns or exits ends the
    same way, and an action that throws ends with exit status 1 after one
    line reporting the error.  For every error that is not a
    [WebDriverError] with the code [invalid session id], that line is all
    that happens: the persisted state is kept. *)
Theorem main_outcomes (action : M number unit) w :
  match action w with
  | (Ret a, w1) => main action w = (Ret a, w1)
  | (Exit c, w1) => main action w = (Exit c, w1)
  | (Throw e, w1) =>
      exists w2,
        main action w = (Exit 1, w2)
        /\ match e with
           | WDError err =>
               strict_eq_string (webdriverError err) "invalid session id" = false ->
               w2 = emit (EvStderr ("Error: " ++ message err)) w1
           | OtherError name msg =>
               w2 = emit (EvStderr
                            ("Error: " ++ (if String.eqb msg "" then name else msg)))
                      w1
           end
  end.
Proof.
  unfold main, try_catch.
  destruct (action w) as [[a|e|c] w1]; try reflexivity.
  destruct e as [err|name msg].
  - rewrite (bind_eq _ (console_error_eq _ _)).
    destruct (strict_eq_string (webdriverError err) "invalid session id").
    + unfold bind, console_error. rewrite clearSession_after.
      eexists. split; [reflexivity|discriminate].
    + eexists. split; [reflexivity|]. intros _. reflexivity.
  - rewrite (bind_eq _ (console_error_eq _ _)).
    eexists. split; [reflexivity|].
    unfold exn_toString. destruct (String.eqb msg ""); reflexivity.
Qed.

(** [requireSession] does not validate what it loads: whatever truthy JSON
    value the state file holds, be it a record, a number or an empty
    object, is returned as the session, with nothing done; a file holding a
    falsy JSON value ([null], [false], [0], the empty string) counts as no
    session: the message, and exit status 1. *)
Theorem requireSession_accepts w content wr v :
  state_file w = File content true wr ->
  JSON_parse content = Some v ->
  requireSession w
  = if ToBoolean v then (Ret v, w)
    else (Exit 1,
          emit (EvStderr "No active Safari session. Run `safari-cli start` first.") w).
Proof.
  intros Hfile Hparse. unfold requireSession.
  rewrite (bind_eq _ (loadSession_loaded w)).
  unfold loaded. rewrite Hfile, Hparse.
  destruct (ToBoolean v); reflexivity.
Qed.

(** What [saveSession] has written, [loadSession] reads back: after a
    successful save over no file or over a readable one, [loadSession]
    returns what [JSON.parse] makes of the saved text, which is the record
    itself when the record survives the JSON round trip. *)
Theorem saveSession_loadSession state w w' :
  saveSession state w = (Ret tt, w') ->
  (state_file w = NoFile \/ exists content wr, state_file w = File content true wr) ->
  JSON_parse (JSON_stringify state 2 ++ String "010" "") = Some state ->
  loadSession w' = (Ret state, w')
  /\ state_file w' = File (JSON_stringify state 2 ++ String "010" "") true true.
Proof.
  intros Hsave Hfile Hround.
  assert (Hf : state_file w'
               = File (JSON_stringify state 2 ++ String "010" "") true true).
  { revert Hsave.
    unfold saveSession, bind, existsSync_dir, mkdirSync_dir, writeFileSync_file, ret.
    destruct w as [hw [d|] sf ck tk lg]; simpl in *.
    - destruct Hfile as [->|(c & wr & ->)].
      + destruct d; intro E; [|discriminate]. injection E as <-. reflexivity.
      + destruct wr; intro E; [|discriminate]. injection E as <-. reflexivity.
    - destruct hw; simpl; [|discriminate].
      destruct Hfile as [->|(c & wr & ->)]; simpl.
      + intro E. injection E as <-. reflexivity.
      + destruct wr; intro E; [|discriminate]. injection E as <-. reflexivity. }
  split; [|exact Hf].
  rewrite loadSession_loaded. unfold loaded. rewrite Hf, Hround. reflexivity.
Qed.

(** [clearSession] never throws.  With no state file it does nothing at
    all, not even an attempt to remove; and when the directory allows
    removing, one call is enough: afterwards no session loads and a second
    call does nothing. *)
Theorem clearSession_idempotent w :
  exists w1,
    clearSession w = (Ret tt, w1)
    /\ (state_file w = NoFile -> w1 = w)
    /\ (state_dir w = Some true ->
        loadSession w1 = (Ret JNull, w1) /\ clearSession w1 = (Ret tt, w1)).
Proof.
  exists (after_clear w). split; [apply clearSession_after|]. split.
  - intro Hf. unfold after_clear. rewrite Hf. reflexivity.
  - intro Hd. pose proof (after_clear_removes w Hd) as Hgone. split.
    + rewrite loadSession_loaded. unfold loaded. rewrite Hgone. reflexivity.
    + rewrite clearSession_after. unfold after_clear at 1. rewrite Hgone. reflexivity.
Qed.

(** *** The methods of the client *)

Lemma bind_assoc_w {A B C} (m : M number A) (k1 : A -> M number B)
  (k2 : B -> M number C) w :
  bind (bind m k1) k2 w = bind m (fun a => bind (k1 a) k2) w.
Proof. unfold bind. destruct (m w) as [[a|e|c] w1]; reflexivity. Qed.

Lemma request_then {A} (k : value -> M number A) this method path payload w :
  computes k ->
  exists o,
    bind (request this method path payload) k w
    = (o, pass env 0 (emit (EvFetch method (baseUrl this ++ path) (body_of payload)) w))
    /\ forall c, o <> Exit c.
Proof.
  intro Hk. unfold bind.
  destruct (request_effect this method path payload w) as [Hw Hno].
  destruct (request this method path payload w) as [[a|e|c] w1];
    simpl in Hw, Hno; subst w1.
  - destruct (Hk a (pass env 0
                      (emit (EvFetch method (baseUrl this ++ path) (body_of payload)) w)))
      as (o & -> & Ho).
    exists o. split; [reflexivity|exact Ho].
  - eexists. split; [reflexivity|discriminate].
  - exfalso; exact (Hno c eq_refl).
Qed.

Lemma computes_ret {A B} (b : B) : computes (fun _ : A => @ret number B b).
Proof. intros a w. eexists. split; [reflexivity|discriminate]. Qed.

Lemma computes_bind {A B C} (k1 : A -> M number B) (k2 : B -> M number C) :
  computes k1 -> computes k2 -> computes (fun a => bind (k1 a) k2).
Proof.
  intros H1 H2 a w. unfold bind.
  destruct (H1 a w) as (o & -> & Ho). destruct o as [b|e|c].
  - apply H2.
  - eexists. split; [reflexivity|discriminate].
  - exfalso; exact (Ho c eq_refl).
Qed.

Lemma computes_prop k : computes (fun v : value => prop v k).
Proof.
  intros v w. unfold prop. destruct (Get v k);
    eexists; (split; [reflexivity|discriminate]).
Qed.

Lemma computes_element_reference :
  computes (fun v : value => element_reference v).
Proof.
  intros v w. unfold element_reference, prop.
  destruct (Object_keys v) as [keys|]; [destruct (Get v (first_key keys))|];
    eexists; (split; [reflexivity|discriminate]).
Qed.

Lemma computes_map_M {A B} (f : A -> M number B) :
  computes f -> computes (map_M f).
Proof.
  intros Hf l. induction l as [|x r IH]; intro w; simpl.
  - eexists. split; [reflexivity|discriminate].
  - unfold bind. destruct (Hf x w) as (o & -> & Ho). destruct o as [y|e|c].
    + destruct (IH w) as (o' & -> & Ho'). destruct o' as [ys|e|c].
      * eexists. split; [reflexivity|discriminate].
      * eexists. split; [reflexivity|discriminate].
      * exfalso; exact (Ho' c eq_refl).
    + eexists. split; [reflexivity|discriminate].
    + exfalso; exact (Ho c eq_refl).
Qed.

Lemma computes_each :
  computes (fun results : value =>
              match results with
              | JArray items => map_M element_reference items
              | _ => throw (OtherError "TypeError" "results.map is not a function")
              end).
Proof.
  intros v w. destruct v;
    try (eexists; split; [reflexivity|discriminate]).
  apply (computes_map_M computes_element_reference).
Qed.

Lemma append_empty_r (s : string) : s ++ "" = s.
Proof. induction s as [|c s IH]; simpl; [reflexivity|rewrite IH; reflexivity]. Qed.

Ltac method_case :=
  match goal with
  | |- exists o m path p, bind (request ?t ?m0 ?p0 ?b) ?k ?w = _ /\ _ =>
      let o := fresh "o" in
      let E := fresh "E" in
      let Hno := fresh "Hno" in
      assert (Hk : computes k)
        by (repeat first [ apply computes_ret
                         | apply computes_prop
                         | apply computes_element_reference
                         | apply computes_each
                         | apply computes_bind ]);
      destruct (@request_then _ k t m0 p0 b w Hk) as (o & E & Hno);
      exists o, m0, p0, (body_of b);
      split; [exact E|];
      split; [exact Hno|];
      split; [first [left; reflexivity
                    |right; left; reflexivity
                    |right; right; reflexivity]|];
      split; [first [intros ? _; discriminate
                    |let Hb := fresh "Hb" in
                     intros _ Hb; destruct b; try discriminate;
                     exfalso; exact (Hb _ eq_refl eq_refl)
                    |intros _ _; discriminate]|];
      split; [first [intros _; reflexivity
                    |let Hm := fresh "Hm" in
                     intro Hm; exfalso; apply Hm; reflexivity]|];
      first [left; reflexivity
            |right; reflexivity
            |eexists; reflexivity
            |exists ""; rewrite append_empty_r; reflexivity]
  end.

(** Every method of the client makes exactly one request, to a path under
    the base address, and never ends the process.  The method is GET, POST
    or DELETE; a POST always carries a JSON body (an empty object when the
    command has no parameter), a GET or DELETE never does; and every method
    about a session addresses a path that starts with that session's. *)
Theorem methods_one_request this c w :
  exists o m path p,
    invoke JSON_parse JSON_stringify env this c w
    = (o, pass env 0 (emit (EvFetch m (baseUrl this ++ path) p) w))
    /\ (forall code, o <> Exit code)
    /\ (m = "GET" \/ m = "POST" \/ m = "DELETE")
    /\ (m = "POST" ->
        (forall b, body_argument c = Some b -> b <> JUndefined) ->
        p <> None)
    /\ (m <> "POST" -> p = None)
    /\ match session_of c with
       | Some s => exists rest, path = "/session/" ++ ToString s ++ rest
       | None => path = "/session" \/ path = "/status"
       end.
Proof.
  destruct c; cbn [invoke session_of body_argument];
    unfold done, createSession, deleteSession, getStatus, navigateTo, getCurrentUrl,
      getTitle, back, forward, refresh, getPageSource, executeScript,
      executeAsyncScript, takeScreenshot, takeElementScreenshot, findElement,
      findElements, clickElement, sendKeys, clearElement, getElementText,
      getElementTagName, getElementAttribute, getElementProperty, getElementRect,
      isElementDisplayed, isElementEnabled, getCookies, getCookie, addCookie,
      deleteCookie, deleteAllCookies, getWindowHandle, getWindowHandles,
      switchToWindow, closeWindow, getWindowRect, setWindowRect, maximizeWindow,
      minimizeWindow, fullscreenWindow, switchToFrame, switchToParentFrame,
      getAlertText, acceptAlert, dismissAlert, sendAlertText, setTimeouts,
      getTimeouts, session_path, element_path;
    rewrite ?bind_assoc_w; method_case.
Qed.

(** *** The commands on a session *)

Lemma requireSession_absent w :
  ToBoolean (loaded w) = false ->
  requireSession w
  = (Exit 1, emit (EvStderr "No active Safari session. Run `safari-cli start` first.") w).
Proof.
  intro Hl. unfold requireSession.
  rewrite (bind_eq _ (loadSession_loaded w)), Hl. reflexivity.
Qed.

Lemma requireSession_present w :
  ToBoolean (loaded w) = true -> requireSession w = (Ret (loaded w), w).
Proof.
  intro Hl. unfold requireSession.
  rewrite (bind_eq _ (loadSession_loaded w)), Hl. reflexivity.
Qed.

(** Every command on a session refuses to run without one: when no session
    loads, it prints the message and ends with exit status 1, having made
    no request and done nothing else. *)
Theorem commands_require_session url selector text handle script
  (clear accept dismiss async with_text : bool) (alert_text : option string)
  (timeout : option Z) (command : M number unit) w :
  In command
    [back_command JSON_parse JSON_stringify env;
     forward_command JSON_parse JSON_stringify env;
     refresh_command JSON_parse JSON_stringify env;
     navigate_command JSON_parse JSON_stringify env url;
     click_command JSON_parse JSON_stringify env selector;
     type_command JSON_parse JSON_stringify env selector text clear;
     tab_command JSON_parse JSON_stringify env handle;
     wait_command JSON_parse JSON_stringify env selector timeout;
     alert_command JSON_parse JSON_stringify env alert_text accept dismiss;
     execute_command JSON_parse JSON_stringify env script async;
     find_command JSON_parse JSON_stringify env selector with_text] ->
  ToBoolean (loaded w) = false ->
  command w
  = (Exit 1, emit (EvStderr "No active Safari session. Run `safari-cli start` first.") w).
Proof.
  intros Hin Hl. pose proof (requireSession_absent w Hl) as Hr.
  simpl in Hin.
  repeat (destruct Hin as [<-|Hin]; [apply (bind_exit _ Hr)|]).
  destruct Hin.
Qed.

Lemma prefix_ci_https url : prefix_ci "https://" ("https://" ++ url) = true.
Proof. reflexivity. Qed.

Lemma with_scheme_complete url :
  has_http_scheme (with_scheme url) = true
  /\ (has_http_scheme url = true -> with_scheme url = url)
  /\ (has_http_scheme url = false -> with_scheme url = "https://" ++ url)
  /\ with_scheme (with_scheme url) = with_scheme url.
Proof.
  assert (H1 : has_http_scheme (with_scheme url) = true).
  { unfold with_scheme. destruct (has_http_scheme url) eqn:Hs; cbn [negb]; [exact Hs|].
    unfold has_http_scheme. rewrite prefix_ci_https. apply orb_true_r. }
  split; [exact H1|]. split; [|split].
  - intro Hs. unfold with_scheme. rewrite Hs. reflexivity.
  - intro Hs. unfold with_scheme. rewrite Hs. reflexivity.
  - unfold with_scheme at 1. rewrite H1. reflexivity.
Qed.

Lemma selectorStrategy_value selector : snd (selectorStrategy selector) = selector.
Proof.
  unfold selectorStrategy.
  destruct (String.prefix "//" selector || String.prefix "(//" selector); reflexivity.
Qed.

(** A method that sends one request and forgets the answer. *)
Lemma forget_world this method path payload w :
  exists o,
    bind (request this method path payload) (fun _ => ret tt) w
    = (o, pass env 0 (emit (EvFetch method (baseUrl this ++ path) (body_of payload)) w))
    /\ (forall c, o <> Exit c).
Proof. apply request_then, computes_ret. Qed.

Lemma findElement_world this sessionId using_ selector w :
  exists o,
    findElement JSON_parse JSON_stringify env this sessionId using_ selector w
    = (o, pass env 0
            (emit (EvFetch "POST" (baseUrl this ++ session_path sessionId "/element")
                     (body_of (locator using_ selector))) w))
    /\ (forall c, o <> Exit c).
Proof.
  unfold findElement. apply (request_then (k := fun r => element_reference r)).
  apply computes_element_reference.
Qed.



Lemma findElement_extends this sessionId using_ selector w :
  exists o w',
    findElement JSON_parse JSON_stringify env this sessionId using_ selector w = (o, w')
    /\ (forall c, o <> Exit c)
    /\ extends harmless w w'
    /\ fetches (log w') = S (fetches (log w)).
Proof.
  destruct (findElement_world this sessionId using_ selector w) as (o & E & Hno).
  exists o. eexists. split; [exact E|]. split; [exact Hno|]. split.
  - eapply extends_trans; [apply extends_emit|apply extends_pass; lia]. reflexivity.
  - simpl. rewrite fetches_app. simpl. lia.
Qed.

Lemma attempt_step driver sid using_ value_ selector w :
  try_catch
    (bind (findElement JSON_parse JSON_stringify env driver sid using_ value_)
       (fun _ => bind (console_log ("Element found: " ++ selector))
                   (fun _ => ret true)))
    (fun _ => bind (sleep env 300) (fun _ => ret false)) w
  = match findElement JSON_parse JSON_stringify env driver sid using_ value_ w with
    | (Ret _, w1) => (Ret true, emit (EvStdout ("Element found: " ++ selector)) w1)
    | (Throw _, w1) => (Ret false, pass env 300 w1)
    | (Exit c, w1) => (Exit c, w1)
    end.
Proof.
  unfold try_catch, bind, sleep, console_log, ret.
  destruct (findElement JSON_parse JSON_stringify env driver sid using_ value_ w)
    as [[v|e|c] w1]; reflexivity.
Qed.

Lemma findElement_counts driver sid using_ value_ w :
  extends harmless w
    (snd (findElement JSON_parse JSON_stringify env driver sid using_ value_ w))
  /\ fetches (log (snd (findElement JSON_parse JSON_stringify env driver sid
                          using_ value_ w)))
     = S (fetches (log w)).
Proof.
  destruct (findElement_extends driver sid using_ value_ w)
    as (o & w' & -> & _ & X & F).
  split; [exact X|exact F].
Qed.

Lemma findElement_no_exit driver sid using_ value_ w c :
  fst (findElement JSON_parse JSON_stringify env driver sid using_ value_ w) <> Exit c.
Proof.
  destruct (findElement_extends driver sid using_ value_ w)
    as (o & w' & -> & Hno & _).
  apply Hno.
Qed.

Lemma wait_loop_S driver sid using_ value_ selector deadline timeout fuel w :
  wait_loop JSON_parse JSON_stringify env (S fuel) driver sid using_ value_ selector
    deadline timeout w
  = if clock w <? deadline then
      match findElement JSON_parse JSON_stringify env driver sid using_ value_ w with
      | (Ret _, w1) => (Ret tt, emit (EvStdout ("Element found: " ++ selector)) w1)
      | (Throw _, w1) =>
          wait_loop JSON_parse JSON_stringify env fuel driver sid using_ value_
            selector deadline timeout (pass env 300 w1)
      | (Exit c, w1) => (Exit c, w1)
      end
    else wait_timeout selector timeout w.
Proof.
  cbn [wait_loop]. unfold bind at 1. unfold Date_now at 1.
  destruct (clock w <? deadline); [|reflexivity].
  unfold bind at 1. rewrite attempt_step.
  destruct (findElement JSON_parse JSON_stringify env driver sid using_ value_ w)
    as [[v|e|c] w1]; reflexivity.
Qed.

Lemma wait_timeout_eq selector timeout (w : World number) :
  wait_timeout selector timeout w
  = (Exit 1,
     emit (EvStderr ("Timeout: element not found after "
                       ++ match timeout with
                          | Some t => decimal t
                          | None => "NaN"
                          end
                       ++ "ms: " ++ selector)) w).
Proof. reflexivity. Qed.

(** The run of the loop of [wait], search by search. *)
Lemma wait_loop_trace driver sid using_ value_ selector deadline timeout fuel :
  forall w,
    deadline - clock w <= Z.of_nat fuel ->
    exists n,
      failed_until (findElement JSON_parse JSON_stringify env driver sid using_ value_)
        300 deadline n w
      /\ if clock (after_failures
                     (findElement JSON_parse JSON_stringify env driver sid
                        using_ value_) 300 n w) <? deadline
         then (exists id,
                  fst (findElement JSON_parse JSON_stringify env driver sid
                         using_ value_
                         (after_failures
                            (findElement JSON_parse JSON_stringify env driver sid
                               using_ value_) 300 n w))
                  = Ret id)
              /\ wait_loop JSON_parse JSON_stringify env fuel driver sid using_ value_
                   selector deadline timeout w
                 = (Ret tt,
                    emit (EvStdout ("Element found: " ++ selector))
                      (snd (findElement JSON_parse JSON_stringify env driver sid
                              using_ value_
                              (after_failures
                                 (findElement JSON_parse JSON_stringify env driver
                                    sid using_ value_) 300 n w))))
         else wait_loop JSON_parse JSON_stringify env fuel driver sid using_ value_
                selector deadline timeout w
              = wait_timeout selector timeout
                  (after_failures
                     (findElement JSON_parse JSON_stringify env driver sid
                        using_ value_) 300 n w).
Proof.
  induction fuel as [|fuel IH]; intros w Hfuel.
  - exists O. split; [intros i Hi; lia|]. cbn [after_failures].
    replace (clock w <? deadline) with false by (symmetry; apply Z.ltb_ge; lia).
    reflexivity.
  - rewrite wait_loop_S.
    destruct (clock w <? deadline) eqn:Hlt.
    2:{ exists O. split; [intros i Hi; lia|]. cbn [after_failures]. rewrite Hlt.
        reflexivity. }
    pose proof (findElement_no_exit driver sid using_ value_ w) as Hno.
    destruct (findElement_counts driver sid using_ value_ w) as (Hext & _).
    destruct (findElement JSON_parse JSON_stringify env driver sid using_ value_ w)
      as [[v|e|c] w1] eqn:E; cbn [fst snd] in *.
    + exists O. split; [intros i Hi; lia|]. cbn [after_failures].
      rewrite Hlt, E. split; [exists v; reflexivity|reflexivity].
    + assert (Hw1 : after_failure
                      (findElement JSON_parse JSON_stringify env driver sid
                         using_ value_) 300 w = pass env 300 w1).
      { unfold after_failure. rewrite E. reflexivity. }
      assert (Hclock : clock w + 300 <= clock (pass env 300 w1)).
      { destruct Hext as (_ & Hc & _). cbn [clock pass]. lia. }
      destruct (IH (pass env 300 w1)) as (n & Hfail & Hend); [lia|].
      exists (S n). split.
      * apply failed_until_S with (e := e).
        -- apply Z.ltb_lt, Hlt.
        -- rewrite E. reflexivity.
        -- rewrite Hw1. exact Hfail.
      * cbn [after_failures]. rewrite Hw1. exact Hend.
    + exfalso. exact (Hno c eq_refl).
Qed.


Lemma string_app_assoc (a b c : string) : ((a ++ b) ++ c = a ++ (b ++ c))%string.
Proof. induction a as [|x a IH]; simpl; [reflexivity|rewrite IH; reflexivity]. Qed.

Lemma join_snoc sep (l : list string) x :
  l <> [] -> join sep (l ++ [x]) = (join sep l ++ sep ++ x)%string.
Proof.
  induction l as [|y r IH]; intro Hne; [contradiction|].
  destruct r as [|z r].
  - reflexivity.
  - change (join sep (((y :: z :: r) ++ [x])%list))
      with (y ++ sep ++ join sep ((z :: r) ++ [x])%list)%string.
    rewrite IH by discriminate.
    change (join sep (y :: z :: r)) with (y ++ sep ++ join sep (z :: r))%string.
    rewrite !string_app_assoc. reflexivity.
Qed.

(** *** White space *)

Lemma app_empty_inv (a b : string) : a ++ b = "" -> a = "" /\ b = "".
Proof. destruct a; [intro E; split; [reflexivity|exact E]|discriminate]. Qed.

Lemma blank_app a b : blank (a ++ b) = blank a && blank b.
Proof.
  induction a as [|c a IH]; [reflexivity|].
  simpl. rewrite IH. apply andb_assoc.
Qed.

Lemma trim_start_blank l x :
  blank l = true ->
  (forall c r, x = String c r -> js_space c = false) ->
  trim_start (l ++ x) = x.
Proof.
  intros Hl Hx. induction l as [|c l IH].
  - destruct x as [|c r]; [reflexivity|]. simpl. rewrite (Hx c r eq_refl). reflexivity.
  - simpl in Hl. apply andb_prop in Hl as [Hc Hl]. simpl. rewrite Hc. apply IH, Hl.
Qed.

Lemma trim_start_spec s :
  exists l,
    s = l ++ trim_start s /\ blank l = true
    /\ forall c r, trim_start s = String c r -> js_space c = false.
Proof.
  induction s as [|c s (l & Hs & Hl & Hh)].
  - exists "". split; [reflexivity|]. split; [reflexivity|discriminate].
  - simpl. destruct (js_space c) eqn:Hc.
    + exists (String c l). split; [simpl; rewrite <- Hs; reflexivity|].
      split; [simpl; rewrite Hc; exact Hl|exact Hh].
    + exists "". split; [reflexivity|]. split; [reflexivity|].
      intros c0 r E. injection E as <- _. exact Hc.
Qed.

Lemma trim_end_blank r : blank r = true -> trim_end r = "".
Proof.
  induction r as [|c r IH]; [reflexivity|].
  simpl. intro H0. apply andb_prop in H0 as [Hc Hr]. rewrite (IH Hr), Hc. reflexivity.
Qed.

Lemma trim_end_app_blank t r : blank r = true -> trim_end (t ++ r) = trim_end t.
Proof.
  intro Hr. induction t as [|c t IH]; [apply trim_end_blank, Hr|].
  simpl. rewrite IH. reflexivity.
Qed.

Lemma trim_end_tight t :
  (forall p c, t = p ++ String c "" -> js_space c = false) -> trim_end t = t.
Proof.
  induction t as [|c t IH]; intro Ht; [reflexivity|].
  simpl. destruct t as [|c' t'].
  - simpl. rewrite (Ht "" c eq_refl). reflexivity.
  - rewrite IH.
    + reflexivity.
    + intros p c0 E. apply (Ht (String c p) c0). simpl. rewrite <- E. reflexivity.
Qed.

Lemma trim_end_spec s :
  exists r,
    s = trim_end s ++ r /\ blank r = true
    /\ forall p c, trim_end s = p ++ String c "" -> js_space c = false.
Proof.
  induction s as [|c s (r & Hs & Hr & Ht)].
  - exists "". split; [reflexivity|]. split; [reflexivity|].
    intros p c E. simpl in E. symmetry in E. apply app_empty_inv in E as [_ E].
    discriminate.
  - simpl. destruct (trim_end s) as [|c' t'] eqn:Et.
    + simpl in Hs. destruct (js_space c) eqn:Hc.
      * exists (String c s). split; [reflexivity|].
        split; [simpl; rewrite Hc, Hs; exact Hr|].
        intros p c0 E. symmetry in E. apply app_empty_inv in E as [_ E]. discriminate.
      * exists r. split; [simpl; rewrite <- Hs; reflexivity|]. split; [exact Hr|].
        intros p c0 E. destruct p as [|c1 p].
        -- injection E as <-. exact Hc.
        -- injection E as _ E. symmetry in E. apply app_empty_inv in E as [_ E].
           discriminate.
    + exists r. split; [simpl; rewrite Hs; reflexivity|]. split; [exact Hr|].
      intros p c0 E. destruct p as [|c1 p].
      * discriminate.
      * injection E as _ E. apply (Ht p c0 E).
Qed.

(** [trim] gives the text between the white space at the two ends. *)
Lemma trim_trimmed s : trimmed s (trim s).
Proof.
  unfold trim. destruct (trim_start_spec s) as (l & Hs & Hl & Hh).
  destruct (trim_end_spec (trim_start s)) as (r & Ht & Hr & He).
  exists l, r. split; [|split; [exact Hl|split; [exact Hr|split]]].
  - rewrite <- Ht. exact Hs.
  - intros c x E. rewrite E in Ht.
    destruct (trim_start s) as [|c0 x0]; [discriminate|].
    injection Ht as -> _. apply (Hh c x0 eq_refl).
  - exact He.
Qed.

(** And nothing else is. *)
Lemma trimmed_trim s t : trimmed s t -> trim s = t.
Proof.
  intros (l & r & -> & Hl & Hr & Hh & He). unfold trim.
  destruct t as [|c t].
  - simpl. replace (trim_start (l ++ r)) with "".
    + reflexivity.
    + symmetry. destruct (trim_start_spec (l ++ r)) as (l' & Hs & Hl' & Hh').
      destruct (trim_start (l ++ r)) as [|c x]; [reflexivity|].
      assert (Hb : blank (l ++ r) = true) by (rewrite blank_app, Hl, Hr; reflexivity).
      rewrite Hs, blank_app in Hb. apply andb_prop in Hb as [_ Hb].
      simpl in Hb. rewrite (Hh' c x eq_refl) in Hb. discriminate.
  - rewrite trim_start_blank; [|exact Hl|].
    + rewrite trim_end_app_blank by exact Hr. apply trim_end_tight, He.
    + intros c0 x E. simpl in E. injection E as <- _. apply (Hh c t eq_refl).
Qed.

(** *** The test for a line that starts with [return] *)

Lemma strip_prefix_spec p s r : strip_prefix p s = Some r <-> s = p ++ r.
Proof.
  revert s. induction p as [|a p IH]; intro s; simpl.
  - split; [intro E; injection E as ->; reflexivity|intros ->; reflexivity].
  - destruct s as [|b s].
    + split; discriminate.
    + destruct (Ascii.eqb a b) eqn:Hab.
      * apply Ascii.eqb_eq in Hab as ->. rewrite IH.
        split; [intros ->; reflexivity|intro E; injection E as ->; reflexivity].
      * apply Ascii.eqb_neq in Hab.
        split; [discriminate|intro E; injection E as <- _; contradiction].
Qed.

Lemma starts_with_return_spec s :
  starts_with_return s = true
  <-> exists spaces c rest,
        s = spaces ++ "return" ++ String c rest
        /\ blank spaces = true /\ js_space c = true.
Proof.
  unfold starts_with_return. split.
  - destruct (trim_start_spec s) as (l & Hs & Hl & _).
    destruct (strip_prefix "return" (trim_start s)) as [[|c rest]|] eqn:E;
      try discriminate.
    intro Hc. apply strip_prefix_spec in E.
    exists l, c, rest. split; [rewrite <- E; exact Hs|]. split; [exact Hl|exact Hc].
  - intros (spaces & c & rest & -> & Hb & Hc).
    rewrite (@trim_start_blank spaces ("return" ++ String c rest) Hb).
    + simpl. exact Hc.
    + intros c0 r E. injection E as <- _. reflexivity.
Qed.

Lemma has_return_line_cons b c r :
  has_return_line b (String c r)
  = (b && starts_with_return (String c r)) || has_return_line (js_line_terminator c) r.
Proof. reflexivity. Qed.

Lemma has_return_line_spec s :
  forall b,
    has_return_line b s = true
    <-> (b = true /\ starts_with_return s = true)
        \/ exists p t x,
            s = p ++ String t x /\ js_line_terminator t = true
            /\ starts_with_return x = true.
Proof.
  induction s as [|c s IH]; intro b.
  - change (has_return_line b "") with (b && starts_with_return "" || false).
    rewrite orb_false_r, andb_true_iff. split.
    + intro Hb. left. exact Hb.
    + intros [Hb|(p & t & x & E & _)]; [exact Hb|].
      symmetry in E. apply app_empty_inv in E as [_ E]. discriminate.
  - rewrite has_return_line_cons, orb_true_iff, andb_true_iff, IH. split.
    + intros [Hb|[[Ht Hs]|(p & t & x & -> & Ht & Hs)]].
      * left. exact Hb.
      * right. exists "", c, s. split; [reflexivity|]. split; assumption.
      * right. exists (String c p), t, x. split; [reflexivity|]. split; assumption.
    + intros [Hb|(p & t & x & E & Ht & Hs)]; [left; exact Hb|].
      right. destruct p as [|c0 p].
      * injection E as <- <-. left. split; assumption.
      * injection E as <- ->. right. exists p, t, x.
        split; [reflexivity|]. split; assumption.
Qed.

(** The test of [execute] for a line that starts with [return] is that of
    the regular expression. *)
Lemma return_line_spec s : return_line s <-> has_return_line true s = true.
Proof.
  rewrite has_return_line_spec. split.
  - intros (before & spaces & c & rest & -> & [->|(p & t & -> & Ht)] & Hb & Hc).
    + left. split; [reflexivity|]. apply starts_with_return_spec.
      exists spaces, c, rest. split; [reflexivity|]. split; assumption.
    + right. exists p, t, (spaces ++ "return" ++ String c rest).
      split; [rewrite string_app_assoc; reflexivity|]. split; [exact Ht|].
      apply starts_with_return_spec.
      exists spaces, c, rest. split; [reflexivity|]. split; assumption.
  - intros [[_ Hs]|(p & t & x & -> & Ht & Hs)];
      apply starts_with_return_spec in Hs as (spaces & c & rest & -> & Hb & Hc).
    + exists "", spaces, c, rest. split; [reflexivity|].
      split; [left; reflexivity|]. split; assumption.
    + exists (p ++ String t ""), spaces, c, rest.
      split; [rewrite string_app_assoc; reflexivity|].
      split; [right; exists p, t; split; [reflexivity|exact Ht]|]. split; assumption.
Qed.

(** *** Statements *)

Lemma has_semicolon_spec s :
  has_semicolon s = true <-> exists a b, s = a ++ ";" ++ b.
Proof.
  induction s as [|c s IH]; simpl.
  - split; [discriminate|]. intros (a & b & E). symmetry in E.
    apply app_empty_inv in E as [_ E]. discriminate.
  - rewrite orb_true_iff, IH. split.
    + intros [Hc|(a & b & ->)].
      * apply Ascii.eqb_eq in Hc as ->. exists "", s. reflexivity.
      * exists (String c a), b. reflexivity.
    + intros (a & b & E). destruct a as [|c0 a].
      * injection E as -> _. left. reflexivity.
      * injection E as _ ->. right. exists a, b. reflexivity.
Qed.

Lemma no_semicolon_spec s : no_semicolon s <-> has_semicolon s = false.
Proof.
  unfold no_semicolon. split.
  - intro Hn. destruct (has_semicolon s) eqn:E; [|reflexivity].
    apply has_semicolon_spec in E as (a & b & E). exfalso. exact (Hn a b E).
  - intros Hf a b E.
    assert (Ht : has_semicolon s = true) by (apply has_semicolon_spec; exists a, b; exact E).
    rewrite Hf in Ht. discriminate.
Qed.

Lemma split_semicolon_cons s : exists p r, split_semicolon s = p :: r.
Proof.
  destruct s as [|c s]; simpl; [do 2 eexists; reflexivity|].
  destruct (Ascii.eqb c ";"); [do 2 eexists; reflexivity|].
  destruct (split_semicolon s); do 2 eexists; reflexivity.
Qed.

Lemma split_semicolon_plain p : has_semicolon p = false -> split_semicolon p = [p].
Proof.
  induction p as [|c p IH]; [reflexivity|].
  simpl. intro Hp. apply orb_false_elim in Hp as [Hc Hp].
  rewrite Hc, (IH Hp). reflexivity.
Qed.

Lemma split_semicolon_app p x :
  has_semicolon p = false ->
  split_semicolon (p ++ String ";" x) = p :: split_semicolon x.
Proof.
  induction p as [|c p IH]; [reflexivity|].
  simpl. intro Hp. apply orb_false_elim in Hp as [Hc Hp].
  rewrite Hc, (IH Hp). reflexivity.
Qed.

(** [split] gives the pieces between the semicolons, and nothing else
    does. *)
Lemma split_semicolon_join s :
  join ";" (split_semicolon s) = s
  /\ Forall (fun p => has_semicolon p = false) (split_semicolon s).
Proof.
  induction s as [|c s (Hj & Hf)]; [split; [reflexivity|repeat constructor]|].
  simpl. destruct (Ascii.eqb c ";") eqn:Hc.
  - apply Ascii.eqb_eq in Hc as ->.
    destruct (split_semicolon_cons s) as (p & r & E). rewrite E in *.
    split; [|constructor; [reflexivity|exact Hf]].
    change (join ";" ("" :: p :: r)) with ("" ++ ";" ++ join ";" (p :: r)).
    rewrite Hj. reflexivity.
  - destruct (split_semicolon_cons s) as (p & r & E). rewrite E in *.
    pose proof (Forall_inv Hf) as Hp. pose proof (Forall_inv_tail Hf) as Hr.
    cbv beta in Hp.
    split.
    + destruct r as [|q r].
      * simpl in *. rewrite Hj. reflexivity.
      * change (join ";" (String c p :: q :: r))
          with (String c (p ++ ";" ++ join ";" (q :: r))).
        change (join ";" (p :: q :: r)) with (p ++ ";" ++ join ";" (q :: r)) in Hj.
        rewrite Hj. reflexivity.
    + constructor; [simpl; rewrite Hc, Hp; reflexivity|exact Hr].
Qed.

Lemma join_split_semicolon pieces :
  pieces <> [] ->
  Forall (fun p => has_semicolon p = false) pieces ->
  split_semicolon (join ";" pieces) = pieces.
Proof.
  induction pieces as [|p r IH]; intros Hne Hf; [contradiction|].
  pose proof (Forall_inv Hf) as Hp. pose proof (Forall_inv_tail Hf) as Hr.
  cbv beta in Hp.
  destruct r as [|q r].
  - simpl. apply split_semicolon_plain, Hp.
  - change (join ";" (p :: q :: r)) with (p ++ String ";" (join ";" (q :: r))).
    rewrite (@split_semicolon_app p _ Hp), IH; [reflexivity|discriminate|exact Hr].
Qed.

Lemma Forall2_trimmed pieces cores :
  Forall2 trimmed pieces cores -> map trim pieces = cores.
Proof.
  induction 1 as [|p c ps cs Hpc _ IH]; [reflexivity|].
  simpl. rewrite (trimmed_trim Hpc), IH. reflexivity.
Qed.

Lemma Forall2_trim pieces : Forall2 trimmed pieces (map trim pieces).
Proof.
  induction pieces as [|p r IH]; constructor; [apply trim_trimmed|exact IH].
Qed.

Lemma rev_cases (l : list string) :
  match rev l with
  | [] => l = []
  | final :: before =>
      List.last l "" = final /\ removelast l = rev before /\ l = (rev before ++ [final])%list
  end.
Proof.
  destruct (rev l) as [|final before] eqn:E.
  - rewrite <- (rev_involutive l), E. reflexivity.
  - assert (Hl : l = (rev before ++ [final])%list).
    { rewrite <- (rev_involutive l), E. reflexivity. }
    rewrite Hl at 1 2. rewrite last_last, removelast_last. repeat split. exact Hl.
Qed.

(** The script [execute] sends first.  When some line of the script starts
    with [return] (after white space or none, and before a white space
    character), it is the script itself.  Otherwise, without a semicolon,
    it is the script after [return ].  Otherwise the script is cut at its
    semicolons, the pieces lose the white space at their ends, the empty ones
    are dropped, and what is sent is the rest joined by [; ] with [return ]
    before the last one, or a bare [return ] when nothing is left.  Every
    script can be cut and trimmed this way, in one way only. *)
Theorem toRun_cases script :
  (return_line script -> toRun script = script)
  /\ (~ return_line script -> no_semicolon script ->
      toRun script = "return " ++ script)
  /\ (~ return_line script -> ~ no_semicolon script ->
      forall pieces cores,
        pieces <> [] ->
        join ";" pieces = script ->
        Forall no_semicolon pieces ->
        Forall2 trimmed pieces cores ->
        match rev (filter (fun s => negb (String.eqb s "")) cores) with
        | [] => toRun script = "return "
        | final :: before =>
            toRun script = join "; " (rev before ++ ["return " ++ final])
        end)
  /\ (exists pieces cores,
         pieces <> []
         /\ join ";" pieces = script
         /\ Forall no_semicolon pieces
         /\ Forall2 trimmed pieces cores).
Proof.
  unfold toRun. split; [|split; [|split]].
  - intro Hr. apply return_line_spec in Hr. rewrite Hr. reflexivity.
  - intros Hr Hs.
    replace (has_return_line true script) with false.
    + apply no_semicolon_spec in Hs. rewrite Hs. reflexivity.
    + symmetry. destruct (has_return_line true script) eqn:E; [|reflexivity].
      exfalso. apply Hr, return_line_spec, E.
  - intros Hr Hs pieces cores Hne Hj Hf Hc.
    replace (has_return_line true script) with false.
    2:{ symmetry. destruct (has_return_line true script) eqn:E; [|reflexivity].
        exfalso. apply Hr, return_line_spec, E. }
    replace (has_semicolon script) with true.
    2:{ symmetry. destruct (has_semicolon script) eqn:E; [reflexivity|].
        exfalso. apply Hs, no_semicolon_spec, E. }
    assert (Hst : statements script
                  = filter (fun s => negb (String.eqb s "")) cores).
    { unfold statements. rewrite <- Hj, join_split_semicolon.
      - rewrite (Forall2_trimmed Hc). reflexivity.
      - exact Hne.
      - apply Forall_impl with (P := no_semicolon); [|exact Hf].
        intros p Hp. apply no_semicolon_spec, Hp. }
    cbv zeta. rewrite Hst.
    pose proof (rev_cases (filter (fun s => negb (String.eqb s "")) cores)) as Hrev.
    destruct (rev (filter (fun s => negb (String.eqb s "")) cores))
      as [|final before].
    + rewrite Hrev. reflexivity.
    + destruct Hrev as (Hlast & Hrem & _). rewrite Hlast, Hrem.
      destruct (rev before) as [|p r] eqn:Eb.
      * reflexivity.
      * rewrite join_snoc by discriminate.
        rewrite !string_app_assoc. reflexivity.
  - exists (split_semicolon script), (map trim (split_semicolon script)).
    destruct (split_semicolon_join script) as (Hj & Hf).
    split; [|split; [exact Hj|split]].
    + destruct (split_semicolon_cons script) as (p & r & ->). discriminate.
    + apply Forall_impl with (P := fun p => has_semicolon p = false); [|exact Hf].
      intros p Hp. apply no_semicolon_spec, Hp.
    + apply Forall2_trim.
Qed.

Lemma log_emit (e : event number) w : log (emit e w) = (log w ++ [e])%list.
Proof. reflexivity. Qed.

Lemma log_pass ms w : log (pass env ms w) = log w.
Proof. reflexivity. Qed.

Lemma print_result (result : value) w :
  match result with
  | JUndefined | JNull => ret tt
  | JArray _ | JObject _ => console_log (JSON_stringify result 2)
  | _ => console_log (ToString result)
  end w
  = (Ret tt, snd (match result with
                  | JUndefined | JNull => ret tt
                  | JArray _ | JObject _ => console_log (JSON_stringify result 2)
                  | _ => console_log (ToString result)
                  end w))
  /\ log (snd (match result with
               | JUndefined | JNull => ret tt
               | JArray _ | JObject _ => console_log (JSON_stringify result 2)
               | _ => console_log (ToString result)
               end w))
     = (log w ++ printed result)%list.
Proof.
  destruct result; simpl; split; try reflexivity; symmetry; apply app_nil_r.
Qed.


Lemma outputs_app (l1 l2 : list (event number)) :
  outputs (l1 ++ l2) = (outputs l1 + outputs l2)%nat.
Proof.
  induction l1 as [|e r IH]; simpl; [reflexivity|].
  destruct e; simpl; rewrite IH; reflexivity.
Qed.

Lemma request_outputs this method path payload w :
  outputs (log (snd (request this method path payload w))) = outputs (log w).
Proof.
  destruct (request_effect this method path payload w) as [-> _].
  rewrite log_pass, log_emit, outputs_app. simpl. lia.
Qed.

Lemma find_lines_counts driver sid (text : bool) elements :
  forall i w,
  exists o w',
    find_lines JSON_parse JSON_stringify env driver sid text i elements w = (o, w')
    /\ (forall c, o <> Exit c)
    /\ extends harmless w w'
    /\ (o = Ret tt ->
        fetches (log w')
        = (fetches (log w) + List.length elements * (if text then 2 else 1))%nat
        /\ outputs (log w') = (outputs (log w) + List.length elements)%nat).
Proof.
  induction elements as [|element rest IH]; intros i w.
  - exists (Ret tt), w. split; [reflexivity|]. split; [discriminate|].
    split; [apply extends_refl|]. intros _. simpl. split; lia.
  - cbn [find_lines]. unfold getElementTagName, getElementText.
    pose proof (request_outputs driver "GET" (element_path sid element "/name")
                  JUndefined w) as Ho1.
    destruct (request_extends driver "GET" (element_path sid element "/name")
                JUndefined w) as (o1 & w1 & E1 & Hno1 & Hext1 & Hf1 & _).
    rewrite E1 in Ho1. cbn [snd] in Ho1.
    unfold bind at 1. rewrite E1.
    destruct o1 as [tag|e|c];
      [|do 2 eexists; split; [reflexivity|];
        split; [discriminate|split; [exact Hext1|discriminate]]
       |exfalso; exact (Hno1 c eq_refl)].
    set (line := ("  [" ++ index_key i ++ "] <" ++ ToString tag ++ ">")%string).
    assert (Hline :
      exists o2 w2,
        (if text
         then bind (request driver "GET" (element_path sid element "/text") JUndefined)
                (fun t => if ToBoolean t
                          then match t with
                               | JString s =>
                                   ret (line ++ " " ++ String "034" (substring 0 80 s)
                                          ++ String "034" "")%string
                               | _ => throw (OtherError "TypeError"
                                               "text.substring is not a function")
                               end
                          else ret line)
         else ret line) w1 = (o2, w2)
        /\ (forall c, o2 <> Exit c)
        /\ extends harmless w1 w2
        /\ fetches (log w2) = (fetches (log w1) + (if text then 1 else 0))%nat
        /\ outputs (log w2) = outputs (log w1)).
    { destruct text.
      - pose proof (request_outputs driver "GET" (element_path sid element "/text")
                      JUndefined w1) as Ho2.
        destruct (request_extends driver "GET" (element_path sid element "/text")
                    JUndefined w1) as (o2 & w2 & E2 & Hno2 & Hext2 & Hf2 & _).
        rewrite E2 in Ho2. cbn [snd] in Ho2.
        unfold bind. rewrite E2. destruct o2 as [t|e|c].
        + destruct (ToBoolean t); [destruct t|];
            do 2 eexists; (split; [reflexivity|]);
            (split; [discriminate|]); (split; [exact Hext2|]); split; (lia || exact Ho2).
        + do 2 eexists. split; [reflexivity|]. split; [discriminate|].
          split; [exact Hext2|]. split; [lia|exact Ho2].
        + exfalso; exact (Hno2 c eq_refl).
      - exists (Ret line), w1. split; [reflexivity|]. split; [discriminate|].
        split; [apply extends_refl|]. split; lia. }
    destruct Hline as (o2 & w2 & E2 & Hno2 & Hext2 & Hf2 & Ho2).
    unfold bind at 1. rewrite E2.
    destruct o2 as [line'|e|c];
      [|do 2 eexists; split; [reflexivity|];
        split; [discriminate|split; [|discriminate]];
        eapply extends_trans; [exact Hext1|exact Hext2]
       |exfalso; exact (Hno2 c eq_refl)].
    rewrite (bind_eq _ (console_log_eq _ _)).
    destruct (IH (S i) (emit (EvStdout line') w2))
      as (o3 & w3 & E3 & Hno3 & Hext3 & Hc3).
    exists o3, w3. split; [exact E3|]. split; [exact Hno3|]. split.
    + eapply extends_trans; [exact Hext1|].
      eapply extends_trans; [exact Hext2|].
      eapply extends_trans; [|exact Hext3]. apply extends_emit. reflexivity.
    + intro Ho. destruct (Hc3 Ho) as [Hf3 Hp3].
      rewrite log_emit, fetches_app in Hf3. rewrite log_emit, outputs_app in Hp3.
      cbn [fetches outputs] in Hf3, Hp3. cbn [List.length].
      destruct text; split; lia.
Qed.

Lemma findElements_extends this sessionId using_ selector w :
  exists o w',
    findElements JSON_parse JSON_stringify env this sessionId using_ selector w = (o, w')
    /\ (forall c, o <> Exit c)
    /\ extends harmless w w'
    /\ fetches (log w') = S (fetches (log w))
    /\ outputs (log w') = outputs (log w).
Proof.
  unfold findElements.
  destruct (request_then (k := fun results : value =>
                                match results with
                                | JArray items => map_M element_reference items
                                | _ => throw (OtherError "TypeError"
                                                "results.map is not a function")
                                end)
              this "POST" ("/session/" ++ ToString sessionId ++ "/elements")%string
              (locator using_ selector) w computes_each) as (o & E & Hno).
  exists o. eexists. split; [exact E|]. split; [exact Hno|]. split; [|split].
  - eapply extends_trans; [apply extends_emit|apply extends_pass; lia]. reflexivity.
  - rewrite log_pass, log_emit, fetches_app. simpl. lia.
  - rewrite log_pass, log_emit, outputs_app. simpl. lia.
Qed.

(** [find] with a session never ends the process and does nothing besides
    requests and output.  When it returns, it has made one request for the
    search and one for each element found, or two with [--text], and has
    written one line for the count and one for each element. *)
Theorem find_counts selector (text : bool) w :
  ToBoolean (loaded w) = true ->
  exists o w',
    find_command JSON_parse JSON_stringify env selector text w = (o, w')
    /\ (forall c, o <> Exit c)
    /\ extends harmless w w'
    /\ (o = Ret tt ->
        exists elements,
          fst (findElements JSON_parse JSON_stringify env
                 (new_WebDriver (field (loaded w) "port"))
                 (field (loaded w) "sessionId")
                 (fst (selectorStrategy selector)) selector w) = Ret elements
          /\ fetches (log w')
             = (fetches (log w) + 1
                + List.length elements * (if text then 2 else 1))%nat
          /\ outputs (log w') = (outputs (log w) + 1 + List.length elements)%nat
          /\ In (EvStdout ("Found " ++ index_key (List.length elements)
                             ++ " element(s)")) (log w')).
Proof.
  intro Hl. unfold find_command.
  rewrite (bind_eq _ (requireSession_present w Hl)).
  rewrite (bind_eq _ (getDriver_truthy (loaded w) w Hl)).
  pose proof (selectorStrategy_value selector) as Hv.
  destruct (selectorStrategy selector) as [u v]. cbn [fst snd] in *. subst v.
  rewrite (bind_eq _ (prop_truthy (loaded w) "sessionId" w Hl)).
  destruct (findElements_extends (new_WebDriver (field (loaded w) "port"))
              (field (loaded w) "sessionId") u selector w)
    as (o1 & w1 & E1 & Hno1 & Hext1 & Hf1 & Hp1).
  unfold bind at 1. rewrite E1.
  destruct o1 as [elements|e|c];
    [|do 2 eexists; split; [reflexivity|];
      split; [discriminate|split; [exact Hext1|discriminate]]
     |exfalso; exact (Hno1 c eq_refl)].
  rewrite (bind_eq _ (console_log_eq _ _)).
  destruct (find_lines_counts (new_WebDriver (field (loaded w) "port"))
              (field (loaded w) "sessionId") text elements 0
              (emit (EvStdout ("Found " ++ index_key (List.length elements)
                                 ++ " element(s)")) w1))
    as (o2 & w2 & E2 & Hno2 & Hext2 & Hc2).
  exists o2, w2. split; [exact E2|]. split; [exact Hno2|]. split.
  - eapply extends_trans; [exact Hext1|].
    eapply extends_trans; [|exact Hext2]. apply extends_emit. reflexivity.
  - intro Ho. destruct (Hc2 Ho) as [Hf2 Hp2].
    rewrite log_emit, fetches_app in Hf2. rewrite log_emit, outputs_app in Hp2.
    cbn [fetches outputs] in Hf2, Hp2.
    exists elements. split; [reflexivity|]. split; [lia|]. split; [lia|].
    destruct Hext2 as (_ & _ & added & -> & _).
    apply in_or_app. left. rewrite log_emit. apply in_or_app. right. left. reflexivity.
Qed.

(** What [alert] has done when it returns, in order: the text of [--text]
    first, unless that text is empty; then exactly one of accepting,
    dismissing and reading the alert, and the line reporting it.
    [--accept] wins over [--dismiss]: given both, the alert is accepted and
    no dismissal is sent. *)
Theorem alert_precedence (text : option string) (accept dismiss : bool) w w' :
  ToBoolean (loaded w) = true ->
  alert_command JSON_parse JSON_stringify env text accept dismiss w = (Ret tt, w') ->
  let driver := new_WebDriver (field (loaded w) "port") in
  let sid := field (loaded w) "sessionId" in
  let sent method rest payload :=
    EvFetch method (baseUrl driver ++ session_path sid rest)%string (body_of payload) in
  exists line,
    log w'
    = (log w
         ++ match text with
            | Some t =>
                if String.eqb t "" then []
                else [sent "POST" "/alert/text" (JObject [("text", JString t)])]
            | None => []
            end
         ++ [if accept then sent "POST" "/alert/accept" (JObject [])
             else if dismiss then sent "POST" "/alert/dismiss" (JObject [])
                  else sent "GET" "/alert/text" JUndefined;
             EvStdout line])%list
    /\ (accept = true -> line = "Alert accepted.")
    /\ (accept = false -> dismiss = true -> line = "Alert dismissed.").
Proof.
  intros Hl Hrun. cbv zeta. unfold alert_command in Hrun.
  rewrite (bind_eq _ (requireSession_present w Hl)) in Hrun.
  rewrite (bind_eq _ (getDriver_truthy (loaded w) w Hl)) in Hrun.
  rewrite (bind_eq _ (prop_truthy (loaded w) "sessionId" w Hl)) in Hrun.
  set (driver := new_WebDriver (field (loaded w) "port")) in *.
  set (sid := field (loaded w) "sessionId") in *.
  assert (Htext : exists o1 w1,
             match text with
             | Some t =>
                 if negb (String.eqb t "")
                 then sendAlertText JSON_parse JSON_stringify env driver sid t
                 else ret tt
             | None => ret tt
             end w = (o1, w1)
             /\ (forall c, o1 <> Exit c)
             /\ log w1
                = (log w
                     ++ match text with
                        | Some t =>
                            if String.eqb t "" then []
                            else [EvFetch "POST"
                                    (baseUrl driver ++ session_path sid "/alert/text")
                                    (body_of (JObject [("text", JString t)]))]
                        | None => []
                        end)%list).
  { destruct text as [t|]; [destruct (String.eqb t ""); cbn [negb]|].
    - do 2 eexists. split; [reflexivity|]. split; [discriminate|].
      symmetry. apply app_nil_r.
    - unfold sendAlertText.
      destruct (forget_world driver "POST" (session_path sid "/alert/text")
                  (JObject [("text", JString t)]) w) as (o1 & E1 & N1).
      do 2 eexists. split; [exact E1|]. split; [exact N1|reflexivity].
    - do 2 eexists. split; [reflexivity|]. split; [discriminate|].
      symmetry. apply app_nil_r. }
  destruct Htext as (o1 & w1 & E1 & N1 & L1).
  destruct o1 as [[]|e|c]; [|rewrite (bind_throw _ E1) in Hrun; discriminate
                            |exfalso; exact (N1 c eq_refl)].
  rewrite (bind_eq _ E1) in Hrun.
  destruct accept; [|destruct dismiss].
  - unfold acceptAlert in Hrun.
    destruct (forget_world driver "POST" (session_path sid "/alert/accept")
                (JObject []) w1) as (o2 & E2 & N2).
    destruct o2 as [[]|e|c]; [|rewrite (bind_throw _ E2) in Hrun; discriminate
                              |exfalso; exact (N2 c eq_refl)].
    rewrite (bind_eq _ E2), console_log_eq in Hrun. injection Hrun as <-.
    exists "Alert accepted.". split; [|split; [reflexivity|discriminate]].
    rewrite log_emit, log_pass, log_emit, L1, <- !app_assoc. reflexivity.
  - unfold dismissAlert in Hrun.
    destruct (forget_world driver "POST" (session_path sid "/alert/dismiss")
                (JObject []) w1) as (o2 & E2 & N2).
    destruct o2 as [[]|e|c]; [|rewrite (bind_throw _ E2) in Hrun; discriminate
                              |exfalso; exact (N2 c eq_refl)].
    rewrite (bind_eq _ E2), console_log_eq in Hrun. injection Hrun as <-.
    exists "Alert dismissed.". split; [|split; [discriminate|reflexivity]].
    rewrite log_emit, log_pass, log_emit, L1, <- !app_assoc. reflexivity.
  - unfold getAlertText in Hrun.
    destruct (request_effect driver "GET" (session_path sid "/alert/text")
                JUndefined w1) as [Hw2 N2].
    destruct (request driver "GET" (session_path sid "/alert/text") JUndefined w1)
      as [[v|e|c] w2] eqn:E2; cbn [fst snd] in *;
      [|rewrite (bind_throw _ E2) in Hrun; discriminate
       |exfalso; exact (N2 c eq_refl)].
    rewrite (bind_eq _ E2), console_log_eq in Hrun. injection Hrun as <-.
    exists ("Alert: " ++ ToString v)%string. split; [|split; discriminate].
    rewrite log_emit, Hw2, log_pass, log_emit, L1, <- !app_assoc. reflexivity.
Qed.
End Properties.

(** ** The properties on the scenarios *)

Section Runs.
Import Sample Scenario.
Local Notation request := (request JSON_parse JSON_stringify).

Lemma request_returns_value_witness :
  fst (request (answering (mkResponse 200 (BodyText (envelope session_payload))))
         driver "POST" "/session" capabilities fresh)
  = Ret session_payload
  /\ fst (request (answering (mkResponse 200 (BodyText (envelope (JNumber 42)))))
            driver "GET" "/session/abc123/title" JUndefined fresh)
     = Ret (JNumber 42)
  /\ fst (request (answering (mkResponse 200 (BodyText "pong")))
            driver "GET" "/status" JUndefined fresh)
     = Ret (JString "pong").
Proof.
  split; [|split].
  - apply (request_returns_value JSON_parse JSON_stringify
             (answering (mkResponse 200 (BodyText (envelope session_payload))))
             driver "POST" "/session" capabilities fresh eq_refl eq_refl)
      with (json := JObject [("value", session_payload)]); reflexivity.
  - apply (request_returns_value JSON_parse JSON_stringify
             (answering (mkResponse 200 (BodyText (envelope (JNumber 42)))))
             driver "GET" "/session/abc123/title" JUndefined fresh eq_refl eq_refl)
      with (json := JObject [("value", JNumber 42)]); reflexivity.
  - apply (request_returns_value JSON_parse JSON_stringify
             (answering (mkResponse 200 (BodyText "pong")))
             driver "GET" "/status" JUndefined fresh eq_refl eq_refl); reflexivity.
Defined.



Lemma request_non_json_witness :
  fst (request (answering (mkResponse 404 (BodyText "Not Found")))
         driver "GET" "/nowhere" JUndefined fresh)
  = Throw (WDError (mkWebDriverError "HTTP 404: Not Found" (Some 404) JUndefined))
  /\ fst (request (answering (mkResponse 200 (BodyText "pong")))
            driver "GET" "/status" JUndefined fresh)
     = Ret (JString "pong").
Proof.
  split.
  - apply (request_non_json JSON_parse JSON_stringify
             (answering (mkResponse 404 (BodyText "Not Found")))
             driver "GET" "/nowhere" JUndefined fresh eq_refl eq_refl eq_refl).
    reflexivity.
  - apply (request_non_json JSON_parse JSON_stringify
             (answering (mkResponse 200 (BodyText "pong")))
             driver "GET" "/status" JUndefined fresh eq_refl eq_refl eq_refl).
    reflexivity.
Defined.

Lemma element_reference_any_key_witness :
  fst (findElement JSON_parse JSON_stringify
         (answering (mkResponse 200
            (BodyText (envelope (JObject [(w3c_key, JString "node-1")])))))
         driver (JString "abc123") "css selector" "h1" fresh)
  = Ret (JString "node-1")
  /\ fst (findElement JSON_parse JSON_stringify
            (answering (mkResponse 200
               (BodyText (envelope (JObject [(legacy_key, JString "node-1")])))))
            driver (JString "abc123") "css selector" "h1" fresh)
     = Ret (JString "node-1")
  /\ fst (findElements JSON_parse JSON_stringify
            (answering (mkResponse 200
               (BodyText (envelope (JArray [JObject [(w3c_key, JString "node-1")];
                                            JObject [(legacy_key, JString "node-2")]])))))
            driver (JString "abc123") "css selector" "li" fresh)
     = Ret [JString "node-1"; JString "node-2"].
Proof.
  split; [|split].
  - apply (proj1 (element_reference_any_key JSON_parse JSON_stringify
             (answering (mkResponse 200
                (BodyText (envelope (JObject [(w3c_key, JString "node-1")])))))
             driver (JString "abc123") "css selector" "h1" fresh) w3c_key).
    reflexivity.
  - apply (proj1 (element_reference_any_key JSON_parse JSON_stringify
             (answering (mkResponse 200
                (BodyText (envelope (JObject [(legacy_key, JString "node-1")])))))
             driver (JString "abc123") "css selector" "h1" fresh) legacy_key).
    reflexivity.
  - apply (proj1 (proj2 (element_reference_any_key JSON_parse JSON_stringify
             (answering (mkResponse 200
                (BodyText (envelope (JArray [JObject [(w3c_key, JString "node-1")];
                                             JObject [(legacy_key, JString "node-2")]])))))
             driver (JString "abc123") "css selector" "li" fresh))
             [(w3c_key, JString "node-1"); (legacy_key, JString "node-2")]).
    reflexivity.
Defined.

Lemma request_connection_error_witness :
  fst (request refusing driver "GET" "/status" JUndefined fresh)
  = Throw (WDError (mkWebDriverError
             "Cannot connect to SafariDriver at http://localhost:9515: fetch failed"
             None JUndefined))
  /\ statusCode (mkWebDriverError "HTTP 404: Not Found" (Some 404) (@JUndefined Z))
     = Some 404.
Proof.
  split.
  - apply (proj1 (request_connection_error JSON_parse JSON_stringify refusing
             driver "GET" "/status" JUndefined fresh)). reflexivity.
  - apply (proj2 (request_connection_error JSON_parse JSON_stringify
             (answering (mkResponse 404 (BodyText "Not Found")))
             driver "GET" "/nowhere" JUndefined fresh)
             (mkResponse 404 (BodyText "Not Found"))); reflexivity.
Defined.





(** C8, as stated, fails: [saveSession] makes the directory and writes the
    state file itself; there is no temporary file and no rename. *)
Lemma saveSession_atomic_counterexample :
  let after := snd (saveSession JSON_stringify refusing active_record fresh) in
  fs_calls (log after)
  = [FsMkdir "/Users/me/.safari-cli";
     FsWriteFile "/Users/me/.safari-cli/session.json" active_text]
  /\ ~ spec_atomic_replace (STATE_FILE refusing) (fs_calls (log after)).
Proof.
  split; [vm_compute; reflexivity|].
  intros (tmp & data & _ & _ & Hr & _). vm_compute in Hr.
  destruct Hr as [Hr|[Hr|[]]]; discriminate.
Qed.

Lemma saveSession_direct_write_witness :
  saveSession JSON_stringify refusing active_record fresh
  = (Ret tt,
     mkWorld true (Some true) (File active_text true true) 0 0
       [EvFs (FsMkdir (STATE_DIR refusing));
        EvFs (FsWriteFile (STATE_FILE refusing) active_text)]).
Proof.
  apply (proj1 (saveSession_direct_write JSON_stringify refusing active_record fresh)
           eq_refl eq_refl eq_refl).
Defined.



Lemma loadSession_total_witness :
  loadSession JSON_parse fresh = (Ret JNull, fresh)
  /\ loadSession JSON_parse unreadable = (Ret JNull, unreadable)
  /\ loadSession JSON_parse corrupted = (Ret JNull, corrupted)
  /\ fst (requireSession JSON_parse corrupted) = Exit 1
  /\ fst (requireSession JSON_parse fresh) = Exit 1.
Proof.
  assert (Hfresh : no_usable_file JSON_parse fresh) by (left; reflexivity).
  assert (Hunreadable : no_usable_file JSON_parse unreadable)
    by (right; left; exists active_text, true; reflexivity).
  assert (Hcorrupted : no_usable_file JSON_parse corrupted)
    by (right; right; exists "{ port: 95", true; split; reflexivity).
  destruct (proj2 (loadSession_total JSON_parse fresh) Hfresh) as (L1 & R1).
  destruct (proj2 (loadSession_total JSON_parse unreadable) Hunreadable) as (L2 & _).
  destruct (proj2 (loadSession_total JSON_parse corrupted) Hcorrupted) as (L3 & R3).
  split; [exact L1|]. split; [exact L2|]. split; [exact L3|]. split.
  - rewrite R3. reflexivity.
  - rewrite R1. reflexivity.
Defined.

(** *** Further properties *)

Lemma request_one_fetch_witness :
  log (snd (request refusing driver "GET" "/status" JUndefined fresh))
  = [EvFetch "GET" "http://localhost:9515/status" None]
  /\ tick (snd (request refusing driver "GET" "/status" JUndefined fresh)) = 1%nat.
Proof.
  rewrite (proj1 (request_one_fetch JSON_parse JSON_stringify refusing
                    driver "GET" "/status" JUndefined fresh)).
  split; reflexivity.
Defined.


Lemma element_reference_edges_witness :
  element_reference (@JString Z "pong") fresh = (Ret (JString "p"), fresh)
  /\ element_reference (JNumber 42) fresh = (Ret JUndefined, fresh)
  /\ exists msg,
      element_reference (@JNull Z) fresh = (Throw (OtherError "TypeError" msg), fresh).
Proof.
  destruct (element_reference_edges fresh)
    as (_ & _ & Hn & _ & _ & _ & Hs & _ & Hnull).
  split; [exact (Hs "p"%char "ong")|]. split; [exact (Hn 42)|].
  exact (Hnull JNull (or_introl eq_refl)).
Defined.

Lemma findElements_results_witness :
  exists items,
    fst (request listing driver "POST" "/session/abc123/elements"
           (locator "css selector" "li") fresh) = Ret (JArray items)
    /\ List.length [@JString Z "node-1"; JString "node-2"] = List.length items
    /\ Forall2 (fun item id => forall w0, element_reference item w0 = (Ret id, w0))
         items [JString "node-1"; JString "node-2"].
Proof.
  exact (proj1 (findElements_results JSON_parse JSON_stringify listing
                  driver (JString "abc123") "css selector" "li" fresh)
           [JString "node-1"; JString "node-2"] eq_refl).
Defined.

Lemma waitForDriver_polls_witness :
  let probe := getStatus JSON_parse JSON_stringify starting driver in
  let run := waitForDriver JSON_parse JSON_stringify starting 9515 10000 fresh in
  exists n,
    n = 4%nat
    /\ failed_until starting probe 200 10000 n fresh
    /\ (exists v, fst (probe (after_failures starting probe 200 n fresh)) = Ret v)
    /\ run = (Ret tt, snd (probe (after_failures starting probe 200 n fresh))).
Proof.
  intros probe run.
  pose proof (waitForDriver_polls JSON_parse JSON_stringify starting 9515 10000 fresh)
    as Hpolls.
  cbv zeta in Hpolls. destruct Hpolls as (n & Hfail & Hend & _).
  change (getStatus JSON_parse JSON_stringify starting (new_WebDriver (JNumber 9515)))
    with probe in Hfail, Hend.
  fold run in Hend.
  assert (R : fst run = Ret tt) by (vm_compute; reflexivity).
  assert (F : fetches (log (snd run)) = 5%nat) by (vm_compute; reflexivity).
  exists n.
  destruct (clock (after_failures starting probe 200 n fresh) <? clock fresh + 10000).
  - destruct Hend as (Hv & Hr & Hf & _).
    split; [rewrite F in Hf; simpl in Hf; lia|].
    split; [exact Hfail|]. split; [exact Hv|exact Hr].
  - destruct Hend as (Hr & _). rewrite Hr in R. discriminate R.
Defined.

Lemma start_failure_witness :
  let lost := start JSON_parse JSON_stringify dead 9515 fresh in
  let late := start JSON_parse JSON_stringify refusing 9515 fresh in
  (fst lost = Exit 1
   /\ snd lost
      = emit (EvStderr "Failed to start safaridriver") (spawned JSON_parse dead 9515 fresh)
   /\ terminations (log (snd lost)) = 0%nat)
  /\ (fst late = Exit 1
      /\ spawns (log (snd late)) = 1%nat
      /\ terminations (log (snd late)) = 1%nat
      /\ exists e wc,
          waitForDriver JSON_parse JSON_stringify refusing 9515 10000
            (spawned JSON_parse refusing 9515 fresh) = (Throw e, wc)
          /\ snd late = abandoned refusing (exn_message e) 4242 wc).
Proof.
  intros lost late. split.
  - assert (E : start JSON_parse JSON_stringify dead 9515 fresh = (Exit 1, snd lost))
      by (vm_compute; reflexivity).
    destruct (start_failure JSON_parse JSON_stringify dead 9515 fresh E)
      as (_ & _ & _ & Hcase).
    change (os_spawn dead (tick (probed JSON_parse dead fresh))) with (@None Z) in Hcase.
    destruct Hcase as (Ht & Hw).
    split; [unfold lost; rewrite E; reflexivity|]. split; [exact Hw|exact Ht].
  - assert (E : start JSON_parse JSON_stringify refusing 9515 fresh = (Exit 1, snd late))
      by (vm_compute; reflexivity).
    destruct (start_failure JSON_parse JSON_stringify refusing 9515 fresh E)
      as (_ & _ & Hsp & Hcase).
    change (os_spawn refusing (tick (probed JSON_parse refusing fresh)))
      with (Some 4242) in Hcase.
    change (Number_toBoolean 4242) with true in Hcase.
    destruct Hcase as (Ht & e & wc & [(Ew & Hw)|(wr & Ew & _)]).
    + split; [unfold late; rewrite E; reflexivity|]. split; [exact Hsp|].
      split; [exact Ht|]. exists e, wc. split; [exact Ew|exact Hw].
    + exfalso. apply (f_equal fst) in Ew. vm_compute in Ew. discriminate Ew.
Defined.




Lemma main_outcomes_witness :
  let action := back_command JSON_parse JSON_stringify refusing in
  exists w2,
    main refusing action active = (Exit 1, w2)
    /\ w2 = emit (EvStderr
                    "Error: Cannot connect to SafariDriver at http://localhost:9515: fetch failed")
              (snd (action active)).
Proof.
  intro action.
  pose (e := mkWebDriverError
               "Cannot connect to SafariDriver at http://localhost:9515: fetch failed"
               None (@JUndefined Z)).
  assert (Ha : action active = (Throw (WDError e), snd (action active)))
    by (vm_compute; reflexivity).
  pose proof (main_outcomes refusing action active) as Hm.
  rewrite Ha in Hm. destruct Hm as (w2 & E & Hw).
  exists w2. split; [exact E|]. rewrite Ha. exact (Hw eq_refl).
Defined.

Lemma requireSession_accepts_witness :
  requireSession JSON_parse (holding "42") = (Ret (JNumber 42), holding "42")
  /\ requireSession JSON_parse (holding "{}") = (Ret (JObject []), holding "{}")
  /\ fst (requireSession JSON_parse (holding "0")) = Exit 1.
Proof.
  split; [|split].
  - exact (requireSession_accepts JSON_parse (holding "42") (v := JNumber 42)
             eq_refl eq_refl).
  - exact (requireSession_accepts JSON_parse (holding "{}") (v := JObject [])
             eq_refl eq_refl).
  - rewrite (requireSession_accepts JSON_parse (holding "0") (v := JNumber 0)
               eq_refl eq_refl).
    reflexivity.
Defined.

Lemma saveSession_loadSession_witness :
  let w' := snd (saveSession JSON_stringify refusing active_record fresh) in
  loadSession JSON_parse w' = (Ret active_record, w')
  /\ state_file w' = File active_text true true.
Proof.
  intro w'.
  assert (E : saveSession JSON_stringify refusing active_record fresh = (Ret tt, w'))
    by (vm_compute; reflexivity).
  exact (saveSession_loadSession JSON_parse JSON_stringify refusing fresh E
           (or_introl eq_refl) eq_refl).
Defined.

Lemma clearSession_idempotent_witness :
  exists w1,
    clearSession refusing active = (Ret tt, w1)
    /\ loadSession JSON_parse w1 = (Ret JNull, w1)
    /\ clearSession refusing w1 = (Ret tt, w1)
    /\ clearSession refusing fresh = (Ret tt, fresh).
Proof.
  destruct (clearSession_idempotent JSON_parse refusing active) as (w1 & E & _ & H1).
  destruct (H1 eq_refl) as [Hl Hc].
  destruct (clearSession_idempotent JSON_parse refusing fresh) as (w2 & E2 & H2 & _).
  exists w1. split; [exact E|]. split; [exact Hl|]. split; [exact Hc|].
  rewrite E2, (H2 eq_refl). reflexivity.
Defined.

Lemma methods_one_request_witness :
  exists o,
    invoke JSON_parse JSON_stringify refusing driver
      (Call_sendKeys (JString "abc123") (JString "node-1") "hello") fresh
    = (o, pass refusing 0
            (emit (EvFetch "POST"
                     "http://localhost:9515/session/abc123/element/node-1/value"
                     (Some (JSON_stringify (JObject [("text", JString "hello")]) 0)))
               fresh)).
Proof.
  destruct (methods_one_request JSON_parse JSON_stringify refusing driver
              (Call_sendKeys (JString "abc123") (JString "node-1") "hello") fresh)
    as (o & m & path & p & E & _).
  exists o. rewrite E. f_equal.
  apply (f_equal snd) in E. vm_compute in E. vm_compute. symmetry. exact E.
Defined.

Lemma commands_require_session_witness :
  navigate_command JSON_parse JSON_stringify refusing "example.com" fresh
  = (Exit 1,
     emit (EvStderr "No active Safari session. Run `safari-cli start` first.") fresh)
  /\ fetches (log (snd (find_command JSON_parse JSON_stringify refusing "li" true
                          corrupted))) = 0%nat.
Proof.
  split.
  - exact (@commands_require_session Z _ JSON_parse JSON_stringify refusing
             "example.com" "li" "" "" "" false false false false true None None
             (navigate_command JSON_parse JSON_stringify refusing "example.com") fresh
             (or_intror (or_intror (or_intror (or_introl eq_refl)))) eq_refl).
  - rewrite (@commands_require_session Z _ JSON_parse JSON_stringify refusing
               "example.com" "li" "" "" "" false false false false true None None
               (find_command JSON_parse JSON_stringify refusing "li" true) corrupted
               (or_intror (or_intror (or_intror (or_intror (or_intror (or_intror
                 (or_intror (or_intror (or_intror (or_intror (or_introl eq_refl)))))))))))
               eq_refl).
    reflexivity.
Defined.




Lemma toRun_cases_witness :
  toRun "var a = 1; a + 1 ;" = "var a = 1; return a + 1"
  /\ toRun "document.title" = "return document.title"
  /\ toRun ("var a = 1" ++ String "010" "  return a") = "var a = 1" ++ String "010" "  return a"
  /\ toRun " ; " = "return ".
Proof.
  assert (Hno : forall s, has_return_line true s = false -> ~ return_line s).
  { intros s E Hr. apply return_line_spec in Hr. rewrite E in Hr. discriminate Hr. }
  assert (Hplain : forall s, has_semicolon s = false -> no_semicolon s).
  { intros s E. apply no_semicolon_spec, E. }
  assert (Hsemi : forall a b, ~ no_semicolon (a ++ ";" ++ b)).
  { intros a b Hn. exact (Hn a b eq_refl). }
  split; [|split; [|split]].
  - exact (proj1 (proj2 (proj2 (toRun_cases "var a = 1; a + 1 ;")))
             (Hno "var a = 1; a + 1 ;" eq_refl) (Hsemi "var a = 1" " a + 1 ;")
             ["var a = 1"; " a + 1 "; ""] ["var a = 1"; "a + 1"; ""]
             ltac:(discriminate) eq_refl
             (Forall_cons _ (Hplain "var a = 1" eq_refl)
                (Forall_cons _ (Hplain " a + 1 " eq_refl)
                   (Forall_cons _ (Hplain "" eq_refl) (Forall_nil _))))
             (Forall2_cons _ _ (trim_trimmed "var a = 1")
                (Forall2_cons _ _ (trim_trimmed " a + 1 ")
                   (Forall2_cons _ _ (trim_trimmed "") (Forall2_nil _))))).
  - exact (proj1 (proj2 (toRun_cases "document.title"))
             (Hno "document.title" eq_refl) (Hplain "document.title" eq_refl)).
  - apply (proj1 (toRun_cases ("var a = 1" ++ String "010" "  return a"))).
    exists ("var a = 1" ++ String "010" ""), "  ", " "%char, "a".
    split; [reflexivity|].
    split; [right; exists "var a = 1", "010"%char; split; reflexivity|].
    split; reflexivity.
  - exact (proj1 (proj2 (proj2 (toRun_cases " ; ")))
             (Hno " ; " eq_refl) (Hsemi " " " ")
             [" "; " "] [""; ""]
             ltac:(discriminate) eq_refl
             (Forall_cons _ (Hplain " " eq_refl)
                (Forall_cons _ (Hplain " " eq_refl) (Forall_nil _)))
             (Forall2_cons _ _ (trim_trimmed " ")
                (Forall2_cons _ _ (trim_trimmed " ") (Forall2_nil _)))).
Defined.


Lemma find_counts_witness :
  exists o w',
    find_command JSON_parse JSON_stringify listing "li" true active = (o, w')
    /\ fetches (log w') = 5%nat
    /\ outputs (log w') = 3%nat
    /\ In (EvStdout "Found 2 element(s)") (log w').
Proof.
  destruct (find_counts JSON_parse JSON_stringify listing "li" true active eq_refl)
    as (o & w' & E & _ & _ & Hc).
  assert (Ho : o = Ret tt).
  { apply (f_equal fst) in E. vm_compute in E. symmetry. exact E. }
  destruct (Hc Ho) as (elements & He & Hf & Hp & Hin).
  vm_compute in He. injection He as <-.
  exists o, w'. split; [exact E|]. split; [exact Hf|]. split; [exact Hp|exact Hin].
Defined.

Lemma alert_precedence_witness :
  let run := alert_command JSON_parse JSON_stringify (returning JNull)
               (Some "yes") true true active in
  fst run = Ret tt
  /\ exists line,
      log (snd run)
      = [EvFetch "POST" "http://localhost:9515/session/abc123/alert/text"
           (Some (JSON_stringify (JObject [("text", @JString Z "yes")]) 0));
         EvFetch "POST" "http://localhost:9515/session/abc123/alert/accept"
           (Some (JSON_stringify (@JObject Z []) 0));
         EvStdout line]
      /\ line = "Alert accepted.".
Proof.
  intro run.
  assert (E : alert_command JSON_parse JSON_stringify (returning JNull)
                (Some "yes") true true active = (Ret tt, snd run))
    by (vm_compute; reflexivity).
  destruct (alert_precedence JSON_parse JSON_stringify (returning JNull)
              (Some "yes") true true active eq_refl E) as (line & Hlog & Ha & _).
  split; [unfold run; rewrite E; reflexivity|].
  exists line. split; [exact Hlog|exact (Ha eq_refl)].
Defined.
End Runs.
